(** * srslsud: the APT provenance engine of the save/restore software list script

    A shallow embedding of the APT part of [src/srslsud.py]
    (functions [apt_remove_word_from_brackets_in_sources_list],
    [apt_add_deb_url_to_deb_info], [apt_get_ppa_shortcut],
    [extract_unique_elements], [apt_parse_debcache] and [apt_operations])
    together with the properties of its specification.

    Python [str] values are modelled by [string]; a character is read as the
    code point of the same number (0..255).  Python exceptions and
    [sys.exit] are modelled by [None] in the [option] monad. *)

From Stdlib Require Import Ascii String NArith.
From stdpp Require Import base option list strings gmap sorting.

Local Open Scope string_scope.
Local Open Scope list_scope.
Local Open Scope nat_scope.
Local Open Scope stdpp_scope.

(** ** Python string primitives used by the script *)
Module Py.

(** [str.isspace] for one character: general category Zs or bidirectional
    class WS, B or S, restricted to code points below 256. *)
Definition isspace (c : ascii) : bool :=
  let n := N_of_ascii c in
  ((9 <=? n) && (n <=? 13) || (28 <=? n) && (n <=? 32)
   || (n =? 133) || (n =? 160))%N.

(** [str.lower] for one character, code points below 256. *)
Definition lower_char (c : ascii) : ascii :=
  let n := N_of_ascii c in
  if ((65 <=? n) && (n <=? 90)
      || (192 <=? n) && (n <=? 222) && negb (n =? 215))%N
  then ascii_of_N (n + 32) else c.

(** [s.lower()] *)
Fixpoint lower (s : string) : string :=
  match s with
  | "" => ""
  | String c s' => String (lower_char c) (lower s')
  end.

(** [s.startswith(p)] *)
Definition startswith (s p : string) : bool := String.prefix p s.

(** [a in s] for strings: [a] occurs in [s] as a substring. *)
Fixpoint contains (a s : string) : bool :=
  String.prefix a s ||
  match s with
  | "" => false
  | String _ s' => contains a s'
  end.

(** [s.find(a)]: index of the leftmost occurrence. *)
Fixpoint find (a s : string) : option nat :=
  if String.prefix a s then Some 0
  else match s with
       | "" => None
       | String _ s' => S <$> find a s'
       end.

(** [s[n:]] *)
Fixpoint drop (n : nat) (s : string) : string :=
  match n, s with
  | 0, _ => s
  | S _, "" => ""
  | S k, String _ s' => drop k s'
  end.

(** [s[:n]] *)
Fixpoint take (n : nat) (s : string) : string :=
  match n, s with
  | 0, _ => ""
  | S _, "" => ""
  | S k, String c s' => String c (take k s')
  end.

(** Number of occurrences of the character [c] in [s]. *)
Fixpoint count_char (c : ascii) (s : string) : nat :=
  match s with
  | "" => 0
  | String d s' => (if Ascii.eqb c d then 1 else 0) + count_char c s'
  end.

(** Prepend a character to the first piece of a list of pieces. *)
Definition cons_first (c : ascii) (l : list string) : list string :=
  match l with
  | [] => [String c ""]
  | h :: t => String c h :: t
  end.

(** [s.split(sep, maxsplit)] for a non-empty separator: the pieces between
    the leftmost non-overlapping occurrences of [sep]; [maxsplit = None] is
    Python's default (no limit).  [skip] counts the characters of an
    occurrence of [sep] still to be passed over. *)
Fixpoint split_go (sep : string) (maxsplit : option nat) (skip : nat)
    (s : string) : list string :=
  match s with
  | "" => [""]
  | String c s' =>
      match skip with
      | S k => split_go sep maxsplit k s'
      | 0 =>
          match maxsplit with
          | Some 0 => [s]
          | _ =>
              if String.prefix sep s
              then "" :: split_go sep (pred <$> maxsplit)
                           (String.length sep - 1) s'
              else cons_first c (split_go sep maxsplit 0 s')
          end
      end
  end.

Definition split (s sep : string) : list string := split_go sep None 0 s.

Definition split_max (s sep : string) (maxsplit : nat) : list string :=
  split_go sep (Some maxsplit) 0 s.

(** [s.split()]: the maximal runs of non-whitespace characters. *)
Fixpoint split_ws (s : string) : list string :=
  match s with
  | "" => []
  | String c s' =>
      if isspace c then split_ws s'
      else match s' with
           | "" => [String c ""]
           | String c' _ =>
               if isspace c' then String c "" :: split_ws s'
               else cons_first c (split_ws s')
           end
  end.

(** [sep.join(l)] *)
Definition join (sep : string) (l : list string) : string :=
  String.concat sep l.

(** [s.replace(old, new)] for a non-empty [old]. *)
Definition replace (s old new : string) : string :=
  join new (split s old).

(** [l.remove(x)]: drops the first element equal to [x]; the script only
    removes an element it has just read from the list. *)
Fixpoint list_remove (x : string) (l : list string) : list string :=
  match l with
  | [] => []
  | y :: l' => if decide (x = y) then l' else y :: list_remove x l'
  end.

End Py.

(** ** Repository-entry normalizer *)
Module Normalizer.

(** The loop [for sb in sss: if wordtoremove in sb: sss.remove(sb)].
    Python's list iterator keeps an index [i] into the list it walks, and
    the loop body shortens that same list: after a removal the next element
    has moved to index [i] and the iterator goes on at [i + 1]. *)
Fixpoint remove_loop (fuel i : nat) (wordtoremove : string)
    (sss : list string) : list string :=
  match fuel with
  | 0 => sss
  | S fuel' =>
      match sss !! i with
      | None => sss
      | Some sb =>
          if Py.contains wordtoremove sb
          then remove_loop fuel' (S i) wordtoremove (Py.list_remove sb sss)
          else remove_loop fuel' (S i) wordtoremove sss
      end
  end.

(** [t[1] = "[" + t[1]]; [None] is Python's [IndexError]. *)
Definition bracket_second (t : list string) : option (list string) :=
  match t !! 1 with
  | Some t1 => Some (<[1 := "[" +:+ t1]> t)
  | None => None
  end.

Definition apt_remove_word_from_brackets_in_sources_list
    (st wordtoremove : string) : option string :=
  let ss := Py.split st "]" in
  match ss with
  | [ss0; ss1] =>
      let sss := Py.split_ws ss0 in
      let sss := remove_loop (length sss) 0 wordtoremove sss in
      let st := Py.join " " sss +:+ "]" +:+ ss1 in
      if negb (Py.contains "[" st) then
        t ← bracket_second (Py.split_ws st);
        Some (Py.join " " t)
      else Some st
  | _ => Some st
  end.

End Normalizer.

(** ** Launchpad PPA shortcut *)
Module Ppa.

Definition marker : string := "ppa.launchpad.net/".

(** [url.split("ppa.launchpad.net/")[1]] raises [IndexError] when the marker
    does not occur in [url]; the test [len(ppa_split) >= 2] is the pattern
    with two leading elements. *)
Definition apt_get_ppa_shortcut (url : string) : option string :=
  after ← Py.split url marker !! 1;
  let ppa_split := Py.split_max after "/" 2 in
  Some (match ppa_split with
        | user :: ppa :: _ => "ppa:" +:+ user +:+ "/" +:+ ppa
        | _ => ""
        end).

End Ppa.

(** ** De-duplication of dictionary values *)
Module Uniq.
Section Extract.

Context {V : Type} `{EqDecision V}.

(** The loop of [extract_unique_elements] over the records, with the
    accumulator [out_list]; [el[repo_key_name]] raises [KeyError] when the
    record has no such key. *)
Fixpoint extract_loop (elements_list : list (gmap string V))
    (repo_key_name : string) (out_list : list V) : option (list V) :=
  match elements_list with
  | [] => Some out_list
  | el :: elements_list' =>
      v ← el !! repo_key_name;
      extract_loop elements_list' repo_key_name
        (if decide (v ∈ out_list) then out_list else out_list ++ [v])
  end.

Definition extract_unique_elements (elements_list : list (gmap string V))
    (repo_key_name : string) : option (list V) :=
  extract_loop elements_list repo_key_name [].

(** The specification's reading: every value once, at the place of its
    first occurrence. *)
Fixpoint first_occurrences (vs : list V) : list V :=
  match vs with
  | [] => []
  | v :: vs' => v :: filter (λ x, x ≠ v) (first_occurrences vs')
  end.

End Extract.
End Uniq.

(** ** The APT engine: data model *)
Module Apt.

(** [apt.package.Origin] *)
Record Origin := {
  o_origin : string;
  o_archive : string;
  o_trusted : bool;
  o_component : string;
  o_label : string;
}.

(** [apt.Package], with the parts of it the script reads: [dependencies] are
    the names of the packages in the [PreDepends], [Depends] and [Recommends]
    of the installed version, [origins] is [pkg.installed.origins]. *)
Record Package := {
  pkg_name : string;
  is_installed : bool;
  is_auto_installed : bool;
  dependencies : list string;
  origins : list Origin;
}.

(** An index file found by [sources.find_index]. *)
Record IndexFile := {
  idx_label : string;
  idx_describe : string;
}.

(** One key of [apt_key_list()]. *)
Record AptKey := {
  k_key : string;
  k_expiry : string;
  k_name : string;
}.

(** One element of the list [apt_parse_debcache] builds; the key ['deb-url']
    is only there once [apt_add_deb_url_to_deb_info] has found a source. *)
Record DebInfo := {
  di_name : string;
  di_origin : Origin;
  di_describe : string;
  di_deb_url : option string;
}.

Inductive DistroKind :=
  | UbuntuDistribution
  | DebianDistribution
  | OtherDistribution.

(** [aptsources.distro.get_distro()] *)
Record Distro := {
  d_kind : DistroKind;
  d_id : string;
  d_codename : string;
  d_release : string;
}.

(** Values stored in the dictionaries of the snapshot document. *)
Inductive value :=
  | VStr (s : string)
  | VKey (k : AptKey).

Record PackageStats := {
  total : nat;
  official : nat;
  ppas : nat;
  thirdparty : nat;
  local : nat;
}.

(** [deb_pkg_list], the document saved to [debs.json]. *)
Record Snapshot := {
  distro : Distro;
  package_stats : PackageStats;
  official_packages : list (gmap string value);
  launchpad_ppa_packages : list (gmap string value);
  thirdparty_packages : list (gmap string value);
  thirdparty_keys : list (gmap string value);
  local_packages : list string;
}.

(** What the script prints, one constructor per [print] call. *)
Inductive Message :=
  | MsgRunning (distro_name release codename : string)
  | MsgDistroNotSupported
  | MsgMode (operation : string)
  | MsgTotalManual (n : nat)
  | MsgOfficial (n : nat) (names : list string)
  | MsgPpa (n : nat) (names : list string)
  | MsgThirdparty (n : nat) (names : list string)
  | MsgLocal (n : nat) (names : list string)
  | MsgTrustedKeys (keys : list AptKey)
  | MsgSourcesList (sources : list string)
  | MsgCalculate
  | MsgSaving (filename : string)
  | MsgLoading
  | MsgFileContains (n : nat)
  | MsgFileOfficial (n : nat) (names : list value)
  | MsgFilePpa (n : nat) (names : list value)
  | MsgFileThirdparty (n : nat) (names : list value)
  | MsgFileLocal (n : nat) (names : list string)
  | MsgLocalNote
  | MsgAllWritten (filename : string)
  | MsgReview (filename : string)
  | MsgWrongDistro (file_codename file_id codename id : string)
  | MsgFinished.

(** The host as the collaborators of the script present it. *)
Record Host := {
  h_distro : Distro;
  h_apt_cache : list Package;
  h_apt_keys : list AptKey;
  h_sources_list : list string;
  (** [depcache.get_candidate_ver(cache[name]).file_list], each file put
      through [sources.find_index]; [None] when the lookup raises. *)
  h_candidate_indexes : string → option (list (option IndexFile));
  (** [cache[name].name] for the cache of [apt_pkg]: the name of the
      package found under [name], without its architecture; it differs
      from [name] for a package of a foreign architecture. *)
  h_cache_name : string → string;
}.

(** The mutable world: the JSON document, the text files and the output. *)
Record World := {
  debs_json : option Snapshot;
  files : gmap string (list string);
  stdout : list Message;
}.

#[global] Instance Origin_eq_dec : EqDecision Origin.
Proof. solve_decision. Defined.
#[global] Instance AptKey_eq_dec : EqDecision AptKey.
Proof. solve_decision. Defined.
#[global] Instance value_eq_dec : EqDecision value.
Proof. solve_decision. Defined.

Definition deb_pkg_filename : string := "debs.json".
Definition apt_script_file : string := "apt.sh".

Definition print (m : Message) (w : World) : World :=
  {| debs_json := debs_json w; files := files w; stdout := stdout w ++ [m] |}.

(** [open(filename, 'w')] followed by [close]: the file is created empty or
    truncated. *)
Definition truncate_file (filename : string) (w : World) : World :=
  {| debs_json := debs_json w;
     files := <[filename := []]> (files w);
     stdout := stdout w |}.

(** [open(filename, mode='a+')]: a missing file is created. *)
Definition append_command_to_script (filename command : string) (w : World)
    : World :=
  {| debs_json := debs_json w;
     files := <[filename := default [] (files w !! filename) ++ [command]]>
                (files w);
     stdout := stdout w |}.

(** The content of the generated script. *)
Definition script_of (w : World) : list string :=
  default [] (files w !! apt_script_file).

Definition save_object (obj : Snapshot) (w : World) : World :=
  {| debs_json := Some obj; files := files w; stdout := stdout w |}.

(** ** Classification *)

Record Buckets := {
  pkg_ubuntu : list (string * Origin);
  pkg_thirdparty_ppa : list (string * Origin);
  pkg_thirdparty_deb : list (string * Origin);
  pkg_local : list string;
}.

Definition no_buckets : Buckets :=
  {| pkg_ubuntu := []; pkg_thirdparty_ppa := [];
     pkg_thirdparty_deb := []; pkg_local := [] |}.

(** The four conditions of the classification loop, as written. *)
Definition is_ubuntu (o : Origin) : bool := String.eqb (o_origin o) "Ubuntu".

Definition is_thirdparty_ppa (o : Origin) : bool :=
  negb (String.eqb (o_origin o) "Ubuntu")
  && negb (String.eqb (o_archive o) "now")
  && o_trusted o && Py.startswith (o_origin o) "LP-PPA".

Definition is_thirdparty_deb (o : Origin) : bool :=
  negb (String.eqb (o_origin o) "Ubuntu")
  && negb (String.eqb (o_archive o) "now")
  && o_trusted o && negb (Py.startswith (o_origin o) "LP-PPA").

Definition is_local (o : Origin) : bool :=
  String.eqb (o_archive o) "now" || negb (o_trusted o).

(** One turn of the loop: four independent [if] statements. *)
Definition classify_step (b : Buckets) (name : string) (o : Origin) : Buckets :=
  let b := if is_ubuntu o
           then {| pkg_ubuntu := pkg_ubuntu b ++ [(name, o)];
                   pkg_thirdparty_ppa := pkg_thirdparty_ppa b;
                   pkg_thirdparty_deb := pkg_thirdparty_deb b;
                   pkg_local := pkg_local b |}
           else b in
  let b := if is_thirdparty_ppa o
           then {| pkg_ubuntu := pkg_ubuntu b;
                   pkg_thirdparty_ppa := pkg_thirdparty_ppa b ++ [(name, o)];
                   pkg_thirdparty_deb := pkg_thirdparty_deb b;
                   pkg_local := pkg_local b |}
           else b in
  let b := if is_thirdparty_deb o
           then {| pkg_ubuntu := pkg_ubuntu b;
                   pkg_thirdparty_ppa := pkg_thirdparty_ppa b;
                   pkg_thirdparty_deb := pkg_thirdparty_deb b ++ [(name, o)];
                   pkg_local := pkg_local b |}
           else b in
  if is_local o
  then {| pkg_ubuntu := pkg_ubuntu b;
          pkg_thirdparty_ppa := pkg_thirdparty_ppa b;
          pkg_thirdparty_deb := pkg_thirdparty_deb b;
          pkg_local := pkg_local b ++ [name] |}
  else b.

(** [apt_cache[i]] *)
Definition cache_lookup (apt_cache : list Package) (i : string)
    : option Package :=
  list_find (λ pkg, pkg_name pkg = i) apt_cache ≫= λ r, Some r.2.

(** [for i in installed: ...]; [pkg.installed.origins[0]] raises
    [IndexError] on an empty list of origins. *)
Fixpoint classify (apt_cache : list Package) (installed : list string)
    (b : Buckets) : option Buckets :=
  match installed with
  | [] => Some b
  | i :: installed' =>
      pkg ← cache_lookup apt_cache i;
      o ← head (origins pkg);
      classify apt_cache installed' (classify_step b (pkg_name pkg) o)
  end.

(** The manually installed packages that are no dependency of another one,
    by name, sorted. *)
Definition manual_packages (apt_cache : list Package) : list Package :=
  filter (λ pkg, is_installed pkg = true ∧ is_auto_installed pkg = false)
    apt_cache.

Definition depends_of (manual : list Package) : list string :=
  manual ≫= dependencies.

Definition installed_names (apt_cache : list Package) : list string :=
  let manual := manual_packages apt_cache in
  let depends := depends_of manual in
  merge_sort String.le
    (filter (λ n, n ∉ depends) (pkg_name <$> manual)).

(** ** Candidate origins and repository lines *)

(** The inner loop of [apt_parse_debcache] for the package [pkg] found in
    the cache of [apt_pkg]: one element per index file of the candidate
    version whose label is the package index label; [name] is [pkg.name]
    and [o] is [p[1]]. *)
Definition index_elements (name : string) (o : Origin)
    (indexes : list (option IndexFile)) : list DebInfo :=
  indexes ≫= λ index,
    match index with
    | Some index =>
        if String.eqb (idx_label index) "Debian Package Index"
        then [ {| di_name := name; di_origin := o;
                  di_describe := idx_describe index;
                  di_deb_url := None |} ]
        else []
    | None => []
    end.

(** [apt_parse_debcache]; [cache_name] and [candidate_indexes] are the
    name and the index files of the package [cache[p[0]]]. *)
Fixpoint apt_parse_debcache (cache_name : string → string)
    (candidate_indexes : string → option (list (option IndexFile)))
    (package_list : list (string * Origin)) : option (list DebInfo) :=
  match package_list with
  | [] => Some []
  | p :: package_list' =>
      indexes ← candidate_indexes p.1;
      out_list ←
        apt_parse_debcache cache_name candidate_indexes package_list';
      Some (index_elements (cache_name p.1) p.2 indexes ++ out_list)
  end.

(** The inner loop of [apt_add_deb_url_to_deb_info] for one element: each
    source line that has [ds] in it overwrites ['deb-url']. *)
Fixpoint add_deb_url (ds : string) (sources_list : list string) (t : DebInfo)
    : option DebInfo :=
  match sources_list with
  | [] => Some t
  | s :: sources_list' =>
      if Py.contains ds s then
        url ← Normalizer.apt_remove_word_from_brackets_in_sources_list
                s "signed-by";
        add_deb_url ds sources_list'
          {| di_name := di_name t; di_origin := di_origin t;
             di_describe := di_describe t; di_deb_url := Some url |}
      else add_deb_url ds sources_list' t
  end.

Definition apt_add_deb_url_to_deb_info (deb_info : list DebInfo)
    (sources_list : list string) : option (list DebInfo) :=
  mapM (λ t, add_deb_url (default "" (head (Py.split (di_describe t) " ")))
               sources_list t) deb_info.

(** ** Key matching *)
Section KeyMatcher.

(** [bytes(s, encoding='utf-8').decode("unicode_escape")] of the Python
    library; [None] when it raises [UnicodeDecodeError]. *)
Variable unicode_escape : string → option string.

(** What [str.format] prints for a key dictionary (Python's [repr]). *)
Variable dict_repr : AptKey → string.

Definition e1 (p : DebInfo) (k : AptKey) : bool :=
  Py.contains (k_name k) (di_name p).
Definition e2 (p : DebInfo) (k : AptKey) : bool :=
  Py.contains (di_name p) (k_name k).
Definition e3 (p : DebInfo) (k : AptKey) : bool :=
  bool_decide (0 < String.length (o_origin (di_origin p)))%nat
  && Py.contains (o_origin (di_origin p)) (k_name k).
Definition e4 (p : DebInfo) (k : AptKey) : bool :=
  bool_decide (0 < String.length (o_label (di_origin p)))%nat
  && Py.contains (o_label (di_origin p)) (k_name k).
Definition e5 (p : DebInfo) (k : AptKey) : bool :=
  bool_decide (0 < String.length (o_label (di_origin p)))%nat
  && Py.contains (k_name k) (o_label (di_origin p)).
(** [p['name'].replace("-", " ") in k['name'].lower()] *)
Definition e7 (p : DebInfo) (k : AptKey) : bool :=
  Py.contains (Py.replace (di_name p) "-" " ") (Py.lower (k_name k)).

(** The openSUSE Build Service test; [deb_url] is [p['deb-url']]. *)
Definition e6 (deb_url : string) (k : AptKey) : option bool :=
  if Py.contains "build.opensuse.org" (k_name k) then
    if Py.contains "home\x" (k_name k) then
      decoded ← unicode_escape (k_name k);
      let obs_repo_user :=
        default "" (head (Py.split (Py.replace decoded "home:" "home:/") " "))
      in Some (Py.contains obs_repo_user deb_url)
    else
      let obs_repo_user := default "" (head (Py.split (k_name k) " ")) in
      Some (Py.contains obs_repo_user deb_url)
  else Some false.

Definition tpk_record (name : string) (k : AptKey) : gmap string value :=
  {[ "name" := VStr name; "key" := VKey k ]}.

(** [for k in apt_keys: ...] for one package [p]: the records appended to
    [deb_pkg_list['thirdparty_keys']]. *)
Fixpoint match_keys (p : DebInfo) (deb_url : string) (apt_keys : list AptKey)
    : option (list (gmap string value)) :=
  match apt_keys with
  | [] => Some []
  | k :: apt_keys' =>
      if negb (Py.startswith (k_name k) "Launchpad") then
        b6 ← e6 deb_url k;
        rest ← match_keys p deb_url apt_keys';
        Some (if e1 p k || e2 p k || e3 p k || e4 p k || e5 p k || b6
                 || e7 p k
              then tpk_record (di_name p) k :: rest
              else rest)
      else match_keys p deb_url apt_keys'
  end.

(** ** Building the snapshot *)

Definition op_record (op : DebInfo) : gmap string value :=
  {[ "name" := VStr (di_name op);
     "component" := VStr (o_component (di_origin op));
     "archive" := VStr (o_archive (di_origin op)) ]}.

Definition lpp_record (lpp : DebInfo) : option (gmap string value) :=
  url ← di_deb_url lpp;
  repo ← Ppa.apt_get_ppa_shortcut url;
  Some {[ "name" := VStr (di_name lpp); "repo" := VStr repo ]}.

Definition tp_record (name deb_url : string) : gmap string value :=
  {[ "name" := VStr name; "repo" := VStr deb_url ]}.

(** [for p in pkg_thirdparty_deb_info: ...]: the third-party records and the
    matched keys, in the order of the appends. *)
Fixpoint thirdparty_records (apt_keys : list AptKey) (info : list DebInfo)
    : option (list (gmap string value) * list (gmap string value)) :=
  match info with
  | [] => Some ([], [])
  | p :: info' =>
      deb_url ← di_deb_url p;
      keys ← match_keys p deb_url apt_keys;
      '(packages, keys') ← thirdparty_records apt_keys info';
      Some (tp_record (di_name p) deb_url :: packages, keys ++ keys')
  end.

Definition distro_name (d : Distro) : option string :=
  match d_kind d with
  | UbuntuDistribution => Some "Ubuntu"
  | DebianDistribution => Some "Debian"
  | OtherDistribution => None
  end.

Definition detect_distro (d : Distro) (w : World) : World :=
  match distro_name d with
  | Some n => print (MsgRunning n (d_release d) (d_codename d)) w
  | None => print MsgDistroNotSupported w
  end.

Definition apt_save (h : Host) (w : World) : option World :=
  let installed := installed_names (h_apt_cache h) in
  let w := print (MsgTotalManual (length installed)) w in
  b ← classify (h_apt_cache h) installed no_buckets;
  let w := print (MsgOfficial (length (pkg_ubuntu b)) (pkg_ubuntu b).*1) w in
  let w := print (MsgPpa (length (pkg_thirdparty_ppa b))
                    (pkg_thirdparty_ppa b).*1) w in
  let w := print (MsgThirdparty (length (pkg_thirdparty_deb b))
                    (pkg_thirdparty_deb b).*1) w in
  let w := print (MsgLocal (length (pkg_local b)) (pkg_local b)) w in
  let w := print (MsgTrustedKeys (h_apt_keys h)) w in
  let w := print (MsgSourcesList (h_sources_list h)) w in
  let w := print MsgCalculate w in
  pkg_ubuntu_info ←
    apt_parse_debcache (h_cache_name h) (h_candidate_indexes h)
      (pkg_ubuntu b);
  pkg_thirdparty_ppa_info ←
    apt_parse_debcache (h_cache_name h) (h_candidate_indexes h)
      (pkg_thirdparty_ppa b);
  pkg_thirdparty_deb_info ←
    apt_parse_debcache (h_cache_name h) (h_candidate_indexes h)
      (pkg_thirdparty_deb b);
  pkg_thirdparty_ppa_info ←
    apt_add_deb_url_to_deb_info pkg_thirdparty_ppa_info (h_sources_list h);
  pkg_thirdparty_deb_info ←
    apt_add_deb_url_to_deb_info pkg_thirdparty_deb_info (h_sources_list h);
  let stats :=
    {| total := length installed;
       official := length (pkg_ubuntu b);
       ppas := length (pkg_thirdparty_ppa b);
       thirdparty := length (pkg_thirdparty_deb b);
       local := length (pkg_local b) |} in
  launchpad ← mapM lpp_record pkg_thirdparty_ppa_info;
  '(packages, keys) ← thirdparty_records (h_apt_keys h) pkg_thirdparty_deb_info;
  let deb_pkg_list :=
    {| distro := h_distro h;
       package_stats := stats;
       official_packages := op_record <$> pkg_ubuntu_info;
       launchpad_ppa_packages := launchpad;
       thirdparty_packages := packages;
       thirdparty_keys := keys;
       local_packages := pkg_local b |} in
  let w := print (MsgSaving deb_pkg_filename) w in
  Some (save_object deb_pkg_list w).

(** ** Synthesizing the script *)

(** [str.format] of a value taken out of a dictionary. *)
Definition format_value (v : value) : string :=
  match v with VStr s => s | VKey k => dict_repr k end.

(** An element handed to [' '.join]: anything but a string raises
    [TypeError]. *)
Definition join_item (v : value) : option string :=
  match v with VStr s => Some s | VKey _ => None end.

(** [tpk['key']] for an element of the list of unique keys. *)
Definition key_id (v : value) : option string :=
  match v with VKey k => Some (k_key k) | VStr _ => None end.

Definition apt_show_package_names_dict (p_list : list (gmap string value))
    : option (list value) :=
  mapM (λ p, p !! "name") p_list.

Definition append_commands (filename : string) (commands : list string)
    (w : World) : World :=
  foldl (λ w c, append_command_to_script filename c w) w commands.

Definition guard_line (codename : string) : string :=
  "lsb_release -cs | grep -q '" +:+ codename
  +:+ "' || { echo 'Error: you are running different system version. Script will stop.'; exit; }".

Definition key_line (key : string) : string :=
  "apt-key adv --keyserver keyserver.ubuntu.com --recv " +:+ key.

Definition repo_line (c : string) : string := "add-apt-repository " +:+ c.

Definition quoted_repo_line (tpr : string) : string :=
  "add-apt-repository '" +:+ tpr +:+ "'".

Definition install_line (pkgs : list string) : string :=
  "apt install " +:+ Py.join " " pkgs.

(** The commands of the three sections, in the order they are appended. *)
Definition official_commands (d : Snapshot) : option (list string) :=
  components ← Uniq.extract_unique_elements (official_packages d) "component";
  names ← Uniq.extract_unique_elements (official_packages d) "name";
  names ← mapM join_item names;
  Some (["dpkg --add-architecture i386"]
        ++ (repo_line ∘ format_value <$> components)
        ++ ["apt-get update"; install_line names]).

Definition ppa_commands (d : Snapshot) : option (list string) :=
  repos ← Uniq.extract_unique_elements (launchpad_ppa_packages d) "repo";
  names ← Uniq.extract_unique_elements (launchpad_ppa_packages d) "name";
  names ← mapM join_item names;
  Some ((repo_line ∘ format_value <$> repos)
        ++ ["apt-get update"; install_line names]).

Definition thirdparty_commands (d : Snapshot) : option (list string) :=
  tpks ← Uniq.extract_unique_elements (thirdparty_keys d) "key";
  tpks ← mapM key_id tpks;
  tprs ← Uniq.extract_unique_elements (thirdparty_packages d) "repo";
  names ← Uniq.extract_unique_elements (thirdparty_packages d) "name";
  names ← mapM join_item names;
  Some ((key_line <$> tpks) ++ (quoted_repo_line ∘ format_value <$> tprs)
        ++ ["apt-get update"; install_line names]).

Definition load_official (d : Snapshot) (w : World) : option World :=
  if decide (0 < official (package_stats d))%nat then
    names ← apt_show_package_names_dict (official_packages d);
    let w := print (MsgFileOfficial (official (package_stats d)) names) w in
    commands ← official_commands d;
    Some (append_commands apt_script_file commands w)
  else Some w.

Definition load_ppa (d : Snapshot) (w : World) : option World :=
  if decide (0 < ppas (package_stats d))%nat then
    names ← apt_show_package_names_dict (launchpad_ppa_packages d);
    let w := print (MsgFilePpa (ppas (package_stats d)) names) w in
    commands ← ppa_commands d;
    Some (append_commands apt_script_file commands w)
  else Some w.

Definition load_thirdparty (d : Snapshot) (w : World) : option World :=
  if decide (0 < thirdparty (package_stats d))%nat then
    names ← apt_show_package_names_dict (thirdparty_packages d);
    let w := print (MsgFileThirdparty (thirdparty (package_stats d)) names) w in
    commands ← thirdparty_commands d;
    Some (append_commands apt_script_file commands w)
  else Some w.

Definition load_local (d : Snapshot) (w : World) : World :=
  if decide (0 < local (package_stats d))%nat then
    print MsgLocalNote
      (print (MsgFileLocal (local (package_stats d)) (local_packages d)) w)
  else w.

Definition apt_load (h : Host) (w : World) : option World :=
  let w := print MsgLoading w in
  let w := truncate_file apt_script_file w in
  deb_pkg_list ← debs_json w;
  if String.eqb (d_codename (distro deb_pkg_list)) (d_codename (h_distro h))
     && String.eqb (d_id (distro deb_pkg_list)) (d_id (h_distro h))
  then
    let w := print (MsgFileContains (total (package_stats deb_pkg_list))) w in
    if decide (0 < total (package_stats deb_pkg_list))%nat then
      let w := append_command_to_script apt_script_file "#!/bin/bash" w in
      let w := append_command_to_script apt_script_file
                 (guard_line (d_codename (h_distro h))) w in
      w ← load_official deb_pkg_list w;
      w ← load_ppa deb_pkg_list w;
      w ← load_thirdparty deb_pkg_list w;
      let w := load_local deb_pkg_list w in
      let w := print (MsgAllWritten apt_script_file) w in
      Some (print (MsgReview apt_script_file) w)
    else Some w
  else
    Some (print (MsgWrongDistro (d_codename (distro deb_pkg_list))
                   (d_id (distro deb_pkg_list))
                   (d_codename (h_distro h)) (d_id (h_distro h))) w).

(** [apt_operations(operation)]: everything but ['save'] is a load. *)
Definition apt_operations (h : Host) (operation : string) (w : World)
    : option World :=
  let w := detect_distro (h_distro h) w in
  let w := print (MsgMode operation) w in
  w ← (if String.eqb operation "save" then apt_save h w else apt_load h w);
  Some (print MsgFinished w).

End KeyMatcher.

End Apt.

(** ** The properties of the specification, as it words them *)
Module Spec.

Import Apt.

(** The text "after the host marker" of a URL, in the words of the
    specification: all that follows the leftmost occurrence of the marker;
    there is none when the marker does not occur. *)
Definition after_marker (url : string) : option string :=
  i ← Py.find Ppa.marker url;
  Some (Py.drop (i + String.length Ppa.marker) url).

(** The path segments of a text: its non-empty pieces between slashes. *)
Definition path_segments (s : string) : list string :=
  List.filter (λ piece, negb (String.eqb piece "")) (Py.split s "/").

(** The path segments after the host marker; a URL without the marker has
    none. *)
Definition segments_after_marker (url : string) : list string :=
  match after_marker url with
  | Some rest => path_segments rest
  | None => []
  end.

(** The result the specification gives for a URL: the shortcut of the
    first two segments, and the empty string when there are fewer. *)
Definition shortcut_as_claimed (url : string) : string :=
  match segments_after_marker url with
  | user :: ppa :: _ => "ppa:" +:+ user +:+ "/" +:+ ppa
  | _ => ""
  end.

(** The shortcut function returns that result for every URL, and never
    raises. *)
Definition ppa_shortcut_claim : Prop :=
  ∀ url, Ppa.apt_get_ppa_shortcut url = Some (shortcut_as_claimed url).






(** Every occurrence of the character [c] replaced by [d]. *)
Fixpoint subst_char (c d : ascii) (s : string) : string :=
  match s with
  | "" => ""
  | String x s' => String (if Ascii.eqb x c then d else x) (subst_char c d s')
  end.

(** Heuristic (d) in the words of the specification: the key name,
    case-folded and with hyphens replaced by spaces, is a substring of the
    case-folded package name. *)
Definition heuristic_d_as_worded (p : DebInfo) (k : AptKey) : bool :=
  Py.contains (subst_char "-" " " (Py.lower (k_name k)))
    (Py.lower (di_name p)).

(** The sum of the four bucket counts of a snapshot. *)
Definition bucket_sum (st : PackageStats) : nat :=
  official st + ppas st + thirdparty st + local st.

(** The number of buckets a package with first origin [o] is put into. *)
Definition bucket_count (o : Origin) : nat :=
  (if is_ubuntu o then 1 else 0) + (if is_thirdparty_ppa o then 1 else 0)
  + (if is_thirdparty_deb o then 1 else 0) + (if is_local o then 1 else 0).

(** The number of entries in the four classification lists. *)
Definition buckets_size (b : Buckets) : nat :=
  length (pkg_ubuntu b) + length (pkg_thirdparty_ppa b)
  + length (pkg_thirdparty_deb b) + length (pkg_local b).

(** Each count of [package_stats] is the length of its persisted list. *)
Definition counts_match_lists (d : Snapshot) : Prop :=
  official (package_stats d) = length (official_packages d)
  ∧ ppas (package_stats d) = length (launchpad_ppa_packages d)
  ∧ thirdparty (package_stats d) = length (thirdparty_packages d)
  ∧ local (package_stats d) = length (local_packages d).

(** The number of package index files of the candidate version of [name]:
    the number of records the package gets in the snapshot. *)
Definition resolved_count (h : Host) (name : string) : nat :=
  match h_candidate_indexes h name with
  | Some indexes =>
      length (List.filter (λ index,
                match index with
                | Some index =>
                    String.eqb (idx_label index) "Debian Package Index"
                | None => false
                end) indexes)
  | None => 0
  end.

(** The records of a snapshot have the keys and the kinds of values the
    save run gives them. *)
Definition is_str (o : option value) : bool :=
  match o with Some (VStr _) => true | _ => false end.

Definition is_key (o : option value) : bool :=
  match o with Some (VKey _) => true | _ => false end.

Definition wf_snapshot (d : Snapshot) : bool :=
  forallb (λ r, is_str (r !! "name")) (official_packages d)
  && forallb (λ r, is_str (r !! "component")) (official_packages d)
  && forallb (λ r, is_str (r !! "name")) (launchpad_ppa_packages d)
  && forallb (λ r, is_str (r !! "repo")) (launchpad_ppa_packages d)
  && forallb (λ r, is_str (r !! "name")) (thirdparty_packages d)
  && forallb (λ r, is_str (r !! "repo")) (thirdparty_packages d)
  && forallb (λ r, is_key (r !! "key")) (thirdparty_keys d).

(** The host is the one the snapshot was taken on. *)
Definition same_distro (h : Host) (d : Snapshot) : bool :=
  String.eqb (d_codename (distro d)) (d_codename (h_distro h))
  && String.eqb (d_id (distro d)) (d_id (h_distro h)).

(** A line that does not start like a key import. *)
Definition not_key_line (line : string) : Prop :=
  Py.startswith line "apt-key" = false.

(** The normalizer drops every token of the options block that has the
    strip-word in it: no such token is left in its output. *)
Definition drops_every_token (st wordtoremove : string) : Prop :=
  ∀ block tail out tok,
    Py.split st "]" = [block; tail] →
    Normalizer.apt_remove_word_from_brackets_in_sources_list st wordtoremove
    = Some out →
    tok ∈ Py.split_ws block →
    Py.contains wordtoremove tok = true →
    Py.contains tok out = false.

(** Normalizing a second time changes nothing. *)
Definition idempotent_at (st wordtoremove : string) : Prop :=
  ∀ out,
    Normalizer.apt_remove_word_from_brackets_in_sources_list st wordtoremove
    = Some out →
    Normalizer.apt_remove_word_from_brackets_in_sources_list out wordtoremove
    = Some out.

End Spec.

(** ** Concrete hosts and documents *)
Module Examples.

Import Apt.

(** The library functions of the key matcher, for the examples: no escape
    to decode, and a key dictionary printed by its id. *)
Definition plain_escape (s : string) : option string := Some s.
Definition repr_by_id (k : AptKey) : string := k_key k.

Definition bionic : Distro :=
  {| d_kind := UbuntuDistribution; d_id := "Ubuntu";
     d_codename := "bionic"; d_release := "18.04" |}.

Definition focal : Distro :=
  {| d_kind := UbuntuDistribution; d_id := "Ubuntu";
     d_codename := "focal"; d_release := "20.04" |}.

Definition o_ubuntu : Origin :=
  {| o_origin := "Ubuntu"; o_archive := "bionic"; o_trusted := true;
     o_component := "main"; o_label := "Ubuntu" |}.

Definition o_ubuntu_untrusted : Origin :=
  {| o_origin := "Ubuntu"; o_archive := "bionic"; o_trusted := false;
     o_component := "main"; o_label := "Ubuntu" |}.

Definition o_docker : Origin :=
  {| o_origin := "Docker"; o_archive := "bionic"; o_trusted := true;
     o_component := "stable"; o_label := "Docker CE" |}.

Definition o_ppa : Origin :=
  {| o_origin := "LP-PPA-bar-baz"; o_archive := "bionic"; o_trusted := true;
     o_component := "main"; o_label := "baz" |}.

Definition o_now : Origin :=
  {| o_origin := ""; o_archive := "now"; o_trusted := false;
     o_component := "now"; o_label := "" |}.

Definition o_plain : Origin :=
  {| o_origin := ""; o_archive := "stable"; o_trusted := true;
     o_component := "main"; o_label := "" |}.

Definition package (name : string) (auto : bool) (deps : list string)
    (o : Origin) : Package :=
  {| pkg_name := name; is_installed := true; is_auto_installed := auto;
     dependencies := deps; origins := [o] |}.

Definition package_index (describe : string) : option IndexFile :=
  Some {| idx_label := "Debian Package Index"; idx_describe := describe |}.

Definition docker_key : AptKey :=
  {| k_key := "8D81803C0EBFCD88"; k_expiry := "2030-01-01";
     k_name := "Docker Release (CE deb) <docker@docker.com>" |}.

Definition launchpad_key : AptKey :=
  {| k_key := "0123456789ABCDEF"; k_expiry := "2030-01-01";
     k_name := "Launchpad PPA for bar" |}.

(** A host with packages of all four kinds, every one of them with one
    package index. *)
Definition host_demo : Host :=
  {| h_distro := bionic;
     h_apt_cache :=
       [ package "vim" false ["libc6"] o_ubuntu;
         package "libc6" true [] o_ubuntu;
         package "git" false [] o_ubuntu;
         package "docker-ce" false [] o_docker;
         package "foo" false [] o_ppa;
         package "custom" false [] o_now ];
     h_apt_keys := [docker_key; launchpad_key];
     h_sources_list :=
       [ "deb http://archive.ubuntu.com/ubuntu bionic main";
         "deb [arch=amd64 signed-by=/usr/share/keyrings/docker.gpg] https://download.docker.com/linux/ubuntu bionic stable";
         "deb http://ppa.launchpad.net/bar/baz/ubuntu bionic main" ];
     h_cache_name := λ name, name;
     h_candidate_indexes := λ name,
       if String.eqb name "docker-ce" then
         Some [ package_index "https://download.docker.com/linux/ubuntu bionic/stable amd64 Packages"; None ]
       else if String.eqb name "foo" then
         Some [ package_index "http://ppa.launchpad.net/bar/baz/ubuntu bionic/main amd64 Packages" ]
       else
         Some [ package_index "http://archive.ubuntu.com/ubuntu bionic/main amd64 Packages"; None ] |}.

(** One manually installed package from an Ubuntu archive whose release
    file apt could not verify. *)
Definition host_untrusted : Host :=
  {| h_distro := bionic;
     h_apt_cache := [ package "vim" false [] o_ubuntu_untrusted ];
     h_apt_keys := [];
     h_sources_list := [ "deb http://archive.ubuntu.com/ubuntu bionic main" ];
     h_cache_name := λ name, name;
     h_candidate_indexes := λ _,
       Some [ package_index "http://archive.ubuntu.com/ubuntu bionic/main amd64 Packages" ] |}.

(** One official package whose candidate version has no index file among
    the configured sources. *)
Definition host_unresolved : Host :=
  {| h_distro := bionic;
     h_apt_cache := [ package "vim" false [] o_ubuntu ];
     h_apt_keys := [];
     h_sources_list := [ "deb http://archive.ubuntu.com/ubuntu bionic main" ];
     h_cache_name := λ name, name;
     h_candidate_indexes := λ _, Some [ None ] |}.

(** The same host after an upgrade to the next release. *)
Definition host_focal : Host :=
  {| h_distro := focal;
     h_apt_cache := h_apt_cache host_demo;
     h_apt_keys := h_apt_keys host_demo;
     h_sources_list := h_sources_list host_demo;
     h_cache_name := h_cache_name host_demo;
     h_candidate_indexes := h_candidate_indexes host_demo |}.

Definition empty_world : World :=
  {| debs_json := None; files := ∅; stdout := [] |}.

(** The document of a save run on [host_demo]. *)
Definition demo_snapshot : Snapshot :=
  {| distro := bionic;
     package_stats :=
       {| total := 5; official := 2; ppas := 1; thirdparty := 1; local := 1 |};
     official_packages :=
       [ {[ "name" := VStr "git"; "component" := VStr "main";
            "archive" := VStr "bionic" ]};
         {[ "name" := VStr "vim"; "component" := VStr "main";
            "archive" := VStr "bionic" ]} ];
     launchpad_ppa_packages :=
       [ {[ "name" := VStr "foo"; "repo" := VStr "ppa:bar/baz" ]} ];
     thirdparty_packages :=
       [ {[ "name" := VStr "docker-ce";
            "repo" := VStr "deb [arch=amd64] https://download.docker.com/linux/ubuntu bionic stable" ]} ];
     thirdparty_keys :=
       [ {[ "name" := VStr "docker-ce"; "key" := VKey docker_key ]} ];
     local_packages := ["custom"] |}.

Definition saved_world : World :=
  {| debs_json := Some demo_snapshot; files := ∅; stdout := [] |}.




(** A package and a key for the key matcher. *)
Definition foo_bar : DebInfo :=
  {| di_name := "foo-bar"; di_origin := o_plain;
     di_describe := "http://example.org/debian stable/main amd64 Packages";
     di_deb_url := Some "deb http://example.org/debian stable main" |}.

Definition key_Foo : AptKey :=
  {| k_key := "AAAABBBBCCCCDDDD"; k_expiry := "2030-01-01"; k_name := "Foo" |}.

Definition yandex_disk : DebInfo :=
  {| di_name := "yandex-disk"; di_origin := o_plain;
     di_describe := "http://repo.yandex.ru/yandex-disk/deb stable/main amd64 Packages";
     di_deb_url := Some "deb http://repo.yandex.ru/yandex-disk/deb/ stable main" |}.

Definition key_yandex : AptKey :=
  {| k_key := "1111222233334444"; k_expiry := "2030-01-01";
     k_name := "Yandex Disk <support@yandex-team.ru>" |}.

(** Source lines for the normalizer. *)
Definition line_two_keyrings : string :=
  "deb [arch=amd64 signed-by=/usr/share/keyrings/a.gpg signed-by=/usr/share/keyrings/b.gpg] http://x/y bionic stable".

Definition line_no_options : string :=
  "deb http://archive.ubuntu.com/ubuntu bionic main".

End Examples.

(** ** Trimming of whitespace *)
Module PyTrim.

(** [s.lstrip()] *)
Fixpoint lstrip (s : string) : string :=
  match s with
  | "" => ""
  | String c s' => if Py.isspace c then lstrip s' else s
  end.

(** [s.rstrip()] *)
Fixpoint rstrip (s : string) : string :=
  match s with
  | "" => ""
  | String c s' =>
      match rstrip s' with
      | "" => if Py.isspace c then "" else String c ""
      | r => String c r
      end
  end.

(** [s.strip()] *)
Definition strip (s : string) : string := rstrip (lstrip s).

End PyTrim.

(** ** The readers of the source registry and of the key store *)
Module Readers.

Import Apt.

Definition newline : string := String "010"%char "".

(** [apt_sources_list]; [entries] are the texts [s.str()] of the entries
    of [sourceslist.SourcesList().list], in their order. *)
Definition apt_sources_list (entries : list string) : list string :=
  entries ≫= λ s,
    let s_strip := PyTrim.strip s in
    if Py.startswith s_strip "deb" && negb (Py.startswith s_strip "deb-src")
    then [Py.replace s_strip newline ""]
    else [].

Section KeyList.

(** [datetime.date.fromtimestamp(int(s)).isoformat()] of the Python
    library; [None] when [int] or the conversion raises. *)
Variable isoformat_of_timestamp : string → option string.

Definition is_pub_or_uid (fields : list string) : bool :=
  match fields !! 0 with
  | Some f0 => String.eqb f0 "pub" || String.eqb f0 "uid"
  | None => false
  end.

Definition is_pub (fields : list string) : bool :=
  match fields !! 0 with
  | Some f0 => String.eqb f0 "pub"
  | None => false
  end.

(** The loop of [apt_key_list] over the output lines of [apt-key], with
    the locals [name], [key] and [expiry] ([None]: not yet assigned) and the
    list [res].  An index past the fields raises [IndexError], the use of
    an unassigned local raises [UnboundLocalError]. *)
Fixpoint key_loop (lines : list string) (name : string)
    (key expiry : option string) (res : list AptKey)
    : option (list AptKey) :=
  match lines with
  | [] => Some res
  | line :: lines' =>
      let fields := Py.split line ":" in
      name ← (if is_pub_or_uid fields then fields !! 9 else Some name);
      '(key, expiry) ←
        (if is_pub fields then
           k ← fields !! 4;
           f5 ← fields !! 5;
           e ← isoformat_of_timestamp f5;
           Some (Some k, Some e)
         else Some (key, expiry));
      if String.eqb name "" then key_loop lines' name key expiry res
      else
        k ← key;
        e ← expiry;
        key_loop lines' "" key expiry
          (res ++ [ {| k_key := k; k_expiry := e; k_name := name |} ])
  end.

Definition apt_key_list (lines : list string) : option (list AptKey) :=
  key_loop lines "" None None [].

End KeyList.

End Readers.

(** ** Ubuntu Make: saving the list of applications *)
Module Umake.

Record Item := {
  category : string;
  application : string;
}.

Inductive Message :=
  | MsgMode (operation : string)
  | MsgWillSave
  | MsgItem (category application : string)
  | MsgNothingInstalled
  | MsgFailed (umake_out : string)
  | MsgFinished.

(** The file [umake.json] and the output. *)
Record World := {
  umake_json : option (list Item);
  stdout : list Message;
}.

Definition print (m : Message) (w : World) : World :=
  {| umake_json := umake_json w; stdout := stdout w ++ [m] |}.

Definition save_object (obj : list Item) (w : World) : World :=
  {| umake_json := Some obj; stdout := stdout w |}.

Definition tab : string := String "009"%char "".
Definition newline : string := String "010"%char "".

(** [for u in umake_items_raw: ...] with the local [cat] ([None]: not yet
    assigned) and the list [umake_list]; the file is saved anew after
    every append. *)
Fixpoint items_loop (umake_items_raw : list (list string))
    (cat : option string) (umake_list : list Item) (w : World)
    : option (list Item * World) :=
  match umake_items_raw with
  | [] => Some (umake_list, w)
  | u :: umake_items_raw' =>
      match u with
      | [u0] => items_loop umake_items_raw' (Some u0) umake_list w
      | [_; u1] =>
          c ← cat;
          let ui := {| category := c; application := u1 |} in
          let w := print (MsgItem c u1) w in
          let umake_list := umake_list ++ [ui] in
          items_loop umake_items_raw' cat umake_list
            (save_object umake_list w)
      | _ => items_loop umake_items_raw' cat umake_list w
      end
  end.

(** The save branch of [umake_operations]; [umake_ret] and [umake_out] are
    the exit status and the output of the [umake] pipeline. *)
Definition umake_save (umake_ret : nat) (umake_out : string) (w : World)
    : option World :=
  let w := print (MsgMode "save") w in
  w ← (if Nat.eqb umake_ret 0 && negb (Py.contains "error" umake_out) then
         if decide (0 < String.length umake_out) then
           let umake_out_lines := Py.split umake_out newline in
           let umake_items_raw := (λ l, Py.split l tab) <$> umake_out_lines in
           if bool_decide (0 < length umake_out_lines)
              && bool_decide (0 < length umake_items_raw)
           then
             r ← items_loop umake_items_raw None [] (print MsgWillSave w);
             Some r.2
           else Some w
         else Some (print MsgNothingInstalled w)
       else Some (print (MsgFailed umake_out) w));
  Some (print MsgFinished w).

End Umake.

(** ** The command line *)
Module Main.

Inductive Source := Snap | Flatpak | UbuntuMake | APT.

Inductive Message :=
  | MsgNotSupported (op : string)
  | MsgUsage.

(** What the main block does: the operations it starts, in their order,
    each with its mode, and the message it prints. *)
Record Run := {
  calls : list (Source * string);
  message : option Message;
}.

Definition run_if (ok : bool) (source : Source) (mode : string)
    : list (Source * string) :=
  if ok then [(source, mode)] else [].

Definition started (calls : list (Source * string)) : Run :=
  {| calls := calls; message := None |}.

(** The block under [if __name__ == "__main__"]; [argv] is [sys.argv]. *)
Definition main (argv : list string)
    (snap_ok flatpak_ok umake_ok apt_ok : bool) : Run :=
  match argv !! 1 with
  | Some op =>
      if String.eqb op "snap_save" then started (run_if snap_ok Snap "save")
      else if String.eqb op "snap_load" then
        started (run_if snap_ok Snap "load")
      else if String.eqb op "flatpak_save" then
        started (run_if flatpak_ok Flatpak "save")
      else if String.eqb op "flatpak_load" then
        started (run_if flatpak_ok Flatpak "load")
      else if String.eqb op "umake_save" then
        started (run_if umake_ok UbuntuMake "save")
      else if String.eqb op "umake_load" then
        started (run_if umake_ok UbuntuMake "load")
      else if String.eqb op "apt_save" then started (run_if apt_ok APT "save")
      else if String.eqb op "apt_load" then started (run_if apt_ok APT "load")
      else if String.eqb op "all_save" then
        started (run_if snap_ok Snap "save" ++ run_if flatpak_ok Flatpak "save"
                 ++ run_if umake_ok UbuntuMake "save"
                 ++ run_if apt_ok APT "save")
      else if String.eqb op "all_load" then
        started (run_if snap_ok Snap "load" ++ run_if flatpak_ok Flatpak "load"
                 ++ run_if umake_ok UbuntuMake "load"
                 ++ run_if apt_ok APT "load")
      else {| calls := []; message := Some (MsgNotSupported op) |}
  | None => {| calls := []; message := Some MsgUsage |}
  end.

End Main.

(** ** Notions used to state further properties of the code *)
Module Props.

Import Apt.

(** No two neighbouring tokens both hold the word. *)
Fixpoint no_neighbours (word : string) (tokens : list string) : bool :=
  match tokens with
  | a :: (b :: _) as tokens' =>
      negb (Py.contains word a && Py.contains word b)
      && no_neighbours word tokens'
  | _ => true
  end.

(** The tokens that do not hold the word, in their order. *)
Definition without_word (word : string) (tokens : list string)
    : list string :=
  List.filter (λ tok, negb (Py.contains word tok)) tokens.

(** The string without the character [c]. *)
Fixpoint remove_char (c : ascii) (s : string) : string :=
  match s with
  | "" => ""
  | String x s' =>
      if Ascii.eqb x c then remove_char c s' else String x (remove_char c s')
  end.

(** The piece of a URL that [apt_get_ppa_shortcut] cuts at the slashes,
    [url.split(marker)[1]]: what follows the leftmost occurrence of the
    marker, up to the next occurrence if the marker occurs again. *)
Definition piece_after_marker (url : string) : option string :=
  i ← Py.find Ppa.marker url;
  let rest := Py.drop (i + String.length Ppa.marker) url in
  Some (match Py.find Ppa.marker rest with
        | Some j => Py.take j rest
        | None => rest
        end).

(** The fields of a line of the key listing. *)
Definition fields (line : string) : list string := Py.split line ":".

(** The line starts a key or names a user id. *)
Definition pub_or_uid_line (line : string) : bool :=
  Readers.is_pub_or_uid (fields line).

(** The rows of the listing of Ubuntu Make: its lines cut at the
    tabulators. *)
Definition umake_rows (umake_out : string) : list (list string) :=
  (λ l, Py.split l Umake.tab) <$> Py.split umake_out Umake.newline.

(** The second column of a row of exactly two columns. *)
Definition second_column (u : list string) : option string :=
  match u with
  | [_; u1] => Some u1
  | _ => None
  end.

(** The capability flag of a source of software. *)
Definition flag_of (snap_ok flatpak_ok umake_ok apt_ok : bool)
    (source : Main.Source) : bool :=
  match source with
  | Main.Snap => snap_ok
  | Main.Flatpak => flatpak_ok
  | Main.UbuntuMake => umake_ok
  | Main.APT => apt_ok
  end.

(** The name of a source in the verbs of the command line. *)
Definition verb_prefix (source : Main.Source) : string :=
  match source with
  | Main.Snap => "snap"
  | Main.Flatpak => "flatpak"
  | Main.UbuntuMake => "umake"
  | Main.APT => "apt"
  end.

(** No package of the cache has a first origin that is official and, at
    the same time, untrusted or "now". *)
Definition no_overlap (apt_cache : list Package) : bool :=
  forallb (λ pkg,
             match head (origins pkg) with
             | Some o => negb (is_ubuntu o && is_local o)
             | None => true
             end) apt_cache.

(** The package name of a record of the snapshot. *)
Definition record_name (r : gmap string value) : option string :=
  match r !! "name" with
  | Some (VStr n) => Some n
  | _ => None
  end.

(** The names in the four classification lists. *)
Definition bucket_names (b : Buckets) : list string :=
  (pkg_ubuntu b).*1 ++ (pkg_thirdparty_ppa b).*1
  ++ (pkg_thirdparty_deb b).*1 ++ pkg_local b.

(** The first word of the description of an index file, which
    [apt_add_deb_url_to_deb_info] looks for in the source lines. *)
Definition describe_word (describe : string) : string :=
  default "" (head (Py.split describe " ")).

(** The commands of a section of the script: none when the count of the
    section is zero. *)
Definition section_commands (n : nat) (commands : option (list string))
    : list string :=
  if decide (0 < n) then default [] commands else [].

(** The script a load run writes for a snapshot. *)
Definition expected_script (dict_repr : AptKey → string) (h : Host)
    (d : Snapshot) : list string :=
  if Spec.same_distro h d && bool_decide (0 < total (package_stats d))
  then
    ["#!/bin/bash"; guard_line (d_codename (h_distro h))]
    ++ section_commands (official (package_stats d))
         (official_commands dict_repr d)
    ++ section_commands (ppas (package_stats d)) (ppa_commands dict_repr d)
    ++ section_commands (thirdparty (package_stats d))
         (thirdparty_commands dict_repr d)
  else [].

(** The number of lines of a script that are equal to [line]. *)
Definition count_line (line : string) (script : list string) : nat :=
  length (filter (λ l, l = line) script).

(** The snapshot with another list of local packages and another local
    count. *)
Definition with_local (d : Snapshot) (locals : list string) (n : nat)
    : Snapshot :=
  {| distro := distro d;
     package_stats :=
       {| total := total (package_stats d);
          official := official (package_stats d);
          ppas := ppas (package_stats d);
          thirdparty := thirdparty (package_stats d);
          local := n |};
     official_packages := official_packages d;
     launchpad_ppa_packages := launchpad_ppa_packages d;
     thirdparty_packages := thirdparty_packages d;
     thirdparty_keys := thirdparty_keys d;
     local_packages := locals |}.

(** The world with another document in [debs.json]. *)
Definition with_snapshot (w : World) (d : Snapshot) : World :=
  {| debs_json := Some d; files := files w; stdout := stdout w |}.

End Props.

(** ** Further concrete inputs *)
Module MoreExamples.

Import Apt Examples.

(** The date conversion of the examples: the text of the timestamp. *)
Definition timestamp_text (s : string) : option string := Some s.

Definition tru_line : string :=
  "tru::1:1487788586:0:3:1:5" +:+ Readers.newline.

Definition pub_line : string :=
  "pub:-:4096:1:8D81803C0EBFCD88:1487788586:::-:::scSC::::::23::0:"
  +:+ Readers.newline.

Definition uid_line : string :=
  "uid:-::::1487792064::0123ABCD::Docker Release (CE deb) <docker@docker.com>::::::::::0:"
  +:+ Readers.newline.

Definition second_uid_line : string :=
  "uid:-::::1487792064::4567EF01::Docker Packaging <packaging@docker.com>::::::::::0:"
  +:+ Readers.newline.

Definition sub_line : string :=
  "sub:-:4096:1:7EA0A9C3F273FCD8:1487788586::::::s::::::23:"
  +:+ Readers.newline.

(** The listing of one key with two user ids. *)
Definition key_listing : list string :=
  [tru_line; pub_line; uid_line; second_uid_line; sub_line].

(** A listing of Ubuntu Make: two categories and three applications. *)
Definition umake_listing : string :=
  "ide" +:+ Umake.newline +:+ Umake.tab +:+ "pycharm" +:+ Umake.newline
  +:+ Umake.tab +:+ "idea" +:+ Umake.newline +:+ "games" +:+ Umake.newline
  +:+ Umake.tab +:+ "blender".

Definition umake_world : Umake.World :=
  {| Umake.umake_json := None; Umake.stdout := [] |}.

Definition ppa_index : IndexFile :=
  {| idx_label := "Debian Package Index";
     idx_describe :=
       "http://ppa.launchpad.net/bar/baz/ubuntu bionic/main amd64 Packages" |}.

(** A host with one PPA package whose archive is no longer among the
    source lines. *)
Definition host_without_source : Host :=
  {| h_distro := bionic;
     h_apt_cache := [ package "foo" false [] o_ppa ];
     h_apt_keys := [];
     h_sources_list := [ "deb http://archive.ubuntu.com/ubuntu bionic main" ];
     h_cache_name := λ name, name;
     h_candidate_indexes := λ _, Some [ Some ppa_index ] |}.

(** A Debian host with the codename of the snapshot. *)
Definition host_other_id : Host :=
  {| h_distro :=
       {| d_kind := DebianDistribution; d_id := "Debian";
          d_codename := "bionic"; d_release := "10" |};
     h_apt_cache := [];
     h_apt_keys := [];
     h_sources_list := [];
     h_cache_name := λ name, name;
     h_candidate_indexes := λ _, None |}.

(** A host with one PPA package served from the newer host name of
    Launchpad. *)
Definition host_launchpadcontent : Host :=
  {| h_distro := bionic;
     h_apt_cache := [ package "foo" false [] o_ppa ];
     h_apt_keys := [];
     h_sources_list :=
       [ "deb https://ppa.launchpadcontent.net/bar/baz/ubuntu bionic main" ];
     h_cache_name := λ name, name;
     h_candidate_indexes := λ _,
       Some [ package_index "https://ppa.launchpadcontent.net/bar/baz/ubuntu bionic/main amd64 Packages" ] |}.

(** A host with one package of a foreign architecture: the package cache
    of [apt] names it with its architecture, the cache of [apt_pkg]
    without. *)
Definition host_foreign : Host :=
  {| h_distro := bionic;
     h_apt_cache := [ package "wine32:i386" false [] o_ubuntu ];
     h_apt_keys := [];
     h_sources_list := [ "deb http://archive.ubuntu.com/ubuntu bionic main" ];
     h_cache_name := λ name,
       if String.eqb name "wine32:i386" then "wine32" else name;
     h_candidate_indexes := λ _,
       Some [ package_index "http://archive.ubuntu.com/ubuntu bionic/main i386 Packages" ] |}.

End MoreExamples.

(** ** Facts about the string primitives *)
Section PyFacts.

#[local] Arguments String.prefix : simpl never.

Lemma prefix_nil_l (s : string) : String.prefix "" s = true.
Proof. by destruct s. Qed.

Lemma prefix_cons (c d : ascii) (a s : string) :
  String.prefix (String c a) (String d s)
  = bool_decide (c = d) && String.prefix a s.
Proof.
  change (String.prefix (String c a) (String d s))
    with (if ascii_dec c d then String.prefix a s else false).
  destruct (ascii_dec c d) as [->|Hne].
  - by rewrite bool_decide_eq_true_2.
  - by rewrite bool_decide_eq_false_2.
Qed.

Lemma app_nil_l_s (a : string) : "" +:+ a = a.
Proof. reflexivity. Qed.

Lemma app_cons_s (c : ascii) (a b : string) :
  String c a +:+ b = String c (a +:+ b).
Proof. reflexivity. Qed.

Lemma app_assoc_s (a b c : string) : (a +:+ b) +:+ c = a +:+ (b +:+ c).
Proof.
  induction a as [|x a IH]; [done|]. by rewrite !app_cons_s, IH.
Qed.

Lemma app_nil_r_s (a : string) : a +:+ "" = a.
Proof. induction a as [|x a IH]; [done|]. by rewrite app_cons_s, IH. Qed.

Lemma length_app_s (a b : string) :
  String.length (a +:+ b) = String.length a + String.length b.
Proof.
  induction a as [|x a IH]; [done|]. rewrite app_cons_s. simpl. by rewrite IH.
Qed.

Lemma prefix_cons_nil (c : ascii) (a : string) :
  String.prefix (String c a) "" = false.
Proof. reflexivity. Qed.

Lemma prefix_app (a s : string) : String.prefix a (a +:+ s) = true.
Proof.
  induction a as [|c a IH].
  - apply prefix_nil_l.
  - rewrite app_cons_s, prefix_cons, IH. by rewrite bool_decide_eq_true_2.
Qed.

Lemma prefix_inv (a s : string) :
  String.prefix a s = true → ∃ post, s = a +:+ post.
Proof.
  revert s. induction a as [|c a IH]; intros s H.
  - by exists s.
  - destruct s as [|d s]; [done|]. rewrite prefix_cons in H.
    apply andb_true_iff in H as [Hc H]. apply bool_decide_eq_true in Hc as ->.
    destruct (IH _ H) as [post ->]. by exists post.
Qed.

(** [a in s] holds exactly when [s] can be cut as [pre + a + post]. *)
Lemma contains_spec (a s : string) :
  Py.contains a s = true ↔ ∃ pre post, s = pre +:+ a +:+ post.
Proof.
  split.
  - induction s as [|c s IH]; simpl; intros H.
    + apply orb_true_iff in H as [H|H]; [|done].
      destruct a; [|done]. by exists "", "".
    + apply orb_true_iff in H as [H|H].
      * destruct (prefix_inv _ _ H) as [post Hp]. by exists "", post.
      * destruct (IH H) as (pre & post & ->). by exists (String c pre), post.
  - intros (pre & post & ->). induction pre as [|c pre IH].
    + rewrite app_nil_l_s.
      destruct (a +:+ post) eqn:E; simpl.
      * destruct a; [done | discriminate].
      * rewrite <- E. by rewrite prefix_app.
    + rewrite app_cons_s. simpl. rewrite IH. apply orb_true_r.
Qed.

Lemma contains_find (a s : string) :
  Py.contains a s = true ↔ is_Some (Py.find a s).
Proof.
  induction s as [|c s IH]; simpl.
  - destruct (String.prefix a ""); simpl; [by split; eauto|].
    split; [done | by intros [? ?]].
  - destruct (String.prefix a (String c s)); simpl; [by split; eauto|].
    by rewrite IH, fmap_is_Some.
Qed.

Lemma contains_no_find (a s : string) :
  Py.contains a s = false ↔ Py.find a s = None.
Proof.
  rewrite <- not_true_iff_false, contains_find, <- eq_None_not_Some. done.
Qed.

Lemma cons_first_length (c : ascii) (l : list string) :
  l ≠ [] → length (Py.cons_first c l) = length l.
Proof. by destruct l. Qed.

Lemma split_go_nonempty sep m k s : Py.split_go sep m k s ≠ [].
Proof.
  revert m k. induction s as [|c s IH]; intros m k; simpl; [done|].
  destruct k; [|apply IH].
  destruct m as [[|n]|]; [done| |].
  - destruct (String.prefix sep (String c s)); [done|].
    specialize (IH (Some (S n)) 0). by destruct (Py.split_go _ _ _ _).
  - destruct (String.prefix sep (String c s)); [done|].
    specialize (IH None 0). by destruct (Py.split_go _ _ _ _).
Qed.

(** Splitting on a single character yields one more piece than the
    character has occurrences. *)
Lemma split_length_count (c : ascii) (s : string) :
  length (Py.split s (String c "")) = S (Py.count_char c s).
Proof.
  unfold Py.split. induction s as [|d s IH]; simpl; [done|].
  rewrite prefix_cons, prefix_nil_l, andb_true_r.
  destruct (decide (c = d)) as [->|Hne].
  - rewrite bool_decide_eq_true_2, Ascii.eqb_refl by done. simpl. by rewrite IH.
  - rewrite bool_decide_eq_false_2 by done.
    apply Ascii.eqb_neq in Hne. rewrite Hne. simpl.
    rewrite cons_first_length; [done | apply split_go_nonempty].
Qed.

Lemma list_remove_length (x : string) (l : list string) :
  (length (Py.list_remove x l) ≤ length l)%nat.
Proof.
  induction l as [|y l IH]; simpl; [done|].
  case_decide; simpl; lia.
Qed.

Lemma list_remove_length_in (x : string) (l : list string) :
  x ∈ l → S (length (Py.list_remove x l)) = length l.
Proof.
  induction l as [|y l IH]; simpl; intros Hin.
  - by apply elem_of_nil in Hin.
  - case_decide as Hd; [done|]. simpl. f_equal. apply IH.
    apply elem_of_cons in Hin as [->|Hin]; [done | exact Hin].
Qed.

Lemma split_go_skip sep m k s :
  Py.split_go sep m k s = Py.split_go sep m 0 (Py.drop k s).
Proof.
  revert k. induction s as [|c s IH]; intros k.
  - by destruct k.
  - destruct k as [|k]; [done|]. simpl. apply IH.
Qed.

Lemma split_go_find_none sep m s :
  Py.find sep s = None → Py.split_go sep m 0 s = [s].
Proof.
  induction s as [|c s IH]; simpl; [done|].
  destruct (String.prefix sep (String c s)); [done|].
  intros H. apply fmap_None in H.
  destruct m as [[|n]|]; [done|..]; by rewrite IH.
Qed.

Lemma split_go_find_some sep m s i :
  sep ≠ "" → m ≠ Some 0 → Py.find sep s = Some i →
  Py.split_go sep m 0 s
  = Py.take i s
    :: Py.split_go sep (pred <$> m) 0 (Py.drop (i + String.length sep) s).
Proof.
  intros Hsep Hm. revert i. induction s as [|c s IH]; intros i; simpl.
  - destruct sep; [done|]. by rewrite (prefix_cons_nil _ _).
  - destruct (String.prefix sep (String c s)) eqn:Hp.
    + intros [= <-]. destruct sep as [|c0 sep']; [done|]. simpl.
      rewrite Nat.sub_0_r, split_go_skip.
      destruct m as [[|n]|]; done.
    + intros H. apply fmap_Some in H as (i' & Hi' & ->).
      rewrite (IH _ Hi'). simpl.
      destruct m as [[|n]|]; done.
Qed.

Lemma find_char_none (c : ascii) (s : string) :
  Py.count_char c s = 0 → Py.find (String c "") s = None.
Proof.
  induction s as [|d s IH]; simpl; [done|].
  rewrite prefix_cons, prefix_nil_l, andb_true_r.
  destruct (Ascii.eqb_spec c d) as [->|Hne]; [done|].
  intros H. rewrite bool_decide_eq_false_2 by done. by rewrite IH.
Qed.

Lemma find_char_app (c : ascii) (a t : string) :
  Py.count_char c a = 0 →
  Py.find (String c "") (a +:+ String c t) = Some (String.length a).
Proof.
  induction a as [|d a IH]; intros H.
  - rewrite app_nil_l_s. simpl.
    by rewrite prefix_cons, prefix_nil_l, bool_decide_eq_true_2.
  - rewrite app_cons_s. simpl in *.
    rewrite prefix_cons, prefix_nil_l, andb_true_r.
    destruct (Ascii.eqb_spec c d) as [->|Hne]; [done|].
    rewrite bool_decide_eq_false_2 by done. by rewrite IH.
Qed.

Lemma take_app_length (a b : string) : Py.take (String.length a) (a +:+ b) = a.
Proof.
  induction a as [|c a IH]; [by destruct b|].
  rewrite app_cons_s. simpl. by rewrite IH.
Qed.

Lemma drop_app_length (a b : string) : Py.drop (String.length a) (a +:+ b) = b.
Proof.
  induction a as [|c a IH]; [by destruct b|].
  rewrite app_cons_s. simpl. by rewrite IH.
Qed.

(** A string is free of the character [c], or it has a [c]-free part before
    its first [c]. *)
Lemma cut_at_char (c : ascii) (s : string) :
  Py.count_char c s = 0
  ∨ ∃ a t, s = a +:+ String c t ∧ Py.count_char c a = 0.
Proof.
  induction s as [|d s IH]; simpl; [by left|].
  destruct (Ascii.eqb_spec c d) as [->|Hne].
  - right. by exists "", s.
  - destruct IH as [IH|(a & t & -> & Ha)]; [by left|].
    right. exists (String d a), t. split; [done|].
    simpl. apply Ascii.eqb_neq in Hne. by rewrite Hne.
Qed.

Lemma count_char_app (c : ascii) (a b : string) :
  Py.count_char c (a +:+ b) = Py.count_char c a + Py.count_char c b.
Proof.
  induction a as [|d a IH]; [done|].
  rewrite app_cons_s. simpl. rewrite IH. lia.
Qed.

End PyFacts.

(** ** Facts about the normalizer *)
Section NormalizerFacts.

(** The removal loop needs no more steps than the list has elements:
    any two amounts of fuel that cover the rest of the list agree. *)
Lemma remove_loop_fuel (f1 f2 i : nat) (w : string) (sss : list string) :
  (length sss - i ≤ f1)%nat → (length sss - i ≤ f2)%nat →
  Normalizer.remove_loop f1 i w sss = Normalizer.remove_loop f2 i w sss.
Proof.
  revert f2 i sss. induction f1 as [|f1 IH]; intros f2 i sss H1 H2.
  - destruct f2 as [|f2]; simpl; [done|].
    rewrite lookup_ge_None_2; [done | lia].
  - simpl. destruct (sss !! i) as [sb|] eqn:E.
    + pose proof (lookup_lt_Some _ _ _ E) as Hlt.
      destruct f2 as [|f2]; [lia|]. simpl. rewrite E.
      destruct (Py.contains w sb).
      * pose proof (list_remove_length sb sss). apply IH; lia.
      * apply IH; lia.
    + destruct f2; simpl; [done | by rewrite E].
Qed.

End NormalizerFacts.

Import Normalizer.

(** ** Facts about the PPA shortcut *)
Section PpaFacts.

Import Ppa.

Lemma marker_nonempty : marker ≠ "".
Proof. done. Qed.

(** The piece the code takes, [url.split(marker)[1]]. *)
Lemma split_marker_second (url rest : string) :
  Props.piece_after_marker url = Some rest →
  Py.split url marker !! 1 = Some rest.
Proof.
  unfold Props.piece_after_marker, Py.split. intros H.
  destruct (Py.find marker url) as [i|] eqn:Hi; [|done]. simpl in H.
  rewrite (split_go_find_some _ _ _ i marker_nonempty) by done. simpl.
  destruct (Py.find marker (Py.drop _ url)) as [j|] eqn:Hj.
  - rewrite (split_go_find_some _ _ _ j marker_nonempty) by done.
    simpl. congruence.
  - rewrite split_go_find_none by done. simpl. congruence.
Qed.

(** Without the marker the function raises [IndexError]. *)
Lemma ppa_shortcut_raises (url : string) :
  Py.contains marker url = false → apt_get_ppa_shortcut url = None.
Proof.
  intros H. apply contains_no_find in H.
  unfold apt_get_ppa_shortcut, Py.split.
  by rewrite split_go_find_none.
Qed.

Lemma split_max_no_slash (s : string) :
  Py.count_char "/" s = 0 → Py.split_max s "/" 2 = [s].
Proof.
  intros H. unfold Py.split_max.
  apply split_go_find_none. by apply find_char_none.
Qed.

Lemma split_max_two (a b tail : string) :
  Py.count_char "/" a = 0 → Py.count_char "/" b = 0 →
  tail = "" ∨ Py.startswith tail "/" = true →
  ∃ more, Py.split_max (a +:+ "/" +:+ b +:+ tail) "/" 2 = a :: b :: more.
Proof.
  intros Ha Hb Ht. unfold Py.split_max.
  change (a +:+ "/" +:+ b +:+ tail) with (a +:+ String "/" (b +:+ tail)).
  rewrite (split_go_find_some "/" (Some 2) _ (String.length a));
    [|done|done|by apply find_char_app].
  rewrite take_app_length.
  replace (String.length a + String.length "/")
    with (String.length (a +:+ "/")) by apply length_app_s.
  change (a +:+ String "/" (b +:+ tail)) with (a +:+ "/" +:+ (b +:+ tail)).
  rewrite <- app_assoc_s, drop_app_length. simpl.
  destruct Ht as [->|Ht].
  - rewrite app_nil_r_s, split_go_find_none by by apply find_char_none.
    by exists [].
  - apply prefix_inv in Ht as [t ->].
    change ("/" +:+ t) with (String "/" t).
    rewrite (split_go_find_some "/" (Some 1) _ (String.length b));
      [|done|done|by apply find_char_app].
    rewrite take_app_length. eauto.
Qed.

End PpaFacts.

(** ** The claims about the PPA shortcut *)
Section PpaClaims.

Import Ppa.

(** C6, at the source line of a PPA that Launchpad serves under its newer
    host name: the marker does not occur, the URL has no segment after it,
    and the function raises [IndexError] where the empty string is due.
    At a URL with one segment and a closing slash the test on the number of
    pieces lets the empty piece pass for a second segment. *)
Theorem ppa_shortcut_raises_without_marker :
  Spec.segments_after_marker
    "deb https://ppa.launchpadcontent.net/bar/baz/ubuntu bionic main" = []
  ∧ apt_get_ppa_shortcut
      "deb https://ppa.launchpadcontent.net/bar/baz/ubuntu bionic main"
    = None
  ∧ Spec.segments_after_marker "http://ppa.launchpad.net/someuser/"
    = ["someuser"]
  ∧ apt_get_ppa_shortcut "http://ppa.launchpad.net/someuser/"
    = Some "ppa:someuser/"
  ∧ ¬ Spec.ppa_shortcut_claim.
Proof.
  repeat (split; [vm_compute; reflexivity|]).
  intros H.
  specialize
    (H "deb https://ppa.launchpadcontent.net/bar/baz/ubuntu bionic main").
  vm_compute in H. discriminate H.
Qed.

(** X28. For a URL that has the host marker, the shortcut function never
    raises.  It looks at the piece between the leftmost occurrence of the
    marker and the next one (or the end of the URL): when that piece holds
    no slash the result is the empty string; otherwise the result is
    "ppa:", the text of the piece before its first slash, a slash, and the
    text between its first and its second slash (or up to its end); either
    text may be empty. *)
Theorem ppa_shortcut_of_pieces (url rest : string) :
  Props.piece_after_marker url = Some rest →
  (Py.count_char "/" rest = 0 → apt_get_ppa_shortcut url = Some "")
  ∧ (Py.count_char "/" rest ≠ 0 →
     ∃ user ppa tail,
       rest = user +:+ "/" +:+ ppa +:+ tail
       ∧ Py.count_char "/" user = 0 ∧ Py.count_char "/" ppa = 0
       ∧ (tail = "" ∨ Py.startswith tail "/" = true)
       ∧ apt_get_ppa_shortcut url
         = Some ("ppa:" +:+ user +:+ "/" +:+ ppa)).
Proof.
  intros Hrest. apply split_marker_second in Hrest.
  unfold apt_get_ppa_shortcut. rewrite Hrest. simpl. split.
  - intros H0. by rewrite split_max_no_slash.
  - intros Hn.
    destruct (cut_at_char "/" rest) as [H0|(user & t & -> & Hu)]; [done|].
    destruct (cut_at_char "/" t) as [Ht|(ppa & t' & -> & Hp)].
    + exists user, t, "". rewrite app_nil_r_s.
      split; [done|]. split; [done|]. split; [done|]. split; [by left|].
      destruct (split_max_two user t "" Hu Ht) as [more Hs]; [by left|].
      rewrite app_nil_r_s in Hs.
      change (user +:+ String "/" t) with (user +:+ "/" +:+ t).
      by rewrite Hs.
    + assert (Py.startswith (String "/" t') "/" = true) as Hsl.
      { unfold Py.startswith. by rewrite prefix_cons, prefix_nil_l. }
      exists user, ppa, (String "/" t').
      split; [done|]. split; [done|]. split; [done|]. split; [by right|].
      destruct (split_max_two user ppa (String "/" t') Hu Hp) as [more Hs];
        [by right|].
      change (user +:+ String "/" (ppa +:+ String "/" t'))
        with (user +:+ "/" +:+ ppa +:+ String "/" t').
      by rewrite Hs.
Qed.

Lemma ppa_shortcut_of_pieces_witness :
  Props.piece_after_marker "http://ppa.launchpad.net/someuser"
  = Some "someuser"
  ∧ apt_get_ppa_shortcut "http://ppa.launchpad.net/someuser" = Some "".
Proof.
  split; [reflexivity|].
  apply (ppa_shortcut_of_pieces "http://ppa.launchpad.net/someuser"
           "someuser");
    reflexivity.
Defined.

End PpaClaims.


(** ** The claims about the normalizer *)
Section NormalizerClaims.

Import Normalizer Examples.

(** The number of parts is two exactly when the line has one closing
    bracket. *)
Lemma two_parts_one_bracket (st : string) :
  length (Py.split st "]") = 2 ↔ Py.count_char "]" st = 1.
Proof. rewrite split_length_count. lia. Qed.

(** C9. When splitting the line on the closing bracket yields a number of
    parts other than two, that is, when the line has no closing bracket or
    more than one, the normalizer returns the line unchanged, whatever the
    strip-word is. *)
Theorem normalizer_unchanged_unless_two_parts (st wordtoremove : string) :
  length (Py.split st "]") ≠ 2 →
  Py.count_char "]" st ≠ 1
  ∧ apt_remove_word_from_brackets_in_sources_list st wordtoremove = Some st.
Proof.
  intros Hlen. split; [by rewrite <- two_parts_one_bracket|].
  unfold apt_remove_word_from_brackets_in_sources_list.
  destruct (Py.split st "]") as [|ss0 [|ss1 [|ss2 ss]]]; done.
Qed.

Lemma normalizer_unchanged_unless_two_parts_witness :
  length (Py.split line_no_options "]") ≠ 2
  ∧ apt_remove_word_from_brackets_in_sources_list line_no_options "signed-by"
    = Some line_no_options.
Proof.
  split; [vm_compute; lia|].
  apply (normalizer_unchanged_unless_two_parts line_no_options "signed-by").
  vm_compute; lia.
Defined.

(** C4, at a line with two adjacent tokens that hold the strip-word: the
    removal loop walks the list it shortens, so the token after a removed
    one is never looked at and stays in the output. *)
Theorem normalizer_skips_token_after_removed :
  Py.count_char "]" line_two_keyrings = 1
  ∧ apt_remove_word_from_brackets_in_sources_list line_two_keyrings
      "signed-by"
    = Some "deb [arch=amd64 signed-by=/usr/share/keyrings/b.gpg] http://x/y bionic stable"
  ∧ ¬ Spec.drops_every_token line_two_keyrings "signed-by".
Proof.
  split; [reflexivity|]. split; [vm_compute; reflexivity|].
  intros H.
  specialize (H "deb [arch=amd64 signed-by=/usr/share/keyrings/a.gpg signed-by=/usr/share/keyrings/b.gpg"
                " http://x/y bionic stable"
                "deb [arch=amd64 signed-by=/usr/share/keyrings/b.gpg] http://x/y bionic stable"
                "signed-by=/usr/share/keyrings/b.gpg").
  assert (Py.contains "signed-by=/usr/share/keyrings/b.gpg"
            "deb [arch=amd64 signed-by=/usr/share/keyrings/b.gpg] http://x/y bionic stable"
          = true) as Hin by (vm_compute; reflexivity).
  rewrite H in Hin; [done|vm_compute; reflexivity..| |vm_compute; reflexivity].
  assert (Py.split_ws "deb [arch=amd64 signed-by=/usr/share/keyrings/a.gpg signed-by=/usr/share/keyrings/b.gpg"
          = ["deb"; "[arch=amd64"; "signed-by=/usr/share/keyrings/a.gpg";
             "signed-by=/usr/share/keyrings/b.gpg"]) as -> by (vm_compute; reflexivity).
  set_solver.
Qed.

(** C2, at the same line: the second pass removes the token the first pass
    skipped, so normalizing twice differs from normalizing once. *)
Theorem normalizer_second_pass_differs :
  apt_remove_word_from_brackets_in_sources_list line_two_keyrings "signed-by"
  = Some "deb [arch=amd64 signed-by=/usr/share/keyrings/b.gpg] http://x/y bionic stable"
  ∧ apt_remove_word_from_brackets_in_sources_list
      "deb [arch=amd64 signed-by=/usr/share/keyrings/b.gpg] http://x/y bionic stable"
      "signed-by"
    = Some "deb [arch=amd64] http://x/y bionic stable"
  ∧ ¬ Spec.idempotent_at line_two_keyrings "signed-by".
Proof.
  split; [vm_compute; reflexivity|]. split; [vm_compute; reflexivity|].
  intros H.
  specialize (H "deb [arch=amd64 signed-by=/usr/share/keyrings/b.gpg] http://x/y bionic stable").
  assert (apt_remove_word_from_brackets_in_sources_list
            "deb [arch=amd64 signed-by=/usr/share/keyrings/b.gpg] http://x/y bionic stable"
            "signed-by"
          = Some "deb [arch=amd64] http://x/y bionic stable") as Heq
    by (vm_compute; reflexivity).
  rewrite H in Heq; [discriminate|vm_compute; reflexivity].
Qed.

End NormalizerClaims.

(** ** Facts about de-duplication *)
Section UniqFacts.

Context {V : Type} `{EqDecision V}.
Implicit Types (vs acc : list V) (l : list (gmap string V)).

Lemma first_occurrences_elem vs v :
  v ∈ Uniq.first_occurrences vs ↔ v ∈ vs.
Proof.
  induction vs as [|x vs IH]; simpl; [done|].
  rewrite !elem_of_cons, list_elem_of_filter, IH.
  destruct (decide (v = x)); tauto.
Qed.


Lemma first_occurrences_sublist vs : Uniq.first_occurrences vs `sublist_of` vs.
Proof.
  induction vs as [|x vs IH]; simpl; [done|].
  apply sublist_skip. etrans; [apply sublist_filter | exact IH].
Qed.

(** The accumulator loop against the specification. *)
Lemma extract_loop_spec l key vs acc :
  mapM (λ el, el !! key) l = Some vs →
  Uniq.extract_loop l key acc
  = Some (acc ++ filter (λ x, x ∉ acc) (Uniq.first_occurrences vs)).
Proof.
  revert vs acc. induction l as [|el l IH]; intros vs acc Hvs.
  - injection Hvs as <-. simpl. by rewrite app_nil_r.
  - simpl in Hvs. destruct (el !! key) as [v|] eqn:Hel; [|done].
    simpl in Hvs. destruct (mapM _ l) as [vs'|] eqn:Hl; [|done].
    injection Hvs as <-. simpl. rewrite Hel. simpl.
    rewrite (IH vs' _ eq_refl).
    destruct (decide (v ∈ acc)) as [Hin|Hin].
    + rewrite filter_cons_False by tauto.
      rewrite list_filter_filter. do 2 f_equal.
      apply list_filter_iff. intros x. split; [|tauto].
      intros Hx. split; [done|]. by intros ->.
    + rewrite filter_cons_True by done.
      rewrite <- app_assoc. simpl. do 3 f_equal.
      rewrite list_filter_filter.
      apply list_filter_iff. intros x.
      rewrite not_elem_of_app, list_elem_of_singleton. tauto.
Qed.


Lemma filter_not_in_nil vs : filter (λ x, x ∉ []) vs = vs.
Proof.
  induction vs as [|x vs IH]; [done|].
  rewrite filter_cons_True; [by rewrite IH | apply not_elem_of_nil].
Qed.

Lemma extract_unique_spec l key vs :
  mapM (λ el, el !! key) l = Some vs →
  Uniq.extract_unique_elements l key = Some (Uniq.first_occurrences vs).
Proof.
  intros Hvs. unfold Uniq.extract_unique_elements.
  rewrite (extract_loop_spec _ _ vs) by done.
  by rewrite filter_not_in_nil.
Qed.

End UniqFacts.

(** ** Facts about the world *)
Section WorldFacts.

Import Apt.

Lemma debs_json_detect_distro d w :
  debs_json (detect_distro d w) = debs_json w.
Proof. unfold detect_distro. by destruct (distro_name d). Qed.

Lemma files_detect_distro d w : files (detect_distro d w) = files w.
Proof. unfold detect_distro. by destruct (distro_name d). Qed.

Lemma stdout_detect_distro d w :
  ∃ m, stdout (detect_distro d w) = stdout w ++ [m].
Proof. unfold detect_distro. destruct (distro_name d); simpl; eauto. Qed.

Lemma files_append_command f c w old :
  files w !! f = Some old →
  files (append_command_to_script f c w) !! f = Some (old ++ [c]).
Proof. intros H. simpl. by rewrite lookup_insert_eq, H. Qed.

Lemma files_append_commands f cs w old :
  files w !! f = Some old →
  files (append_commands f cs w) !! f = Some (old ++ cs).
Proof.
  revert w old. induction cs as [|c cs IH]; intros w old H; simpl.
  - by rewrite app_nil_r.
  - rewrite (IH _ (old ++ [c])); [by rewrite <- app_assoc|].
    by apply files_append_command.
Qed.

Lemma debs_json_append_commands f cs w :
  debs_json (append_commands f cs w) = debs_json w.
Proof. revert w. induction cs as [|c cs IH]; intros w; simpl; [done|]. by rewrite IH. Qed.

Lemma stdout_append_commands f cs w :
  stdout (append_commands f cs w) = stdout w.
Proof. revert w. induction cs as [|c cs IH]; intros w; simpl; [done|]. by rewrite IH. Qed.

End WorldFacts.

(** ** The claims about the load run *)
Section LoadClaims.

Import Apt Examples.

Variable unicode_escape : string → option string.
Variable dict_repr : AptKey → string.

(** C7. A load run on a host whose codename differs from the one recorded
    in the snapshot reports the mismatch and leaves the script file empty:
    no command is written to it. *)
Theorem load_on_other_codename_writes_nothing (h : Host) (w : World)
    (d : Snapshot) :
  debs_json w = Some d →
  d_codename (distro d) ≠ d_codename (h_distro h) →
  ∃ w',
    apt_operations unicode_escape dict_repr h "load" w = Some w'
    ∧ files w' !! apt_script_file = Some []
    ∧ MsgWrongDistro (d_codename (distro d)) (d_id (distro d))
        (d_codename (h_distro h)) (d_id (h_distro h)) ∈ stdout w'.
Proof.
  intros Hd Hne. apply String.eqb_neq in Hne.
  unfold apt_operations, apt_load.
  change (String.eqb "load" "save") with false. cbv beta iota.
  cbn [debs_json print truncate_file].
  rewrite debs_json_detect_distro, Hd. cbn [mbind option_bind].
  rewrite Hne. cbn [andb mbind option_bind].
  eexists. split; [reflexivity|]. cbn [files stdout print truncate_file].
  split; [apply lookup_insert_eq|].
  rewrite !elem_of_app, !list_elem_of_singleton. tauto.
Qed.

End LoadClaims.

Lemma load_on_other_codename_writes_nothing_witness :
  Apt.debs_json Examples.saved_world = Some Examples.demo_snapshot
  ∧ Apt.d_codename (Apt.distro Examples.demo_snapshot)
    ≠ Apt.d_codename (Apt.h_distro Examples.host_focal)
  ∧ ∃ w',
      Apt.apt_operations Examples.plain_escape Examples.repr_by_id
        Examples.host_focal "load" Examples.saved_world = Some w'
      ∧ Apt.files w' !! Apt.apt_script_file = Some []
      ∧ Apt.MsgWrongDistro "bionic" "Ubuntu" "focal" "Ubuntu" ∈ Apt.stdout w'.
Proof.
  split; [reflexivity|]. split; [vm_compute; discriminate|].
  apply (load_on_other_codename_writes_nothing Examples.plain_escape
           Examples.repr_by_id Examples.host_focal Examples.saved_world
           Examples.demo_snapshot); [reflexivity|vm_compute; discriminate].
Defined.

(** ** Facts about the script sections *)
Section ScriptFacts.

Import Apt.

Variable dict_repr : AptKey → string.

Lemma forallb_lookup (test : option value → bool) (P : value → Prop)
    (l : list (gmap string value)) (key : string) :
  (∀ o, test o = true → ∃ v, o = Some v ∧ P v) →
  forallb (λ r, test (r !! key)) l = true →
  ∃ vs, mapM (λ el, el !! key) l = Some vs ∧ Forall P vs.
Proof.
  intros Htest. induction l as [|r l IH]; simpl; intros H.
  - by exists [].
  - apply andb_true_iff in H as [Hr Hl].
    destruct (Htest _ Hr) as (v & -> & Hv).
    destruct (IH Hl) as (vs & -> & Hvs).
    exists (v :: vs). split; [done | by constructor].
Qed.

Lemma is_str_inv (o : option value) :
  Spec.is_str o = true → ∃ v, o = Some v ∧ is_Some (join_item v).
Proof. destruct o as [[s|k]|]; try done. intros _. eexists. split; [done|]. by eexists. Qed.

Lemma is_key_inv (o : option value) :
  Spec.is_key o = true → ∃ v, o = Some v ∧ is_Some (key_id v).
Proof. destruct o as [[s|k]|]; try done. intros _. eexists. split; [done|]. by eexists. Qed.

(** Enumerating a key that all records have, with values of the right
    kind, does not raise. *)
Lemma extract_total {B} (f : value → option B) (test : option value → bool)
    (l : list (gmap string value)) (key : string) :
  (∀ o, test o = true → ∃ v, o = Some v ∧ is_Some (f v)) →
  forallb (λ r, test (r !! key)) l = true →
  ∃ out items,
    Uniq.extract_unique_elements l key = Some out ∧ mapM f out = Some items.
Proof.
  intros Htest Hl.
  destruct (forallb_lookup test _ l key Htest Hl) as (vs & Hvs & HP).
  exists (Uniq.first_occurrences vs).
  assert (is_Some (mapM f (Uniq.first_occurrences vs))) as [items Hitems].
  { apply mapM_is_Some_2, Forall_forall. intros v Hv.
    apply (proj1 (first_occurrences_elem _ _)) in Hv.
    rewrite Forall_forall in HP. exact (HP v Hv). }
  exists items. split; [by apply extract_unique_spec | done].
Qed.

Lemma names_total (l : list (gmap string value)) :
  forallb (λ r, Spec.is_str (r !! "name")) l = true →
  is_Some (apt_show_package_names_dict l).
Proof.
  intros Hl.
  destruct (forallb_lookup _ _ l "name" is_str_inv Hl) as (vs & Hvs & _).
  unfold apt_show_package_names_dict. by rewrite Hvs.
Qed.

Lemma repo_line_not_key (c : string) : Spec.not_key_line (repo_line c).
Proof. reflexivity. Qed.

Lemma install_line_not_key (names : list string) :
  Spec.not_key_line (install_line names).
Proof. reflexivity. Qed.

Lemma guard_line_not_key (codename : string) :
  Spec.not_key_line (guard_line codename).
Proof. reflexivity. Qed.

Lemma official_commands_total (d : Snapshot) :
  Spec.wf_snapshot d = true →
  ∃ cmds, official_commands dict_repr d = Some cmds
          ∧ Forall Spec.not_key_line cmds.
Proof.
  unfold Spec.wf_snapshot. rewrite !andb_true_iff.
  intros [[[[[[Hn Hc] _] _] _] _] _].
  destruct (extract_total join_item _ _ "component" is_str_inv Hc)
    as (components & ? & Hcomp & _).
  destruct (extract_total join_item _ _ "name" is_str_inv Hn)
    as (out & names & Hout & Hnames).
  unfold official_commands. rewrite Hcomp, Hout. simpl. rewrite Hnames. simpl.
  eexists. split; [reflexivity|].
  constructor; [reflexivity|]. apply Forall_app. split.
  - apply Forall_fmap, Forall_true. intros v. apply repo_line_not_key.
  - repeat constructor.
Qed.

Lemma ppa_commands_total (d : Snapshot) :
  Spec.wf_snapshot d = true →
  ∃ cmds, ppa_commands dict_repr d = Some cmds
          ∧ Forall Spec.not_key_line cmds.
Proof.
  unfold Spec.wf_snapshot. rewrite !andb_true_iff.
  intros [[[[[[_ _] Hn] Hr] _] _] _].
  destruct (extract_total join_item _ _ "repo" is_str_inv Hr)
    as (repos & ? & Hrepos & _).
  destruct (extract_total join_item _ _ "name" is_str_inv Hn)
    as (out & names & Hout & Hnames).
  unfold ppa_commands. rewrite Hrepos, Hout. simpl. rewrite Hnames. simpl.
  eexists. split; [reflexivity|].
  apply Forall_app. split.
  - apply Forall_fmap, Forall_true. intros v. apply repo_line_not_key.
  - repeat constructor.
Qed.

Lemma thirdparty_commands_total (d : Snapshot) :
  Spec.wf_snapshot d = true →
  ∃ tpks tprs names,
    Uniq.extract_unique_elements (thirdparty_keys d) "key" ≫= mapM key_id
    = Some tpks
    ∧ Uniq.extract_unique_elements (thirdparty_packages d) "repo" = Some tprs
    ∧ Uniq.extract_unique_elements (thirdparty_packages d) "name"
      ≫= mapM join_item = Some names
    ∧ thirdparty_commands dict_repr d
      = Some ((key_line <$> tpks)
              ++ (quoted_repo_line ∘ format_value dict_repr <$> tprs)
              ++ ["apt-get update"; install_line names]).
Proof.
  unfold Spec.wf_snapshot. rewrite !andb_true_iff.
  intros [[[[[[_ _] _] _] Hn] Hr] Hk].
  destruct (extract_total key_id _ _ "key" is_key_inv Hk)
    as (keys & tpks & Hkeys & Htpks).
  destruct (extract_total join_item _ _ "repo" is_str_inv Hr)
    as (tprs & ? & Htprs & _).
  destruct (extract_total join_item _ _ "name" is_str_inv Hn)
    as (out & names & Hout & Hnames).
  exists tpks, tprs, names. unfold thirdparty_commands.
  rewrite Hkeys, Htprs, Hout. simpl. rewrite Htpks, Hnames. done.
Qed.




Lemma files_load_local (d : Snapshot) (w : World) :
  files (load_local d w) = files w.
Proof. unfold load_local. by case_decide. Qed.

End ScriptFacts.

(** ** The claim about the order of the script *)
Section ScriptClaims.

Import Apt.

Variable unicode_escape : string → option string.
Variable dict_repr : AptKey → string.


End ScriptClaims.


(** ** Facts about classification *)
Section ClassifyFacts.

Import Apt.

(** Every package lands in at least one bucket and in at most two. *)
Lemma bucket_count_bounds (o : Origin) :
  (1 ≤ Spec.bucket_count o ≤ 2)%nat.
Proof.
  unfold Spec.bucket_count, is_ubuntu, is_thirdparty_ppa, is_thirdparty_deb,
    is_local.
  destruct (String.eqb (o_origin o) "Ubuntu"),
    (String.eqb (o_archive o) "now"), (o_trusted o),
    (Py.startswith (o_origin o) "LP-PPA"); simpl; lia.
Qed.

(** The only overlap: an official origin that is also untrusted or local. *)
Lemma bucket_count_one (o : Origin) :
  is_ubuntu o && is_local o = false ↔ Spec.bucket_count o = 1.
Proof.
  unfold Spec.bucket_count, is_ubuntu, is_thirdparty_ppa, is_thirdparty_deb,
    is_local.
  destruct (String.eqb (o_origin o) "Ubuntu"),
    (String.eqb (o_archive o) "now"), (o_trusted o),
    (Py.startswith (o_origin o) "LP-PPA"); simpl; split; intros Hx;
    first [done | lia].
Qed.

Lemma sum_list_cons (x : nat) (l : list nat) :
  sum_list (x :: l) = x + sum_list l.
Proof. reflexivity. Qed.

Lemma classify_step_size (b : Buckets) (name : string) (o : Origin) :
  Spec.buckets_size (classify_step b name o)
  = Spec.buckets_size b + Spec.bucket_count o.
Proof.
  unfold classify_step, Spec.buckets_size, Spec.bucket_count.
  destruct (is_ubuntu o), (is_thirdparty_ppa o), (is_thirdparty_deb o),
    (is_local o); simpl; rewrite ?length_app; simpl; lia.
Qed.

(** The buckets grow by the bucket counts of the first origins. *)
Lemma classify_size (apt_cache : list Package) (installed : list string)
    (b b' : Buckets) :
  classify apt_cache installed b = Some b' →
  ∃ os : list Origin,
    length os = length installed
    ∧ Spec.buckets_size b' = Spec.buckets_size b + sum_list (Spec.bucket_count <$> os).
Proof.
  revert b. induction installed as [|i installed IH]; intros b H; simpl in H.
  - injection H as <-. exists []. simpl. split; [done | lia].
  - destruct (cache_lookup apt_cache i) as [pkg|]; [|done]. simpl in H.
    destruct (head (origins pkg)) as [o|]; [|done]. simpl in H.
    destruct (IH _ H) as (os & Hlen & Hsize).
    exists (o :: os). split; [simpl; by rewrite Hlen|].
    rewrite Hsize, classify_step_size, fmap_cons, sum_list_cons. lia.
Qed.

Lemma sum_bucket_count_bounds (os : list Origin) :
  (length os ≤ sum_list (Spec.bucket_count <$> os) ≤ 2 * length os)%nat.
Proof.
  induction os as [|o os IH]; [simpl; lia|].
  rewrite fmap_cons, sum_list_cons, length_cons.
  pose proof (bucket_count_bounds o). lia.
Qed.

End ClassifyFacts.

(** ** Facts about the save run *)
Section SaveFacts.

Import Apt.

Variable unicode_escape : string → option string.

Lemma index_elements_length (name : string) (o : Origin)
    (indexes : list (option IndexFile)) :
  length (index_elements name o indexes)
  = length (List.filter (λ index,
              match index with
              | Some index => String.eqb (idx_label index) "Debian Package Index"
              | None => false
              end) indexes).
Proof.
  unfold index_elements.
  induction indexes as [|index indexes IH]; [done|].
  rewrite bind_cons, length_app, IH. simpl.
  destruct index as [index|]; [|done].
  by destruct (String.eqb (idx_label index) "Debian Package Index").
Qed.

Lemma apt_parse_debcache_length (h : Host)
    (package_list : list (string * Origin)) (out_list : list DebInfo) :
  apt_parse_debcache (h_cache_name h) (h_candidate_indexes h) package_list = Some out_list →
  length out_list = sum_list (Spec.resolved_count h <$> package_list.*1).
Proof.
  revert out_list.
  induction package_list as [|p package_list IH]; intros out_list H;
    simpl in H.
  - by injection H as <-.
  - destruct (h_candidate_indexes h p.1) as [indexes|] eqn:Hi; [|done].
    simpl in H.
    destruct (apt_parse_debcache _ _ package_list) as [out|]; [|done].
    injection H as <-. rewrite length_app, (IH out eq_refl). simpl.
    unfold Spec.resolved_count at 2. rewrite Hi.
    by rewrite index_elements_length.
Qed.

Lemma thirdparty_records_length (apt_keys : list AptKey)
    (info : list DebInfo) packages keys :
  thirdparty_records unicode_escape apt_keys info = Some (packages, keys) →
  length packages = length info.
Proof.
  revert packages keys.
  induction info as [|p info IH]; intros packages keys H; simpl in H.
  - by injection H as <- <-.
  - destruct (di_deb_url p) as [deb_url|]; [|done]. simpl in H.
    destruct (match_keys _ p deb_url apt_keys) as [ks|]; [|done]. simpl in H.
    destruct (thirdparty_records _ apt_keys info) as [[packages' keys']|];
      [|done].
    injection H as <- <-. simpl. f_equal. by eapply IH.
Qed.

(** What a finished save run has computed and stored. *)
Lemma apt_save_inv (h : Host) (w w' : World) :
  apt_save unicode_escape h w = Some w' →
  ∃ b u p t p' t' launchpad packages keys,
    classify (h_apt_cache h) (installed_names (h_apt_cache h)) no_buckets
    = Some b
    ∧ apt_parse_debcache (h_cache_name h) (h_candidate_indexes h) (pkg_ubuntu b) = Some u
    ∧ apt_parse_debcache (h_cache_name h) (h_candidate_indexes h) (pkg_thirdparty_ppa b)
      = Some p
    ∧ apt_parse_debcache (h_cache_name h) (h_candidate_indexes h) (pkg_thirdparty_deb b)
      = Some t
    ∧ apt_add_deb_url_to_deb_info p (h_sources_list h) = Some p'
    ∧ apt_add_deb_url_to_deb_info t (h_sources_list h) = Some t'
    ∧ mapM lpp_record p' = Some launchpad
    ∧ thirdparty_records unicode_escape (h_apt_keys h) t'
      = Some (packages, keys)
    ∧ debs_json w'
      = Some {| distro := h_distro h;
                package_stats :=
                  {| total := length (installed_names (h_apt_cache h));
                     official := length (pkg_ubuntu b);
                     ppas := length (pkg_thirdparty_ppa b);
                     thirdparty := length (pkg_thirdparty_deb b);
                     local := length (pkg_local b) |};
                official_packages := op_record <$> u;
                launchpad_ppa_packages := launchpad;
                thirdparty_packages := packages;
                thirdparty_keys := keys;
                local_packages := pkg_local b |}.
Proof.
  unfold apt_save. intros H.
  destruct (classify _ _ _) as [b|] eqn:Hb; [|done]. simpl in H.
  destruct (apt_parse_debcache _ _ (pkg_ubuntu b)) as [u|] eqn:Hu; [|done].
  simpl in H.
  destruct (apt_parse_debcache _ _ (pkg_thirdparty_ppa b)) as [p|] eqn:Hp;
    [|done].
  simpl in H.
  destruct (apt_parse_debcache _ _ (pkg_thirdparty_deb b)) as [t|] eqn:Ht;
    [|done].
  simpl in H.
  destruct (apt_add_deb_url_to_deb_info p _) as [p'|] eqn:Hp'; [|done].
  simpl in H.
  destruct (apt_add_deb_url_to_deb_info t _) as [t'|] eqn:Ht'; [|done].
  simpl in H.
  destruct (mapM lpp_record p') as [launchpad|] eqn:Hl; [|done]. simpl in H.
  destruct (thirdparty_records _ _ t') as [[packages keys]|] eqn:Hk; [|done].
  simpl in H. injection H as <-.
  exists b, u, p, t, p', t', launchpad, packages, keys.
  repeat (split; [done|]). reflexivity.
Qed.

Lemma apt_operations_save_inv dict_repr (h : Host) (w w' : World) :
  apt_operations unicode_escape dict_repr h "save" w = Some w' →
  ∃ w0 w1, apt_save unicode_escape h w0 = Some w1
           ∧ debs_json w' = debs_json w1.
Proof.
  unfold apt_operations.
  change (String.eqb "save" "save") with true. cbv beta iota.
  destruct (apt_save _ _ _) as [w1|] eqn:Hsave; [|done].
  intros [= <-]. eauto.
Qed.

End SaveFacts.

(** ** The claims about the save run *)
Section SaveClaims.

Import Apt Examples.

Variable unicode_escape : string → option string.
Variable dict_repr : AptKey → string.

(** The sum of the four counts of a snapshot lies between the number of
    packages and twice that number; it is the sum of the bucket counts of
    the first origins. *)
Lemma save_bucket_sum (h : Host) (w w' : World) (d : Snapshot) :
  apt_operations unicode_escape dict_repr h "save" w = Some w' →
  debs_json w' = Some d →
  ∃ os : list Origin,
    length os = total (package_stats d)
    ∧ Spec.bucket_sum (package_stats d) = sum_list (Spec.bucket_count <$> os)
    ∧ (total (package_stats d) ≤ Spec.bucket_sum (package_stats d)
       ≤ 2 * total (package_stats d))%nat.
Proof.
  intros Hrun Hd.
  destruct (apt_operations_save_inv _ _ _ _ _ Hrun) as (w0 & w1 & Hsave & Hw).
  destruct (apt_save_inv _ _ _ _ Hsave)
    as (b & u & p & t & p' & t' & launchpad & packages & keys & Hb & _ & _
        & _ & _ & _ & _ & _ & Hjson).
  rewrite Hw, Hjson in Hd. injection Hd as <-.
  destruct (classify_size _ _ _ _ Hb) as (os & Hlen & Hsize).
  exists os. unfold Spec.bucket_sum. simpl.
  unfold Spec.buckets_size in Hsize. simpl in Hsize.
  pose proof (sum_bucket_count_bounds os).
  split; [done|]. split; lia.
Qed.

Lemma resolved_once_sum (h : Host) (l : list (string * Origin)) :
  forallb (λ p, Nat.eqb (Spec.resolved_count h p.1) 1) l = true →
  sum_list (Spec.resolved_count h <$> l.*1) = length l.
Proof.
  induction l as [|p l IH]; [done|]. cbn [forallb]. intros H.
  apply andb_true_iff in H as [Hp Hl]. apply Nat.eqb_eq in Hp.
  rewrite !fmap_cons, sum_list_cons, Hp, (IH Hl). done.
Qed.

(** C3, as the code has it. The counts of [package_stats] are the lengths
    of the classification lists.  The local count is the length of the
    persisted local list; each of the three other persisted lists has one
    record per package index file of the candidate versions of its
    packages, so that its length is the count when every package of the
    bucket has exactly one such index file. *)
Theorem snapshot_counts_are_classification_lengths (h : Host) (w w' : World)
    (d : Snapshot) :
  apt_operations unicode_escape dict_repr h "save" w = Some w' →
  debs_json w' = Some d →
  ∃ b,
    classify (h_apt_cache h) (installed_names (h_apt_cache h)) no_buckets
    = Some b
    ∧ local (package_stats d) = length (local_packages d)
    ∧ official (package_stats d) = length (pkg_ubuntu b)
    ∧ ppas (package_stats d) = length (pkg_thirdparty_ppa b)
    ∧ thirdparty (package_stats d) = length (pkg_thirdparty_deb b)
    ∧ length (official_packages d)
      = sum_list (Spec.resolved_count h <$> (pkg_ubuntu b).*1)
    ∧ length (launchpad_ppa_packages d)
      = sum_list (Spec.resolved_count h <$> (pkg_thirdparty_ppa b).*1)
    ∧ length (thirdparty_packages d)
      = sum_list (Spec.resolved_count h <$> (pkg_thirdparty_deb b).*1)
    ∧ (forallb (λ p, Nat.eqb (Spec.resolved_count h p.1) 1)
         (pkg_ubuntu b ++ pkg_thirdparty_ppa b ++ pkg_thirdparty_deb b)
       = true →
       Spec.counts_match_lists d).
Proof.
  intros Hrun Hd.
  destruct (apt_operations_save_inv _ _ _ _ _ Hrun) as (w0 & w1 & Hsave & Hw).
  destruct (apt_save_inv _ _ _ _ Hsave)
    as (b & u & p & t & p' & t' & launchpad & packages & keys & Hb & Hu & Hp
        & Ht & Hp' & Ht' & Hl & Hk & Hjson).
  rewrite Hw, Hjson in Hd. injection Hd as <-.
  exists b. simpl.
  assert (length (op_record <$> u)
          = sum_list (Spec.resolved_count h <$> (pkg_ubuntu b).*1)) as Hlu.
  { rewrite length_fmap. by apply apt_parse_debcache_length. }
  assert (length launchpad
          = sum_list (Spec.resolved_count h <$> (pkg_thirdparty_ppa b).*1))
    as Hlp.
  { rewrite <- (length_mapM _ _ _ Hl).
    unfold apt_add_deb_url_to_deb_info in Hp'.
    rewrite <- (length_mapM _ _ _ Hp').
    by apply apt_parse_debcache_length. }
  assert (length packages
          = sum_list (Spec.resolved_count h <$> (pkg_thirdparty_deb b).*1))
    as Hlt.
  { rewrite (thirdparty_records_length _ _ _ _ _ Hk).
    unfold apt_add_deb_url_to_deb_info in Ht'.
    rewrite <- (length_mapM _ _ _ Ht').
    by apply apt_parse_debcache_length. }
  repeat (split; [done|]).
  rewrite !forallb_app, !andb_true_iff. intros (H1 & H2 & H3).
  unfold Spec.counts_match_lists. simpl.
  rewrite Hlu, Hlp, Hlt, !resolved_once_sum by done. done.
Qed.

End SaveClaims.

Lemma snapshot_counts_are_classification_lengths_witness :
  ∃ w',
    Apt.apt_operations Examples.plain_escape Examples.repr_by_id
      Examples.host_demo "save" Examples.empty_world = Some w'
    ∧ Apt.debs_json w' = Some Examples.demo_snapshot
    ∧ Spec.counts_match_lists Examples.demo_snapshot.
Proof.
  destruct (Apt.apt_operations Examples.plain_escape Examples.repr_by_id
              Examples.host_demo "save" Examples.empty_world)
    as [w'|] eqn:Hrun; [|vm_compute in Hrun; discriminate].
  assert (Apt.debs_json w' = Some Examples.demo_snapshot) as Hd.
  { vm_compute in Hrun. injection Hrun as <-. reflexivity. }
  exists w'. split; [reflexivity|]. split; [exact Hd|].
  destruct (snapshot_counts_are_classification_lengths
              Examples.plain_escape Examples.repr_by_id Examples.host_demo
              Examples.empty_world w' Examples.demo_snapshot Hrun Hd)
    as (b & Hb & _ & _ & _ & _ & _ & _ & _ & Hall).
  apply Hall. vm_compute in Hb. injection Hb as <-.
  vm_compute. reflexivity.
Defined.

(** C3, as worded, fails for a package without a package index file: it
    is counted as official, and no record of it is persisted. *)
Lemma counts_differ_from_lists_counterexample :
  ∃ w' d,
    Apt.apt_operations Examples.plain_escape Examples.repr_by_id
      Examples.host_unresolved "save" Examples.empty_world = Some w'
    ∧ Apt.debs_json w' = Some d
    ∧ Apt.official (Apt.package_stats d) = 1
    ∧ Apt.official_packages d = []
    ∧ ¬ Spec.counts_match_lists d.
Proof.
  eexists _, _. split; [vm_compute; reflexivity|]. split; [reflexivity|].
  split; [reflexivity|]. split; [reflexivity|].
  intros [H _]. vm_compute in H. discriminate.
Qed.

(** C1, at a host whose only manual package comes from an Ubuntu archive
    that apt does not trust: the package is put into the official list and
    into the local list, and the four counts sum to two for one package. *)
Theorem untrusted_official_package_counted_twice :
  ∃ w' d,
    Apt.apt_operations Examples.plain_escape Examples.repr_by_id
      Examples.host_untrusted "save" Examples.empty_world = Some w'
    ∧ Apt.debs_json w' = Some d
    ∧ Apt.total (Apt.package_stats d) = 1
    ∧ Apt.official (Apt.package_stats d) = 1
    ∧ Apt.local (Apt.package_stats d) = 1
    ∧ Apt.local_packages d = ["vim"]
    ∧ Spec.bucket_count Examples.o_ubuntu_untrusted = 2
    ∧ Spec.bucket_sum (Apt.package_stats d) ≠ Apt.total (Apt.package_stats d).
Proof.
  eexists _, _. split; [vm_compute; reflexivity|].
  repeat (split; [reflexivity|]). vm_compute. lia.
Qed.

(** ** Facts about the key matcher *)
Section KeyMatcherFacts.

Import Apt.

#[local] Arguments String.prefix : simpl never.

Variable unicode_escape : string → option string.

Lemma join_cons_first (sep : string) (c : ascii) (l : list string) :
  l ≠ [] → Py.join sep (Py.cons_first c l) = String c (Py.join sep l).
Proof. destruct l as [|h [|h' t]]; done. Qed.

Lemma join_nil_first (sep : string) (l : list string) :
  l ≠ [] → Py.join sep ("" :: l) = sep +:+ Py.join sep l.
Proof. by destruct l. Qed.

(** Replacing a one-character string by another one is the character-wise
    substitution. *)
Lemma replace_char (c d : ascii) (s : string) :
  Py.replace s (String c "") (String d "") = Spec.subst_char c d s.
Proof.
  unfold Py.replace, Py.split. induction s as [|x s IH]; [done|].
  change (Py.split_go (String c "") None 0 (String x s))
    with (if String.prefix (String c "") (String x s)
          then "" :: Py.split_go (String c "") None 0 s
          else Py.cons_first x (Py.split_go (String c "") None 0 s)).
  rewrite prefix_cons, prefix_nil_l, andb_true_r.
  change (Spec.subst_char c d (String x s))
    with (String (if Ascii.eqb x c then d else x) (Spec.subst_char c d s)).
  destruct (Ascii.eqb_spec x c) as [->|Hne].
  - rewrite bool_decide_eq_true_2 by done.
    rewrite join_nil_first by apply split_go_nonempty.
    by rewrite IH.
  - rewrite bool_decide_eq_false_2 by congruence.
    rewrite join_cons_first by apply split_go_nonempty.
    by rewrite IH.
Qed.

(** A key that passes one of the tests is among the records of the
    package, when the loop over the keys comes to its end. *)
Lemma match_keys_records (p : DebInfo) (deb_url : string) (apt_keys : list AptKey) (k : AptKey)
    (l : list (gmap string value)) :
  e7 p k = true →
  Py.startswith (k_name k) "Launchpad" = false →
  k ∈ apt_keys →
  match_keys unicode_escape p deb_url apt_keys = Some l →
  tpk_record (di_name p) k ∈ l.
Proof.
  intros He7 Hlp. revert l.
  induction apt_keys as [|k0 apt_keys IH]; intros l Hin Hl.
  - by apply elem_of_nil in Hin.
  - simpl in Hl. apply elem_of_cons in Hin as [<-|Hin].
    + rewrite Hlp in Hl. simpl in Hl.
      destruct (e6 _ deb_url k) as [b6|]; [|done]. simpl in Hl.
      destruct (match_keys _ p deb_url apt_keys) as [rest|]; [|done].
      injection Hl as <-. rewrite He7, !orb_true_r. apply elem_of_cons. auto.
    + destruct (negb (Py.startswith (k_name k0) "Launchpad")).
      * destruct (e6 _ deb_url k0) as [b6|]; [|done]. simpl in Hl.
        destruct (match_keys _ p deb_url apt_keys) as [rest|]; [|done].
        injection Hl as <-.
        destruct (_ || _); [apply elem_of_cons; right|]; by apply IH.
      * by apply IH.
Qed.

End KeyMatcherFacts.

(** ** The claim about heuristic (d) *)
Section KeyMatcherClaims.

Import Apt.

Variable unicode_escape : string → option string.

(** C5, as the code has it. The test [e7] holds exactly when the package
    name with its hyphens replaced by spaces is a substring of the
    lower-cased key name; a key that passes it, and whose name does not
    start with "Launchpad", is recorded for the package whenever the loop
    over the keys comes to its end. *)
Theorem heuristic_d_package_in_key (p : DebInfo) (k : AptKey) :
  (e7 p k = true
   ↔ ∃ pre post,
       Py.lower (k_name k)
       = pre +:+ Spec.subst_char "-" " " (di_name p) +:+ post)
  ∧ (e7 p k = true →
     Py.startswith (k_name k) "Launchpad" = false →
     ∀ deb_url apt_keys l,
       k ∈ apt_keys →
       match_keys unicode_escape p deb_url apt_keys = Some l →
       tpk_record (di_name p) k ∈ l).
Proof.
  split.
  - unfold e7. by rewrite replace_char, contains_spec.
  - intros He7 Hlp deb_url apt_keys l Hin Hl.
    by eapply (match_keys_records unicode_escape).
Qed.

End KeyMatcherClaims.

Lemma heuristic_d_package_in_key_witness :
  Apt.e7 Examples.yandex_disk Examples.key_yandex = true
  ∧ Py.startswith (Apt.k_name Examples.key_yandex) "Launchpad" = false
  ∧ Apt.match_keys Examples.plain_escape Examples.yandex_disk
      "deb http://repo.yandex.ru/yandex-disk/deb/ stable main"
      [Examples.docker_key; Examples.key_yandex]
    = Some [Apt.tpk_record "yandex-disk" Examples.key_yandex]
  ∧ Apt.tpk_record "yandex-disk" Examples.key_yandex
    ∈ [Apt.tpk_record "yandex-disk" Examples.key_yandex].
Proof.
  split; [vm_compute; reflexivity|]. split; [vm_compute; reflexivity|].
  split; [vm_compute; reflexivity|].
  apply (proj2 (heuristic_d_package_in_key Examples.plain_escape
                  Examples.yandex_disk Examples.key_yandex)
           ltac:(vm_compute; reflexivity) ltac:(vm_compute; reflexivity)
           "deb http://repo.yandex.ru/yandex-disk/deb/ stable main"
           [Examples.docker_key; Examples.key_yandex]).
  - apply elem_of_cons. right. apply elem_of_cons. by left.
  - vm_compute. reflexivity.
Defined.

(** C5, as worded, fails: for the package "foo-bar" and the key "Foo" the
    lower-cased key name is a substring of the package name, the code's
    test does not hold and no key is recorded; for "yandex-disk" and the
    key of Yandex Disk the code's test holds and the worded one does not. *)
Lemma heuristic_d_as_worded_counterexample :
  Spec.heuristic_d_as_worded Examples.foo_bar Examples.key_Foo = true
  ∧ Apt.e7 Examples.foo_bar Examples.key_Foo = false
  ∧ Apt.match_keys Examples.plain_escape Examples.foo_bar
      "deb http://example.org/debian stable main" [Examples.key_Foo]
    = Some []
  ∧ Spec.heuristic_d_as_worded Examples.yandex_disk Examples.key_yandex
    = false
  ∧ Apt.e7 Examples.yandex_disk Examples.key_yandex = true.
Proof. repeat split; vm_compute; reflexivity. Qed.

(** ** The snapshots of a save run are well formed *)
Section SaveWellFormed.

Import Apt.

Variable unicode_escape : string → option string.
Variable dict_repr : AptKey → string.

Lemma op_record_wf (u : list DebInfo) :
  forallb (λ r, Spec.is_str (r !! "name")) (op_record <$> u) = true
  ∧ forallb (λ r, Spec.is_str (r !! "component")) (op_record <$> u) = true.
Proof.
  induction u as [|op u [IH1 IH2]]; [done|].
  rewrite fmap_cons. cbn [forallb]. rewrite IH1, IH2. done.
Qed.

Lemma lpp_record_wf (p : list DebInfo) (launchpad : list (gmap string value)) :
  mapM lpp_record p = Some launchpad →
  forallb (λ r, Spec.is_str (r !! "name")) launchpad = true
  ∧ forallb (λ r, Spec.is_str (r !! "repo")) launchpad = true.
Proof.
  intros H. apply mapM_Some_1 in H.
  induction H as [|lpp r p launchpad Hr _ [IH1 IH2]]; [done|].
  unfold lpp_record in Hr.
  destruct (di_deb_url lpp) as [url|]; [|done]. simpl in Hr.
  destruct (Ppa.apt_get_ppa_shortcut url) as [repo|]; [|done].
  injection Hr as <-. cbn [forallb]. rewrite IH1, IH2. done.
Qed.

Lemma match_keys_wf (p : DebInfo) (deb_url : string) (apt_keys : list AptKey)
    (l : list (gmap string value)) :
  match_keys unicode_escape p deb_url apt_keys = Some l →
  forallb (λ r, Spec.is_key (r !! "key")) l = true.
Proof.
  revert l. induction apt_keys as [|k apt_keys IH]; intros l H; simpl in H.
  - by injection H as <-.
  - destruct (negb (Py.startswith (k_name k) "Launchpad")); [|by apply IH].
    destruct (e6 _ deb_url k) as [b6|]; [|done]. simpl in H.
    destruct (match_keys _ p deb_url apt_keys) as [rest|]; [|done].
    injection H as <-. specialize (IH rest eq_refl).
    destruct (_ || _); [|done]. cbn [forallb]. by rewrite IH.
Qed.

Lemma thirdparty_records_wf (apt_keys : list AptKey) (info : list DebInfo)
    packages keys :
  thirdparty_records unicode_escape apt_keys info = Some (packages, keys) →
  forallb (λ r, Spec.is_str (r !! "name")) packages = true
  ∧ forallb (λ r, Spec.is_str (r !! "repo")) packages = true
  ∧ forallb (λ r, Spec.is_key (r !! "key")) keys = true.
Proof.
  revert packages keys.
  induction info as [|p info IH]; intros packages keys H; simpl in H.
  - by injection H as <- <-.
  - destruct (di_deb_url p) as [deb_url|]; [|done]. simpl in H.
    destruct (match_keys _ p deb_url apt_keys) as [ks|] eqn:Hks; [|done].
    simpl in H.
    destruct (thirdparty_records _ apt_keys info) as [[packages' keys']|];
      [|done].
    injection H as <- <-.
    destruct (IH _ _ eq_refl) as (IH1 & IH2 & IH3).
    cbn [forallb]. rewrite IH1, IH2, forallb_app, IH3.
    by rewrite (match_keys_wf _ _ _ _ Hks).
Qed.

(** Every document a save run stores is well formed. *)
Lemma save_wf (h : Host) (w w' : World) (d : Snapshot) :
  apt_operations unicode_escape dict_repr h "save" w = Some w' →
  debs_json w' = Some d →
  Spec.wf_snapshot d = true.
Proof.
  intros Hrun Hd.
  destruct (apt_operations_save_inv _ _ _ _ _ Hrun) as (w0 & w1 & Hsave & Hw).
  destruct (apt_save_inv _ _ _ _ Hsave)
    as (b & u & p & t & p' & t' & launchpad & packages & keys & _ & _ & _
        & _ & _ & _ & Hl & Hk & Hjson).
  rewrite Hw, Hjson in Hd. injection Hd as <-.
  destruct (op_record_wf u) as [H1 H2].
  destruct (lpp_record_wf _ _ Hl) as [H3 H4].
  destruct (thirdparty_records_wf _ _ _ _ Hk) as (H5 & H6 & H7).
  unfold Spec.wf_snapshot. simpl.
  by rewrite H1, H2, H3, H4, H5, H6, H7.
Qed.

End SaveWellFormed.

(** ** The worked examples of the specification *)
Section WorkedExamples.

Import Apt Examples.

Example normalize_docker_line :
  Normalizer.apt_remove_word_from_brackets_in_sources_list
    "deb [signed-by=/a/b.gpg arch=amd64] http://x/y bionic stable" "signed-by"
  = Some "deb [arch=amd64] http://x/y bionic stable".
Proof. vm_compute. reflexivity. Qed.

Example ppa_shortcut_of_full_url :
  Ppa.apt_get_ppa_shortcut "http://ppa.launchpad.net/someuser/someppa/ubuntu"
  = Some "ppa:someuser/someppa".
Proof. vm_compute. reflexivity. Qed.

Example key_match_docker :
  e1 {| di_name := "docker-ce"; di_origin := o_docker; di_describe := "";
        di_deb_url := None |}
     {| k_key := ""; k_expiry := ""; k_name := "docker" |} = true
  ∧ e2 {| di_name := "docker"; di_origin := o_docker; di_describe := "";
          di_deb_url := None |}
       {| k_key := ""; k_expiry := ""; k_name := "docker-ce" |} = true.
Proof. split; vm_compute; reflexivity. Qed.

(** Save on the demonstration host, then load on the same host. *)
Example demo_round_trip :
  (w ← apt_operations plain_escape repr_by_id host_demo "save" empty_world;
   w ← apt_operations plain_escape repr_by_id host_demo "load" w;
   files w !! apt_script_file)
  = Some
      [ "#!/bin/bash";
        guard_line "bionic";
        "dpkg --add-architecture i386";
        "add-apt-repository main";
        "apt-get update";
        "apt install git vim";
        "add-apt-repository ppa:bar/baz";
        "apt-get update";
        "apt install foo";
        "apt-key adv --keyserver keyserver.ubuntu.com --recv 8D81803C0EBFCD88";
        "add-apt-repository 'deb [arch=amd64] https://download.docker.com/linux/ubuntu bionic stable'";
        "apt-get update";
        "apt install docker-ce" ].
Proof. vm_compute. reflexivity. Qed.

End WorkedExamples.

(** ** Further facts about strings *)
Section MoreStringFacts.

#[local] Arguments String.prefix : simpl never.

Lemma join_cons2 (sep x y : string) (l : list string) :
  Py.join sep (x :: y :: l) = x +:+ sep +:+ Py.join sep (y :: l).
Proof. reflexivity. Qed.

(** An element of a joined list is a part of the joined string. *)
Lemma join_elem (sep t : string) (l : list string) :
  t ∈ l → ∃ pre post, Py.join sep l = pre +:+ t +:+ post.
Proof.
  induction l as [|x l IH]; intros Hin; [by apply elem_of_nil in Hin|].
  apply elem_of_cons in Hin as [->|Hin].
  - destruct l as [|y l].
    + exists "", "". simpl. by rewrite app_nil_r_s.
    + exists "", (sep +:+ Py.join sep (y :: l)). by rewrite join_cons2.
  - destruct (IH Hin) as (pre & post & Hj).
    destruct l as [|y l]; [by apply elem_of_nil in Hin|].
    exists (x +:+ sep +:+ pre), post.
    rewrite join_cons2, Hj. by rewrite !app_assoc_s.
Qed.

Lemma contains_app_r (a s t : string) :
  Py.contains a t = true → Py.contains a (s +:+ t) = true.
Proof.
  rewrite !contains_spec. intros (pre & post & ->).
  exists (s +:+ pre), post. by rewrite !app_assoc_s.
Qed.

Lemma contains_app_l (a s t : string) :
  Py.contains a s = true → Py.contains a (s +:+ t) = true.
Proof.
  rewrite !contains_spec. intros (pre & post & ->).
  exists pre, (post +:+ t). by rewrite !app_assoc_s.
Qed.

Lemma contains_join (a sep t : string) (l : list string) :
  t ∈ l → Py.contains a t = true → Py.contains a (Py.join sep l) = true.
Proof.
  intros Hin Ha. destruct (join_elem sep t l Hin) as (pre & post & ->).
  apply contains_app_r, contains_app_l, Ha.
Qed.

End MoreStringFacts.

(** ** Further facts about the normalizer *)
Section MoreNormalizerFacts.

Import Normalizer.

Lemma list_remove_middle (x : string) (pre rest : list string) :
  x ∉ pre → Py.list_remove x (pre ++ x :: rest) = pre ++ rest.
Proof.
  induction pre as [|y pre IH]; intros Hx; simpl.
  - by rewrite decide_True.
  - apply not_elem_of_cons in Hx as [Hne Hx].
    rewrite decide_False by done. by rewrite IH.
Qed.

Lemma no_neighbours_tail (w a : string) (l : list string) :
  Props.no_neighbours w (a :: l) = true → Props.no_neighbours w l = true.
Proof.
  destruct l as [|b l]; [done|]. simpl. intros H.
  by apply andb_true_iff in H as [_ H].
Qed.

(** When no two neighbouring tokens hold the word, the loop that removes
    from the list it walks drops exactly the tokens that hold it. *)
Lemma remove_loop_without_word (w : string) (fuel : nat)
    (pre rest : list string) :
  Forall (λ tok, Py.contains w tok = false) pre →
  Props.no_neighbours w rest = true →
  (length rest ≤ fuel)%nat →
  remove_loop fuel (length pre) w (pre ++ rest)
  = pre ++ Props.without_word w rest.
Proof.
  revert pre rest. induction fuel as [|fuel IH]; intros pre rest Hpre Hnn Hlen.
  - destruct rest; [|simpl in Hlen; lia]. done.
  - destruct rest as [|x rest].
    + simpl. rewrite lookup_ge_None_2; [done | rewrite app_nil_r; lia].
    + simpl. rewrite list_lookup_middle by done.
      destruct (Py.contains w x) eqn:Hx; simpl.
      * rewrite list_remove_middle.
        2:{ intros Hin. rewrite Forall_forall in Hpre.
            specialize (Hpre _ Hin). congruence. }
        destruct rest as [|y rest].
        { destruct fuel; simpl; [done|].
          rewrite lookup_ge_None_2; [done | rewrite app_nil_r; lia]. }
        assert (Py.contains w y = false) as Hy.
        { simpl in Hnn. rewrite Hx in Hnn. simpl in Hnn.
          apply andb_true_iff in Hnn as [Hnn _].
          by apply negb_true_iff in Hnn. }
        apply no_neighbours_tail in Hnn.
        replace (S (length pre)) with (length (pre ++ [y]))
          by (rewrite length_app; simpl; lia).
        replace (pre ++ y :: rest) with ((pre ++ [y]) ++ rest)
          by by rewrite <- app_assoc.
        simpl in Hlen.
        rewrite IH.
        -- simpl. rewrite Hy. simpl. by rewrite <- app_assoc.
        -- apply Forall_app. split; [done | by repeat constructor].
        -- by apply no_neighbours_tail in Hnn.
        -- lia.
      * apply no_neighbours_tail in Hnn as Hnn'.
        replace (S (length pre)) with (length (pre ++ [x]))
          by (rewrite length_app; simpl; lia).
        replace (pre ++ x :: rest) with ((pre ++ [x]) ++ rest)
          by by rewrite <- app_assoc.
        rewrite IH.
        -- by rewrite <- app_assoc.
        -- apply Forall_app. split; [done | by repeat constructor].
        -- done.
        -- simpl in Hlen. lia.
Qed.

End MoreNormalizerFacts.

(** ** Further properties of the normalizer, the shortcut and the
    de-duplication *)
Section MoreLeafProperties.

Import Normalizer.

(** X1. For a line with one closing bracket in which no two neighbouring
    tokens before the bracket hold the strip-word, the normalizer drops
    exactly the tokens that hold it: when an opening bracket is left, the
    result is the other tokens joined by single spaces, the bracket, and the
    text after the bracket unchanged. *)
Theorem normalizer_drops_tokens_without_neighbours
    (st wordtoremove ss0 ss1 : string) :
  Py.split st "]" = [ss0; ss1] →
  Props.no_neighbours wordtoremove (Py.split_ws ss0) = true →
  Py.contains "["
    (Py.join " " (Props.without_word wordtoremove (Py.split_ws ss0))
     +:+ "]" +:+ ss1) = true →
  apt_remove_word_from_brackets_in_sources_list st wordtoremove
  = Some (Py.join " " (Props.without_word wordtoremove (Py.split_ws ss0))
          +:+ "]" +:+ ss1).
Proof.
  intros Hsplit Hnn Hbr.
  unfold apt_remove_word_from_brackets_in_sources_list. rewrite Hsplit.
  pose proof (remove_loop_without_word wordtoremove
                (length (Py.split_ws ss0)) [] (Py.split_ws ss0)) as Hloop.
  simpl in Hloop. rewrite Hloop by (done || lia).
  cbv zeta. by rewrite Hbr.
Qed.

Lemma normalizer_drops_tokens_without_neighbours_witness :
  apt_remove_word_from_brackets_in_sources_list
    "deb [arch=amd64 signed-by=/usr/share/keyrings/docker.gpg] https://download.docker.com/linux/ubuntu bionic stable"
    "signed-by"
  = Some "deb [arch=amd64] https://download.docker.com/linux/ubuntu bionic stable".
Proof.
  apply (normalizer_drops_tokens_without_neighbours
           "deb [arch=amd64 signed-by=/usr/share/keyrings/docker.gpg] https://download.docker.com/linux/ubuntu bionic stable"
           "signed-by"
           "deb [arch=amd64 signed-by=/usr/share/keyrings/docker.gpg"
           " https://download.docker.com/linux/ubuntu bionic stable");
    vm_compute; reflexivity.
Defined.

(** X2. Whenever the line has exactly one closing bracket and the
    normalizer returns, the returned line has an opening bracket. *)
Theorem normalizer_result_has_opening_bracket
    (st wordtoremove out : string) :
  length (Py.split st "]") = 2 →
  apt_remove_word_from_brackets_in_sources_list st wordtoremove = Some out →
  Py.contains "[" out = true.
Proof.
  unfold apt_remove_word_from_brackets_in_sources_list. intros Hlen.
  destruct (Py.split st "]") as [|ss0 [|ss1 [|ss2 ss]]]; try done.
  cbv zeta.
  destruct (Py.contains "[" _) eqn:Hbr; simpl.
  - by intros [= <-].
  - unfold bracket_second.
    destruct (Py.split_ws _ !! 1) as [t1|] eqn:Ht1; [|done]. simpl.
    intros [= <-].
    apply (contains_join "[" " " ("[" +:+ t1)).
    + apply list_elem_of_insert. by apply lookup_lt_Some in Ht1.
    + apply contains_spec. by exists "", t1.
Qed.

Lemma normalizer_result_has_opening_bracket_witness :
  Py.contains "[" "deb [arch=amd64] http://x/y bionic stable" = true.
Proof.
  apply (normalizer_result_has_opening_bracket
           "deb [signed-by=/a/b.gpg arch=amd64] http://x/y bionic stable"
           "signed-by" "deb [arch=amd64] http://x/y bionic stable");
    vm_compute; reflexivity.
Defined.

(** X3. The shortcut function returns a result exactly for the URLs that
    hold the marker "ppa.launchpad.net/"; for every other URL it raises
    [IndexError]. *)
Theorem ppa_shortcut_returns_iff_marker (url : string) :
  is_Some (Ppa.apt_get_ppa_shortcut url)
  ↔ Py.contains Ppa.marker url = true.
Proof.
  split.
  - intros Hsome. destruct (Py.contains Ppa.marker url) eqn:Hc; [done|].
    rewrite (ppa_shortcut_raises _ Hc) in Hsome. by destruct Hsome.
  - intros Hc. apply contains_find in Hc as [i Hi].
    unfold Ppa.apt_get_ppa_shortcut, Py.split.
    rewrite (split_go_find_some _ _ _ i marker_nonempty) by done. simpl.
    pose proof (split_go_nonempty Ppa.marker None 0
                  (Py.drop (i + String.length Ppa.marker) url)) as Hne.
    destruct (Py.split_go _ _ _ _) as [|after more]; [done|]. simpl.
    by eexists.
Qed.

End MoreLeafProperties.

Section MoreUniqProperties.

Context {V : Type} `{EqDecision V}.

Lemma filter_ne_absent (v : V) (vs : list V) :
  v ∉ vs → filter (λ x, x ≠ v) vs = vs.
Proof.
  induction vs as [|x vs IH]; intros Hv; [done|].
  apply not_elem_of_cons in Hv as [Hne Hv].
  rewrite filter_cons_True by congruence. by rewrite IH.
Qed.

Lemma first_occurrences_distinct (vs : list V) :
  NoDup vs → Uniq.first_occurrences vs = vs.
Proof.
  induction vs as [|v vs IH]; intros Hnd; [done|].
  apply NoDup_cons in Hnd as [Hv Hnd]. simpl.
  by rewrite (IH Hnd), filter_ne_absent.
Qed.

Lemma first_occurrences_length (vs : list V) :
  (length (Uniq.first_occurrences vs) ≤ length vs)%nat.
Proof. apply sublist_length, first_occurrences_sublist. Qed.

(** X4. On records whose values under the key are pairwise distinct,
    [extract_unique_elements] returns all the values in the order of the
    records; and it never returns more values than there are records. *)
Theorem extract_unique_elements_of_distinct
    (elements_list : list (gmap string V)) (repo_key_name : string)
    (vs : list V) :
  mapM (λ el, el !! repo_key_name) elements_list = Some vs →
  (NoDup vs →
   Uniq.extract_unique_elements elements_list repo_key_name = Some vs)
  ∧ ∃ out,
      Uniq.extract_unique_elements elements_list repo_key_name = Some out
      ∧ (length out ≤ length elements_list)%nat.
Proof.
  intros Hvs. pose proof (extract_unique_spec _ _ _ Hvs) as Hout. split.
  - intros Hnd. by rewrite Hout, first_occurrences_distinct.
  - eexists. split; [exact Hout|].
    rewrite (length_mapM _ _ _ Hvs). apply first_occurrences_length.
Qed.

End MoreUniqProperties.

Lemma extract_unique_elements_of_distinct_witness :
  Uniq.extract_unique_elements
    (Apt.official_packages Examples.demo_snapshot) "name"
  = Some [Apt.VStr "git"; Apt.VStr "vim"].
Proof.
  apply (extract_unique_elements_of_distinct
           (Apt.official_packages Examples.demo_snapshot) "name"
           [Apt.VStr "git"; Apt.VStr "vim"]).
  - vm_compute. reflexivity.
  - apply NoDup_cons. split; [|apply NoDup_singleton].
    rewrite list_elem_of_singleton. discriminate.
Defined.

(** ** Facts about the readers *)
Section ReaderFacts.

Import Apt Readers.

#[local] Arguments String.prefix : simpl never.

(** Replacing a character by the empty string removes it. *)
Lemma replace_char_empty (c : ascii) (s : string) :
  Py.replace s (String c "") "" = Props.remove_char c s.
Proof.
  unfold Py.replace, Py.split. induction s as [|x s IH]; [done|].
  change (Py.split_go (String c "") None 0 (String x s))
    with (if String.prefix (String c "") (String x s)
          then "" :: Py.split_go (String c "") None 0 s
          else Py.cons_first x (Py.split_go (String c "") None 0 s)).
  rewrite prefix_cons, prefix_nil_l, andb_true_r. simpl.
  destruct (Ascii.eqb_spec x c) as [->|Hne].
  - rewrite bool_decide_eq_true_2 by done.
    rewrite join_nil_first by apply split_go_nonempty.
    by rewrite IH.
  - rewrite bool_decide_eq_false_2 by congruence.
    rewrite join_cons_first by apply split_go_nonempty.
    by rewrite IH.
Qed.

Lemma remove_char_count (c : ascii) (s : string) :
  Py.count_char c (Props.remove_char c s) = 0.
Proof.
  induction s as [|x s IH]; [done|]. simpl.
  destruct (Ascii.eqb_spec x c) as [->|Hne]; [done|]. simpl.
  rewrite IH. apply not_eq_sym in Hne. apply Ascii.eqb_neq in Hne.
  by rewrite Hne.
Qed.

Lemma remove_newline_deb (s : string) :
  Py.startswith s "deb" = true →
  Py.startswith (Props.remove_char "010" s) "deb" = true.
Proof.
  unfold Py.startswith. intros H. apply prefix_inv in H as [post ->].
  simpl. apply (prefix_app "deb").
Qed.

Lemma key_loop_ignores (iso : string → option string)
    (lines : list string) (key expiry : option string) (res : list AptKey) :
  key_loop iso lines "" key expiry res
  = key_loop iso (List.filter Props.pub_or_uid_line lines) "" key expiry res.
Proof.
  revert key expiry res.
  induction lines as [|line lines IH]; intros key expiry res; [done|].
  simpl List.filter. unfold Props.pub_or_uid_line at 1, Props.fields.
  destruct (is_pub_or_uid (Py.split line ":")) eqn:Hpu.
  - simpl. rewrite Hpu.
    destruct (Py.split line ":" !! 9) as [name|]; [|done]. simpl.
    destruct (is_pub (Py.split line ":")).
    + destruct (Py.split line ":" !! 4) as [k|]; [|done]. simpl.
      destruct (Py.split line ":" !! 5) as [f5|]; [|done]. simpl.
      destruct (iso f5) as [e|]; [|done]. simpl.
      destruct (String.eqb_spec name "") as [->|_]; simpl; apply IH.
    + simpl. destruct (String.eqb_spec name "") as [->|_]; [apply IH|].
      destruct key as [k|]; [|done]. simpl.
      destruct expiry as [e|]; [|done]. simpl. apply IH.
  - simpl. rewrite Hpu. simpl.
    assert (is_pub (Py.split line ":") = false) as ->.
    { unfold is_pub, is_pub_or_uid in *.
      destruct (Py.split line ":" !! 0); [|done].
      by apply orb_false_iff in Hpu as [-> _]. }
    simpl. apply IH.
Qed.

(** The records the loop adds: a non-empty name from a pub or uid line and
    the key of a pub line, at most one record for each such line. *)
Lemma key_loop_records (iso : string → option string)
    (all lines : list string) (key expiry : option string)
    (res out : list AptKey) (Q : AptKey → Prop) :
  (∀ rec : AptKey,
     k_name rec ≠ "" →
     (∃ line, line ∈ all ∧ is_pub (Props.fields line) = true
              ∧ Props.fields line !! 4 = Some (k_key rec)) →
     (∃ line, line ∈ all ∧ Props.pub_or_uid_line line = true
              ∧ Props.fields line !! 9 = Some (k_name rec)) →
     Q rec) →
  (∀ line, line ∈ lines → line ∈ all) →
  (∀ k, key = Some k →
        ∃ line, line ∈ all ∧ is_pub (Props.fields line) = true
                ∧ Props.fields line !! 4 = Some k) →
  Forall Q res →
  key_loop iso lines "" key expiry res = Some out →
  Forall Q out
  ∧ (length out
     ≤ length res + length (List.filter Props.pub_or_uid_line lines))%nat.
Proof.
  intros HQ. revert key expiry res.
  induction lines as [|line lines IH]; intros key expiry res Hall Hkey Hres H.
  - simpl in H. injection H as <-. split; [done | simpl; lia].
  - assert (line ∈ all) as Hline by (apply Hall; left).
    assert (∀ l, l ∈ lines → l ∈ all) as Hall' by (intros l Hl; apply Hall; by right).
    simpl in H. simpl List.filter.
    unfold Props.pub_or_uid_line at 1. fold (Props.fields line) in *.
    destruct (is_pub_or_uid (Props.fields line)) eqn:Hpu.
    + destruct (Props.fields line !! 9) as [name|] eqn:H9; [|done].
      simpl in H.
      destruct (is_pub (Props.fields line)) eqn:Hpub.
      * destruct (Props.fields line !! 4) as [k|] eqn:H4; [|done].
        simpl in H.
        destruct (Props.fields line !! 5) as [f5|]; [|done]. simpl in H.
        destruct (iso f5) as [e|]; [|done]. simpl in H.
        assert (∀ k', Some k = Some k' →
                  ∃ l, l ∈ all ∧ is_pub (Props.fields l) = true
                       ∧ Props.fields l !! 4 = Some k') as Hkey'.
        { intros k' [= <-]. eauto. }
        destruct (String.eqb_spec name "") as [->|Hname].
        -- destruct (IH _ _ _ Hall' Hkey' Hres H) as [HF Hl].
           split; [done | simpl; lia].
        -- simpl in H.
           assert (Forall Q (res ++ [ {| k_key := k; k_expiry := e;
                                         k_name := name |} ])) as Hres'.
           { apply Forall_app. split; [done|]. apply Forall_singleton.
             apply HQ; simpl; [done|eauto|].
             exists line. unfold Props.pub_or_uid_line. eauto. }
           destruct (IH _ _ _ Hall' Hkey' Hres' H) as [HF Hl].
           split; [done|]. rewrite length_app in Hl. simpl in *. lia.
      * simpl in H.
        destruct (String.eqb_spec name "") as [->|Hname].
        -- destruct (IH _ _ _ Hall' Hkey Hres H) as [HF Hl].
           split; [done | simpl; lia].
        -- destruct key as [k|]; [|done]. simpl in H.
           destruct expiry as [e|]; [|done]. simpl in H.
           assert (Forall Q (res ++ [ {| k_key := k; k_expiry := e;
                                         k_name := name |} ])) as Hres'.
           { apply Forall_app. split; [done|]. apply Forall_singleton.
             apply HQ; simpl; [done|eauto|].
             exists line. unfold Props.pub_or_uid_line. eauto. }
           destruct (IH _ _ _ Hall' Hkey Hres' H) as [HF Hl].
           split; [done|]. rewrite length_app in Hl. simpl in *. lia.
    + simpl in H.
      assert (is_pub (Props.fields line) = false) as Hpub.
      { unfold is_pub, is_pub_or_uid in *.
        destruct (Props.fields line !! 0); [|done].
        by apply orb_false_iff in Hpu as [-> _]. }
      rewrite Hpub in H. simpl in H.
      destruct (IH _ _ _ Hall' Hkey Hres H) as [HF Hl]. by split.
Qed.

(** A key line with an empty user id followed by user id lines. *)
Lemma key_loop_user_ids (iso : string → option string)
    (us : list string) (k e : string) (res : list AptKey) :
  Forall (λ u, Props.fields u !! 0 = Some "uid"
               ∧ ∃ n, Props.fields u !! 9 = Some n ∧ n ≠ "") us →
  key_loop iso us "" (Some k) (Some e) res
  = Some (res ++ ((λ u, {| k_key := k; k_expiry := e;
                           k_name := default "" (Props.fields u !! 9) |})
                  <$> us)).
Proof.
  intros Hus. revert res.
  induction Hus as [|u us (H0 & n & H9 & Hn) _ IH]; intros res; simpl.
  - by rewrite app_nil_r.
  - fold (Props.fields u). unfold is_pub_or_uid, is_pub. rewrite H0, H9.
    simpl. apply String.eqb_neq in Hn. rewrite Hn. simpl.
    by rewrite IH, <- app_assoc.
Qed.

End ReaderFacts.

(** ** Properties of the readers *)
Section ReaderProperties.

Import Apt Readers.

Variable isoformat_of_timestamp : string → option string.

(** X5. Every line [apt_sources_list] returns starts with "deb" and holds
    no newline, and it is the stripped text of an entry with its newlines
    removed. *)
Theorem apt_sources_list_lines (entries : list string) :
  Forall (λ out,
            Py.startswith out "deb" = true
            ∧ Py.count_char "010" out = 0
            ∧ ∃ s, s ∈ entries
                   ∧ out = Props.remove_char "010" (PyTrim.strip s))
    (apt_sources_list entries).
Proof.
  unfold apt_sources_list. apply Forall_forall. intros out Hout.
  apply list_elem_of_bind in Hout as (s & Hout & Hs).
  destruct (Py.startswith (PyTrim.strip s) "deb") eqn:Hdeb; simpl in Hout;
    [|by apply elem_of_nil in Hout].
  destruct (negb _); [|by apply elem_of_nil in Hout].
  apply list_elem_of_singleton in Hout as ->.
  unfold newline. rewrite replace_char_empty.
  split; [by apply remove_newline_deb|].
  split; [apply remove_char_count | eauto].
Qed.

(** X6. Every key [apt_key_list] returns has a non-empty name that is the
    tenth field of a pub or uid line, and as its id the fifth field of a
    pub line; there is at most one key for each pub or uid line. *)
Theorem apt_key_list_records (lines : list string) (res : list AptKey) :
  apt_key_list isoformat_of_timestamp lines = Some res →
  Forall (λ rec,
            k_name rec ≠ ""
            ∧ (∃ line, line ∈ lines ∧ is_pub (Props.fields line) = true
                       ∧ Props.fields line !! 4 = Some (k_key rec))
            ∧ (∃ line, line ∈ lines ∧ Props.pub_or_uid_line line = true
                       ∧ Props.fields line !! 9 = Some (k_name rec))) res
  ∧ (length res ≤ length (List.filter Props.pub_or_uid_line lines))%nat.
Proof.
  intros H. unfold apt_key_list in H.
  eapply (key_loop_records _ lines lines None None [] res) in H;
    [exact H|by auto|done|done|done].
Qed.

(** X7. Lines that are neither pub nor uid lines play no part: the result,
    and whether the function raises, is that of the listing without them. *)
Theorem apt_key_list_ignores_other_lines (lines : list string) :
  apt_key_list isoformat_of_timestamp lines
  = apt_key_list isoformat_of_timestamp
      (List.filter Props.pub_or_uid_line lines).
Proof. apply key_loop_ignores. Qed.

(** X8. For a pub line with an empty user id field followed by uid lines
    with non-empty names, the function returns one key for each uid line,
    in their order, all with the id and the expiry date of the pub line. *)
Theorem apt_key_list_one_key_per_user_id (pub : string) (us : list string)
    (k f5 e : string) :
  Props.fields pub !! 0 = Some "pub" →
  Props.fields pub !! 4 = Some k →
  Props.fields pub !! 5 = Some f5 →
  isoformat_of_timestamp f5 = Some e →
  Props.fields pub !! 9 = Some "" →
  Forall (λ u, Props.fields u !! 0 = Some "uid"
               ∧ ∃ n, Props.fields u !! 9 = Some n ∧ n ≠ "") us →
  apt_key_list isoformat_of_timestamp (pub :: us)
  = Some ((λ u, {| k_key := k; k_expiry := e;
                   k_name := default "" (Props.fields u !! 9) |}) <$> us).
Proof.
  intros H0 H4 H5 He H9 Hus. unfold apt_key_list. simpl.
  fold (Props.fields pub). unfold is_pub_or_uid, is_pub.
  rewrite H0, H9, H4, H5. simpl. rewrite He. simpl.
  by rewrite (key_loop_user_ids _ us k e []).
Qed.

(** X9. When the first pub or uid line of the listing is a uid line with a
    non-empty name, no key is known yet and the function raises. *)
Theorem apt_key_list_user_id_before_key (pre rest : list string)
    (u n : string) :
  Forall (λ line, Props.pub_or_uid_line line = false) pre →
  Props.fields u !! 0 = Some "uid" →
  Props.fields u !! 9 = Some n →
  n ≠ "" →
  apt_key_list isoformat_of_timestamp (pre ++ u :: rest) = None.
Proof.
  intros Hpre H0 H9 Hn. unfold apt_key_list.
  rewrite key_loop_ignores, List.filter_app.
  assert (List.filter Props.pub_or_uid_line pre = []) as ->.
  { induction Hpre as [|l pre Hl _ IH]; [done|]. simpl. by rewrite Hl. }
  simpl. unfold Props.pub_or_uid_line at 1, is_pub_or_uid. rewrite H0.
  simpl. fold (Props.fields u). unfold is_pub_or_uid, is_pub.
  rewrite H0, H9. simpl. apply String.eqb_neq in Hn. by rewrite Hn.
Qed.

End ReaderProperties.

(** ** Facts about the listing of Ubuntu Make *)
Section UmakeFacts.

Import Umake.

(** What the loop over the rows appends and saves. *)
Lemma items_loop_result (all rows : list (list string))
    (cat : option string) (umake_list umake_list' : list Item)
    (w w' : World) :
  (∀ u, u ∈ rows → u ∈ all) →
  (∀ c, cat = Some c → [c] ∈ all) →
  Forall (λ it, [category it] ∈ all) umake_list →
  items_loop rows cat umake_list w = Some (umake_list', w') →
  application <$> umake_list'
  = (application <$> umake_list) ++ omap Props.second_column rows
  ∧ Forall (λ it, [category it] ∈ all) umake_list'
  ∧ (omap Props.second_column rows = [] → umake_list' = umake_list)
  ∧ umake_json w'
    = match omap Props.second_column rows with
      | [] => umake_json w
      | _ => Some umake_list'
      end.
Proof.
  revert cat umake_list w.
  induction rows as [|u rows IH]; intros cat umake_list w Hall Hcat Hl H.
  - simpl in H. injection H as <- <-. simpl. by rewrite app_nil_r.
  - assert (u ∈ all) as Hu by (apply Hall; left).
    assert (∀ u', u' ∈ rows → u' ∈ all) as Hall'
      by (intros u' Hu'; apply Hall; by right).
    simpl in H. destruct u as [|u0 [|u1 [|u2 u]]].
    + by apply (IH _ _ _ Hall' Hcat Hl).
    + apply (IH _ _ _ Hall') in H; [done| |done].
      by intros c [= <-].
    + destruct cat as [c|]; [|done]. simpl in H.
      apply (IH _ _ _ Hall' Hcat) in H.
      * destruct H as (Happ & HF & Hsame & Hjson).
        rewrite fmap_app in Happ. simpl in Happ.
        rewrite <- app_assoc in Happ. simpl in Happ.
        split; [done|]. split; [done|]. simpl. split; [done|].
        destruct (omap Props.second_column rows) eqn:Hrows; [|done].
        by rewrite Hjson, Hsame.
      * apply Forall_app. split; [done|]. apply Forall_singleton. simpl.
        by apply Hcat.
    + by apply (IH _ _ _ Hall' Hcat Hl).
Qed.

End UmakeFacts.

(** ** Properties of the save run of Ubuntu Make *)
Section UmakeProperties.

Import Umake.

(** X10. When the [umake] pipeline fails, when its output has the text
    "error" anywhere in it, or when the output is empty, the save run
    returns without touching the file [umake.json]. *)
Theorem umake_save_keeps_file_without_listing (umake_ret : nat)
    (umake_out : string) (w : World) :
  umake_ret ≠ 0 ∨ Py.contains "error" umake_out = true ∨ umake_out = "" →
  ∃ w', umake_save umake_ret umake_out w = Some w'
        ∧ umake_json w' = umake_json w.
Proof.
  intros H. unfold umake_save.
  destruct (Nat.eqb_spec umake_ret 0) as [->|Hret]; simpl;
    [|by eexists].
  destruct (Py.contains "error" umake_out) eqn:Herr; simpl; [by eexists|].
  destruct H as [H|[H| ->]]; [done..|]. simpl. by eexists.
Qed.

(** X11. After a save run on a listing of a successful pipeline, the file
    is untouched when no row has exactly two columns; otherwise it holds
    one item for each such row, in the order of the rows, with the second
    column as its application and the text of a one-column row as its
    category. *)
Theorem umake_save_items (umake_out : string) (w w' : World) :
  Py.contains "error" umake_out = false →
  umake_save 0 umake_out w = Some w' →
  match omap Props.second_column (Props.umake_rows umake_out) with
  | [] => umake_json w' = umake_json w
  | apps =>
      ∃ items,
        umake_json w' = Some items
        ∧ application <$> items = apps
        ∧ Forall (λ it, [category it] ∈ Props.umake_rows umake_out) items
  end.
Proof.
  intros Herr. unfold umake_save. simpl. rewrite Herr. simpl.
  case_decide as Hlen.
  - fold (Props.umake_rows umake_out).
    assert (0 < length (Py.split umake_out newline))%nat as Hlines.
    { unfold Py.split.
      pose proof (split_go_nonempty newline None 0 umake_out).
      destruct (Py.split_go _ _ _ _); [done | simpl; lia]. }
    assert (0 < length (Props.umake_rows umake_out))%nat as Hrows.
    { unfold Props.umake_rows. by rewrite length_fmap. }
    rewrite !bool_decide_eq_true_2 by done. simpl.
    destruct (items_loop _ _ _ _) as [[items w1]|] eqn:Hloop; [|done].
    simpl. intros [= <-]. simpl.
    apply (items_loop_result (Props.umake_rows umake_out)) in Hloop;
      [|done|done|by constructor].
    destruct Hloop as (Happ & HF & _ & Hjson). simpl in Happ.
    destruct (omap _ _) as [|a apps]; [done|]. eauto.
  - simpl. intros [= <-]. simpl.
    destruct umake_out; [done | simpl in Hlen; lia].
Qed.

(** X12. When the first row of the listing with one or two columns has two
    columns, an application comes before any category and the save run
    raises. *)
Theorem umake_save_application_before_category (umake_out : string)
    (pre rest : list (list string)) (u0 u1 : string) (w : World) :
  Py.contains "error" umake_out = false →
  Props.umake_rows umake_out = pre ++ [u0; u1] :: rest →
  Forall (λ u, length u ≠ 1 ∧ length u ≠ 2) pre →
  umake_save 0 umake_out w = None.
Proof.
  intros Herr Hrows Hpre. unfold umake_save. simpl. rewrite Herr. simpl.
  assert (umake_out ≠ "") as Hne.
  { intros ->. by destruct pre as [|[|? [|? ?]] [|? ?]]. }
  rewrite decide_True by (destruct umake_out; [done | simpl; lia]).
  fold (Props.umake_rows umake_out). rewrite Hrows.
  rewrite !bool_decide_eq_true_2.
  2:{ rewrite length_app. simpl. lia. }
  2:{ apply (f_equal length) in Hrows. unfold Props.umake_rows in Hrows.
      rewrite length_fmap, length_app in Hrows. simpl in Hrows. lia. }
  simpl.
  assert (∀ l w0, items_loop (pre ++ [u0; u1] :: rest) None l w0 = None)
    as Hloop.
  { clear Hrows. induction Hpre as [|u pre [H1 H2] _ IH]; intros l w0;
      [done|].
    simpl. destruct u as [|a [|b [|c u]]]; try done; apply IH. }
  by rewrite Hloop.
Qed.

End UmakeProperties.

(** ** Property of the command line *)
Section MainProperties.

Import Main.

(** X13. The main block starts an operation only for a source whose
    capability flag is set, only in the mode the verb names ("save" or
    "load"), and only when the verb is the one of that source or the one
    for all sources; when it prints a message (an unknown verb, or no
    argument), it starts nothing. *)
Theorem main_starts_what_the_verb_names (argv : list string)
    (snap_ok flatpak_ok umake_ok apt_ok : bool) :
  Forall (λ c,
            Props.flag_of snap_ok flatpak_ok umake_ok apt_ok c.1 = true
            ∧ (c.2 = "save" ∨ c.2 = "load")
            ∧ (argv !! 1 = Some (Props.verb_prefix c.1 +:+ "_" +:+ c.2)
               ∨ argv !! 1 = Some ("all_" +:+ c.2)))
    (calls (main argv snap_ok flatpak_ok umake_ok apt_ok))
  ∧ (message (main argv snap_ok flatpak_ok umake_ok apt_ok) = None
     ∨ calls (main argv snap_ok flatpak_ok umake_ok apt_ok) = []).
Proof.
  unfold main. destruct (argv !! 1) as [op|]; [|split; [constructor | by right]].
  repeat match goal with
         | |- context [String.eqb op ?verb] =>
             destruct (String.eqb_spec op verb) as [->|?];
             [split; [|by left];
              destruct snap_ok, flatpak_ok, umake_ok, apt_ok; simpl;
              repeat first [apply Forall_nil_2 | apply Forall_cons_2];
              simpl;
              (split; [reflexivity|]);
              (split; first [left; reflexivity | right; reflexivity])|]
         end.
  split; [constructor | by right].
Qed.

End MainProperties.

(** ** Further facts about the save run *)
Section MoreSaveFacts.

Import Apt.

Lemma cache_lookup_Some (apt_cache : list Package) (i : string)
    (pkg : Package) :
  cache_lookup apt_cache i = Some pkg → pkg ∈ apt_cache ∧ pkg_name pkg = i.
Proof.
  unfold cache_lookup. intros H.
  destruct (list_find _ apt_cache) as [[j pkg']|] eqn:Hf; [|done].
  simpl in H. injection H as <-.
  apply list_find_Some in Hf as (Hj & Hn & _).
  split; [by eapply list_elem_of_lookup_2 | done].
Qed.

(** The first origins the classification has looked at. *)
Lemma classify_origins (apt_cache : list Package) (installed : list string)
    (b b' : Buckets) :
  classify apt_cache installed b = Some b' →
  ∃ os : list Origin,
    length os = length installed
    ∧ Spec.buckets_size b'
      = Spec.buckets_size b + sum_list (Spec.bucket_count <$> os)
    ∧ Forall (λ o, ∃ pkg, pkg ∈ apt_cache ∧ head (origins pkg) = Some o) os.
Proof.
  revert b. induction installed as [|i installed IH]; intros b H; simpl in H.
  - injection H as <-. exists []. simpl. split; [done|]. split; [lia|done].
  - destruct (cache_lookup apt_cache i) as [pkg|] eqn:Hpkg; [|done].
    simpl in H.
    destruct (head (origins pkg)) as [o|] eqn:Ho; [|done]. simpl in H.
    destruct (IH _ H) as (os & Hlen & Hsize & Hos).
    apply cache_lookup_Some in Hpkg as [Hin _].
    exists (o :: os). split; [simpl; by rewrite Hlen|]. split.
    + rewrite Hsize, classify_step_size, fmap_cons, sum_list_cons. lia.
    + constructor; eauto.
Qed.

Lemma no_overlap_sum (apt_cache : list Package) (os : list Origin) :
  Props.no_overlap apt_cache = true →
  Forall (λ o, ∃ pkg, pkg ∈ apt_cache ∧ head (origins pkg) = Some o) os →
  sum_list (Spec.bucket_count <$> os) = length os.
Proof.
  intros Hno Hos. induction Hos as [|o os (pkg & Hin & Ho) _ IH]; [done|].
  rewrite fmap_cons, sum_list_cons, IH.
  assert (Spec.bucket_count o = 1) as ->; [|done].
  apply bucket_count_one.
  unfold Props.no_overlap in Hno. rewrite forallb_forall in Hno.
  apply list_elem_of_In, Hno in Hin. rewrite Ho in Hin.
  by apply negb_true_iff in Hin.
Qed.

(** One turn of the classification puts the package into at most one of
    the three lists of repository packages, and at most once into the list
    of local packages. *)
Lemma classify_step_lengths (b : Buckets) (name : string) (o : Origin) :
  (length (pkg_ubuntu (classify_step b name o))
   + length (pkg_thirdparty_ppa (classify_step b name o))
   + length (pkg_thirdparty_deb (classify_step b name o))
   ≤ length (pkg_ubuntu b) + length (pkg_thirdparty_ppa b)
     + length (pkg_thirdparty_deb b) + 1)%nat
  ∧ (length (pkg_local (classify_step b name o))
     ≤ length (pkg_local b) + 1)%nat.
Proof.
  unfold classify_step, is_ubuntu, is_thirdparty_ppa, is_thirdparty_deb,
    is_local.
  destruct (String.eqb (o_origin o) "Ubuntu"),
    (String.eqb (o_archive o) "now"), (o_trusted o),
    (Py.startswith (o_origin o) "LP-PPA"); simpl;
    rewrite ?length_app; simpl; lia.
Qed.

Lemma classify_lengths (apt_cache : list Package) (installed : list string)
    (b b' : Buckets) :
  classify apt_cache installed b = Some b' →
  (length (pkg_ubuntu b') + length (pkg_thirdparty_ppa b')
   + length (pkg_thirdparty_deb b')
   ≤ length (pkg_ubuntu b) + length (pkg_thirdparty_ppa b)
     + length (pkg_thirdparty_deb b) + length installed)%nat
  ∧ (length (pkg_local b') ≤ length (pkg_local b) + length installed)%nat.
Proof.
  revert b. induction installed as [|i installed IH]; intros b H; simpl in H.
  - injection H as <-. simpl. lia.
  - destruct (cache_lookup apt_cache i) as [pkg|]; [|done]. simpl in H.
    destruct (head (origins pkg)) as [o|]; [|done]. simpl in H.
    destruct (IH _ H) as [H1 H2].
    destruct (classify_step_lengths b (pkg_name pkg) o) as [H3 H4].
    simpl. lia.
Qed.

(** The names the classification lists are names it was given. *)
Lemma classify_step_names (b : Buckets) (name : string) (o : Origin)
    (n : string) :
  n ∈ Props.bucket_names (classify_step b name o) →
  n ∈ Props.bucket_names b ∨ n = name.
Proof.
  unfold classify_step, Props.bucket_names.
  destruct (is_ubuntu o), (is_thirdparty_ppa o), (is_thirdparty_deb o),
    (is_local o); simpl;
    rewrite ?fmap_app, ?elem_of_app; simpl;
    rewrite ?elem_of_app, ?list_elem_of_singleton; tauto.
Qed.

Lemma classify_names (apt_cache : list Package) (installed : list string)
    (b b' : Buckets) (n : string) :
  classify apt_cache installed b = Some b' →
  n ∈ Props.bucket_names b' →
  n ∈ Props.bucket_names b ∨ n ∈ installed.
Proof.
  revert b. induction installed as [|i installed IH]; intros b H Hn;
    simpl in H.
  - injection H as <-. by left.
  - destruct (cache_lookup apt_cache i) as [pkg|] eqn:Hpkg; [|done].
    simpl in H.
    destruct (head (origins pkg)) as [o|]; [|done]. simpl in H.
    apply cache_lookup_Some in Hpkg as [_ Hname].
    destruct (IH _ H Hn) as [Hb|Hin]; [|right; by right].
    apply classify_step_names in Hb as [Hb| ->]; [by left|].
    right. rewrite Hname. by left.
Qed.

(** A name is installed when it is the name of a manual package that no
    manual package depends on. *)
Lemma installed_names_elem (apt_cache : list Package) (n : string) :
  n ∈ installed_names apt_cache →
  (∃ pkg, pkg ∈ apt_cache ∧ pkg_name pkg = n ∧ is_installed pkg = true
          ∧ is_auto_installed pkg = false)
  ∧ n ∉ depends_of (manual_packages apt_cache).
Proof.
  unfold installed_names. rewrite merge_sort_Permutation.
  rewrite list_elem_of_filter. intros [Hdep Hn].
  split; [|done].
  apply list_elem_of_fmap in Hn as (pkg & -> & Hpkg).
  unfold manual_packages in Hpkg.
  apply list_elem_of_filter in Hpkg as [[Hi Ha] Hpkg]. eauto 10.
Qed.

Lemma index_elements_name (name : string) (o : Origin)
    (indexes : list (option IndexFile)) (t : DebInfo) :
  t ∈ index_elements name o indexes →
  di_name t = name ∧ di_origin t = o ∧ di_deb_url t = None
  ∧ ∃ index, Some index ∈ indexes
             ∧ idx_label index = "Debian Package Index"
             ∧ di_describe t = idx_describe index.
Proof.
  unfold index_elements. intros Ht.
  apply list_elem_of_bind in Ht as ([index|] & Ht & Hin);
    [|by apply elem_of_nil in Ht].
  destruct (String.eqb_spec (idx_label index) "Debian Package Index")
    as [Hl|_]; [|by apply elem_of_nil in Ht].
  apply list_elem_of_singleton in Ht as ->. simpl. eauto 10.
Qed.

Lemma apt_parse_debcache_elem (cache_name : string → string)
    (candidate_indexes : string → option (list (option IndexFile)))
    (package_list : list (string * Origin)) (out_list : list DebInfo)
    (t : DebInfo) :
  apt_parse_debcache cache_name candidate_indexes package_list
  = Some out_list →
  t ∈ out_list →
  (∃ key, (key, di_origin t) ∈ package_list ∧ di_name t = cache_name key)
  ∧ di_deb_url t = None.
Proof.
  revert out_list.
  induction package_list as [|p package_list IH]; intros out_list H Ht;
    simpl in H.
  - injection H as <-. by apply elem_of_nil in Ht.
  - destruct (candidate_indexes p.1) as [indexes|]; [|done]. simpl in H.
    destruct (apt_parse_debcache _ _ package_list) as [out|]; [|done].
    injection H as <-. apply elem_of_app in Ht as [Ht|Ht].
    + apply index_elements_name in Ht as (Hn & Ho & Hu & _).
      split; [|done]. exists p.1. split; [|done].
      rewrite Ho. destruct p. by left.
    + destruct (IH _ eq_refl Ht) as [(key & Hin & Hn) Hu].
      split; [|done]. exists key. split; [by right | done].
Qed.

(** An index file of a package becomes an element of the output. *)
Lemma apt_parse_debcache_has (cache_name : string → string)
    (candidate_indexes : string → option (list (option IndexFile)))
    (package_list : list (string * Origin)) (out_list : list DebInfo)
    (name : string) (o : Origin) (indexes : list (option IndexFile))
    (index : IndexFile) :
  apt_parse_debcache cache_name candidate_indexes package_list
  = Some out_list →
  (name, o) ∈ package_list →
  candidate_indexes name = Some indexes →
  Some index ∈ indexes →
  idx_label index = "Debian Package Index" →
  {| di_name := cache_name name; di_origin := o;
     di_describe := idx_describe index; di_deb_url := None |} ∈ out_list.
Proof.
  intros H Hin Hci Hidx Hlabel. revert out_list H.
  induction package_list as [|p package_list IH]; intros out_list H;
    [by apply elem_of_nil in Hin|].
  simpl in H.
  destruct (candidate_indexes p.1) as [indexes'|] eqn:Hp; [|done].
  simpl in H.
  destruct (apt_parse_debcache _ _ package_list) as [out|]; [|done].
  injection H as <-. apply elem_of_app.
  apply elem_of_cons in Hin as [<-|Hin].
  - left. simpl in Hp. rewrite Hci in Hp. injection Hp as <-.
    unfold index_elements. apply list_elem_of_bind.
    exists (Some index). split; [|done]. simpl.
    apply String.eqb_eq in Hlabel. rewrite Hlabel. by left.
  - right. by apply IH.
Qed.

Lemma add_deb_url_fields (ds : string) (sources_list : list string)
    (t t' : DebInfo) :
  add_deb_url ds sources_list t = Some t' →
  di_name t' = di_name t ∧ di_origin t' = di_origin t
  ∧ di_describe t' = di_describe t.
Proof.
  revert t. induction sources_list as [|s sources_list IH]; intros t H;
    simpl in H.
  - by injection H as <-.
  - destruct (Py.contains ds s).
    + destruct (Normalizer.apt_remove_word_from_brackets_in_sources_list _ _)
        as [url|]; [|done].
      simpl in H. by apply IH in H.
    + by apply IH in H.
Qed.

(** Without a source line that holds the word, the element keeps no
    ['deb-url']. *)
Lemma add_deb_url_no_source (ds : string) (sources_list : list string)
    (t : DebInfo) :
  Forall (λ s, Py.contains ds s = false) sources_list →
  add_deb_url ds sources_list t = Some t.
Proof.
  intros H. induction H as [|s sources_list Hs _ IH]; [done|].
  simpl. by rewrite Hs.
Qed.

Lemma apt_add_deb_url_names (deb_info deb_info' : list DebInfo)
    (sources_list : list string) :
  apt_add_deb_url_to_deb_info deb_info sources_list = Some deb_info' →
  di_name <$> deb_info' = di_name <$> deb_info.
Proof.
  unfold apt_add_deb_url_to_deb_info. intros H. apply mapM_Some_1 in H.
  induction H as [|t t' l l' Ht _ IH]; [done|].
  apply add_deb_url_fields in Ht as (Hn & _ & _).
  rewrite !fmap_cons. by rewrite Hn, IH.
Qed.

Lemma omap_cons_some {A B} (f : A → option B) (x : A) (y : B) (l : list A) :
  f x = Some y → omap f (x :: l) = y :: omap f l.
Proof. intros H. simpl. by rewrite H. Qed.

Lemma record_name_op (op : DebInfo) :
  Props.record_name (op_record op) = Some (di_name op).
Proof. reflexivity. Qed.

Lemma record_name_tp (name deb_url : string) :
  Props.record_name (tp_record name deb_url) = Some name.
Proof. reflexivity. Qed.

Lemma lpp_record_names (p : list DebInfo)
    (launchpad : list (gmap string value)) :
  mapM lpp_record p = Some launchpad →
  omap Props.record_name launchpad = di_name <$> p.
Proof.
  intros H. apply mapM_Some_1 in H.
  induction H as [|lpp r p launchpad Hr _ IH]; [done|].
  unfold lpp_record in Hr.
  destruct (di_deb_url lpp) as [url|]; [|done]. simpl in Hr.
  destruct (Ppa.apt_get_ppa_shortcut url) as [repo|]; [|done].
  injection Hr as <-.
  rewrite fmap_cons, (omap_cons_some _ _ (di_name lpp)) by reflexivity.
  by rewrite IH.
Qed.

Variable unicode_escape : string → option string.

Lemma thirdparty_records_names (apt_keys : list AptKey)
    (info : list DebInfo) packages keys :
  thirdparty_records unicode_escape apt_keys info = Some (packages, keys) →
  omap Props.record_name packages = di_name <$> info.
Proof.
  revert packages keys.
  induction info as [|p info IH]; intros packages keys H; simpl in H.
  - by injection H as <- <-.
  - destruct (di_deb_url p) as [deb_url|]; [|done]. simpl in H.
    destruct (match_keys _ p deb_url apt_keys) as [ks|]; [|done]. simpl in H.
    destruct (thirdparty_records _ apt_keys info) as [[packages' keys']|];
      [|done].
    injection H as <- <-.
    rewrite fmap_cons, (omap_cons_some _ _ (di_name p)) by reflexivity.
    f_equal. by eapply IH.
Qed.

(** A third-party element without ['deb-url'] makes the loop raise. *)
Lemma thirdparty_records_raises (apt_keys : list AptKey)
    (info : list DebInfo) (t : DebInfo) :
  t ∈ info → di_deb_url t = None →
  thirdparty_records unicode_escape apt_keys info = None.
Proof.
  intros Hin Hu. induction info as [|p info IH];
    [by apply elem_of_nil in Hin|].
  simpl. apply elem_of_cons in Hin as [<-|Hin]; [by rewrite Hu|].
  destruct (di_deb_url p) as [deb_url|]; [|done]. simpl.
  destruct (match_keys _ p deb_url apt_keys) as [ks|]; [|done]. simpl.
  by rewrite IH.
Qed.


End MoreSaveFacts.

Section MoreSaveFacts2.

Import Apt.

Lemma mapM_elem {A B} (f : A → option B) (l : list A) (l' : list B)
    (x : A) (y : B) :
  mapM f l = Some l' → x ∈ l → f x = Some y → y ∈ l'.
Proof.
  intros H Hx Hy. apply mapM_Some_1 in H.
  induction H as [|a b l l' Hab _ IH]; [by apply elem_of_nil in Hx|].
  apply elem_of_cons in Hx as [<-|Hx].
  - rewrite Hy in Hab. injection Hab as <-. by left.
  - right. by apply IH.
Qed.

Lemma op_record_names (u : list DebInfo) :
  omap Props.record_name (op_record <$> u) = di_name <$> u.
Proof.
  induction u as [|op u IH]; [done|].
  rewrite !fmap_cons, (omap_cons_some _ _ (di_name op)) by reflexivity.
  by rewrite IH.
Qed.

Lemma apt_parse_debcache_names (cache_name : string → string)
    (candidate_indexes : string → option (list (option IndexFile)))
    (package_list : list (string * Origin)) (out_list : list DebInfo)
    (n : string) :
  apt_parse_debcache cache_name candidate_indexes package_list
  = Some out_list →
  n ∈ di_name <$> out_list →
  ∃ key, key ∈ package_list.*1 ∧ n = cache_name key.
Proof.
  intros H Hn. apply list_elem_of_fmap in Hn as (t & -> & Ht).
  destruct (apt_parse_debcache_elem _ _ _ _ _ H Ht)
    as [(key & Hin & Hname) _].
  exists key. split; [|done].
  apply list_elem_of_fmap. by exists (key, di_origin t).
Qed.

Variable unicode_escape : string → option string.

Lemma match_keys_elem (p : DebInfo) (deb_url : string)
    (apt_keys : list AptKey) (l : list (gmap string value))
    (r : gmap string value) :
  match_keys unicode_escape p deb_url apt_keys = Some l →
  r ∈ l →
  ∃ k, r = tpk_record (di_name p) k ∧ k ∈ apt_keys
       ∧ Py.startswith (k_name k) "Launchpad" = false.
Proof.
  revert l. induction apt_keys as [|k apt_keys IH]; intros l H Hr;
    simpl in H.
  - injection H as <-. by apply elem_of_nil in Hr.
  - destruct (Py.startswith (k_name k) "Launchpad") eqn:Hlp; simpl in H.
    + destruct (IH _ H Hr) as (k' & -> & Hk' & Hlp').
      exists k'. split; [done|]. split; [by right | done].
    + destruct (e6 _ deb_url k) as [b6|]; [|done]. simpl in H.
      destruct (match_keys _ p deb_url apt_keys) as [rest|]; [|done].
      injection H as <-.
      assert (r = tpk_record (di_name p) k ∨ r ∈ rest) as [->|Hrest].
      { destruct (_ || _); [by apply elem_of_cons in Hr | by right]. }
      * exists k. split; [done|]. split; [by left | done].
      * destruct (IH _ eq_refl Hrest) as (k' & -> & Hk' & Hlp').
        exists k'. split; [done|]. split; [by right | done].
Qed.

Lemma thirdparty_records_keys (apt_keys : list AptKey) (info : list DebInfo)
    packages keys (r : gmap string value) :
  thirdparty_records unicode_escape apt_keys info = Some (packages, keys) →
  r ∈ keys →
  ∃ n k, r = tpk_record n k ∧ k ∈ apt_keys
         ∧ Py.startswith (k_name k) "Launchpad" = false
         ∧ n ∈ omap Props.record_name packages.
Proof.
  revert packages keys.
  induction info as [|p info IH]; intros packages keys H Hr; simpl in H.
  - injection H as <- <-. by apply elem_of_nil in Hr.
  - destruct (di_deb_url p) as [deb_url|]; [|done]. simpl in H.
    destruct (match_keys _ p deb_url apt_keys) as [ks|] eqn:Hks; [|done].
    simpl in H.
    destruct (thirdparty_records _ apt_keys info) as [[packages' keys']|];
      [|done].
    injection H as <- <-.
    rewrite (omap_cons_some _ _ (di_name p)) by reflexivity.
    apply elem_of_app in Hr as [Hr|Hr].
    + destruct (match_keys_elem _ _ _ _ _ Hks Hr) as (k & -> & Hk & Hlp).
      exists (di_name p), k. repeat (split; [done|]). by left.
    + destruct (IH _ _ eq_refl Hr) as (n & k & -> & Hk & Hlp & Hn).
      exists n, k. repeat (split; [done|]). by right.
Qed.

End MoreSaveFacts2.

(** ** Further properties of the save run *)
Section MoreSaveProperties.

Import Apt.

Variable unicode_escape : string → option string.
Variable dict_repr : AptKey → string.

(** X14. When no package of the cache has a first origin that is official
    and, at the same time, untrusted or "now", the four bucket counts of
    the snapshot sum to its total. *)
Theorem bucket_sum_is_total_without_overlap (h : Host) (w w' : World)
    (d : Snapshot) :
  apt_operations unicode_escape dict_repr h "save" w = Some w' →
  debs_json w' = Some d →
  Props.no_overlap (h_apt_cache h) = true →
  Spec.bucket_sum (package_stats d) = total (package_stats d).
Proof.
  intros Hrun Hd Hno.
  destruct (apt_operations_save_inv _ _ _ _ _ Hrun) as (w0 & w1 & Hsave & Hw).
  destruct (apt_save_inv _ _ _ _ Hsave)
    as (b & u & p & t & p' & t' & launchpad & packages & keys & Hb & _ & _
        & _ & _ & _ & _ & _ & Hjson).
  rewrite Hw, Hjson in Hd. injection Hd as <-.
  destruct (classify_origins _ _ _ _ Hb) as (os & Hlen & Hsize & Hos).
  rewrite (no_overlap_sum _ _ Hno Hos) in Hsize.
  unfold Spec.bucket_sum. simpl.
  unfold Spec.buckets_size in Hsize. simpl in Hsize. lia.
Qed.

(** X15. In the snapshot of a save run the official, PPA and third-party
    counts together do not exceed the total, and neither does the local
    count. *)
Theorem bucket_counts_within_total (h : Host) (w w' : World) (d : Snapshot) :
  apt_operations unicode_escape dict_repr h "save" w = Some w' →
  debs_json w' = Some d →
  (official (package_stats d) + ppas (package_stats d)
   + thirdparty (package_stats d) ≤ total (package_stats d))%nat
  ∧ (local (package_stats d) ≤ total (package_stats d))%nat.
Proof.
  intros Hrun Hd.
  destruct (apt_operations_save_inv _ _ _ _ _ Hrun) as (w0 & w1 & Hsave & Hw).
  destruct (apt_save_inv _ _ _ _ Hsave)
    as (b & u & p & t & p' & t' & launchpad & packages & keys & Hb & _ & _
        & _ & _ & _ & _ & _ & Hjson).
  rewrite Hw, Hjson in Hd. injection Hd as <-.
  destruct (classify_lengths _ _ _ _ Hb) as [H1 H2]. simpl in *. lia.
Qed.

(** X16. In the snapshot of a save run, every name in the list of local
    packages is the name of a package of the cache that is installed, not
    automatically installed and not among the dependencies of the manually
    installed packages; every package name in the three repository lists
    is the name that the cache of [apt_pkg] gives for such a package. *)
Theorem listed_packages_are_manual_and_no_dependency (h : Host)
    (w w' : World) (d : Snapshot) (n : string) :
  apt_operations unicode_escape dict_repr h "save" w = Some w' →
  debs_json w' = Some d →
  (n ∈ local_packages d →
   (∃ pkg, pkg ∈ h_apt_cache h ∧ pkg_name pkg = n
           ∧ is_installed pkg = true ∧ is_auto_installed pkg = false)
   ∧ n ∉ depends_of (manual_packages (h_apt_cache h)))
  ∧ (n ∈ omap Props.record_name
           (official_packages d ++ launchpad_ppa_packages d
            ++ thirdparty_packages d) →
     ∃ key,
       n = h_cache_name h key
       ∧ (∃ pkg, pkg ∈ h_apt_cache h ∧ pkg_name pkg = key
                 ∧ is_installed pkg = true ∧ is_auto_installed pkg = false)
       ∧ key ∉ depends_of (manual_packages (h_apt_cache h))).
Proof.
  intros Hrun Hd.
  destruct (apt_operations_save_inv _ _ _ _ _ Hrun) as (w0 & w1 & Hsave & Hw).
  destruct (apt_save_inv _ _ _ _ Hsave)
    as (b & u & p & t & p' & t' & launchpad & packages & keys & Hb & Hu & Hp
        & Ht & Hp' & Ht' & Hl & Hk & Hjson).
  rewrite Hw, Hjson in Hd. injection Hd as <-.
  assert (∀ key, key ∈ Props.bucket_names b →
                 key ∈ installed_names (h_apt_cache h)) as Hkey.
  { intros key Hbn.
    destruct (classify_names _ _ _ _ _ Hb Hbn) as [Hno|Hin]; [|done].
    by apply elem_of_nil in Hno. }
  split.
  - simpl. intros Hn. apply installed_names_elem, Hkey.
    unfold Props.bucket_names. rewrite !elem_of_app. auto.
  - simpl. intros Hn.
    assert (∃ key, key ∈ Props.bucket_names b ∧ n = h_cache_name h key)
      as (key & Hbn & ->).
    { rewrite !omap_app, op_record_names, (lpp_record_names _ _ Hl),
        (thirdparty_records_names _ _ _ _ _ Hk),
        (apt_add_deb_url_names _ _ _ Hp'), (apt_add_deb_url_names _ _ _ Ht')
        in Hn.
      unfold Props.bucket_names. rewrite !elem_of_app in Hn.
      destruct Hn as [Hn|[Hn|Hn]];
        [destruct (apt_parse_debcache_names _ _ _ _ _ Hu Hn)
           as (key & Hin & ->)
        |destruct (apt_parse_debcache_names _ _ _ _ _ Hp Hn)
           as (key & Hin & ->)
        |destruct (apt_parse_debcache_names _ _ _ _ _ Ht Hn)
           as (key & Hin & ->)];
        exists key; rewrite !elem_of_app; auto. }
    exists key. split; [done|]. by apply installed_names_elem, Hkey.
Qed.

(** X17. When a package classified as PPA or third-party has a package
    index file whose description starts with a word that no source line
    holds, the save run raises and stores no snapshot. *)
Theorem save_raises_without_source_line (h : Host) (w : World) (b : Buckets)
    (name : string) (o : Origin) (indexes : list (option IndexFile))
    (index : IndexFile) :
  classify (h_apt_cache h) (installed_names (h_apt_cache h)) no_buckets
  = Some b →
  (name, o) ∈ pkg_thirdparty_ppa b ++ pkg_thirdparty_deb b →
  h_candidate_indexes h name = Some indexes →
  Some index ∈ indexes →
  idx_label index = "Debian Package Index" →
  Forall (λ s, Py.contains (Props.describe_word (idx_describe index)) s
               = false) (h_sources_list h) →
  apt_operations unicode_escape dict_repr h "save" w = None.
Proof.
  intros Hb Hin Hci Hidx Hlabel Hsrc.
  unfold apt_operations.
  change (String.eqb "save" "save") with true. cbv beta iota.
  assert (apt_save unicode_escape h
            (print (MsgMode "save") (detect_distro (h_distro h) w)) = None)
    as ->; [|done].
  unfold apt_save. rewrite Hb. simpl.
  destruct (apt_parse_debcache _ _ (pkg_ubuntu b)) as [u|]; [|done]. simpl.
  destruct (apt_parse_debcache _ _ (pkg_thirdparty_ppa b)) as [p|] eqn:Hp;
    [|done].
  simpl.
  destruct (apt_parse_debcache _ _ (pkg_thirdparty_deb b)) as [t|] eqn:Ht;
    [|done].
  simpl.
  destruct (apt_add_deb_url_to_deb_info p _) as [p'|] eqn:Hp'; [|done].
  simpl.
  destruct (apt_add_deb_url_to_deb_info t _) as [t'|] eqn:Ht'; [|done].
  simpl.
  set (e := {| di_name := h_cache_name h name; di_origin := o;
               di_describe := idx_describe index; di_deb_url := None |}).
  assert (add_deb_url (Props.describe_word (di_describe e))
            (h_sources_list h) e = Some e) as He
    by by apply add_deb_url_no_source.
  apply elem_of_app in Hin as [Hin|Hin].
  - assert (e ∈ p') as He'.
    { eapply (mapM_elem _ p p' e e Hp'); [|exact He].
      by eapply apt_parse_debcache_has. }
    assert (mapM lpp_record p' = None) as ->; [|done].
    apply mapM_None_2, Exists_exists. by exists e.
  - assert (e ∈ t') as He'.
    { eapply (mapM_elem _ t t' e e Ht'); [|exact He].
      by eapply apt_parse_debcache_has. }
    destruct (mapM lpp_record p') as [launchpad|]; [|done]. simpl.
    by rewrite (thirdparty_records_raises _ _ _ e He').
Qed.

(** X18. Every record of matched keys in the snapshot of a save run pairs
    the name of a third-party package of the snapshot with one of the keys
    of the host, and never with a key whose name starts with
    "Launchpad". *)
Theorem matched_keys_are_host_keys (h : Host) (w w' : World) (d : Snapshot) :
  apt_operations unicode_escape dict_repr h "save" w = Some w' →
  debs_json w' = Some d →
  Forall (λ r, ∃ n k,
                 r = tpk_record n k ∧ k ∈ h_apt_keys h
                 ∧ Py.startswith (k_name k) "Launchpad" = false
                 ∧ n ∈ omap Props.record_name (thirdparty_packages d))
    (thirdparty_keys d).
Proof.
  intros Hrun Hd.
  destruct (apt_operations_save_inv _ _ _ _ _ Hrun) as (w0 & w1 & Hsave & Hw).
  destruct (apt_save_inv _ _ _ _ Hsave)
    as (b & u & p & t & p' & t' & launchpad & packages & keys & _ & _ & _
        & _ & _ & _ & _ & Hk & Hjson).
  rewrite Hw, Hjson in Hd. injection Hd as <-. simpl.
  apply Forall_forall. intros r Hr.
  by eapply thirdparty_records_keys.
Qed.


End MoreSaveProperties.

(** ** Further facts about the load run *)
Section MoreLoadFacts.

Import Apt.

Variable dict_repr : AptKey → string.

Lemma files_append_command_other f f' c w :
  f ≠ f' → files (append_command_to_script f c w) !! f' = files w !! f'.
Proof. intros Hne. simpl. by rewrite lookup_insert_ne. Qed.

Lemma files_append_commands_other f f' cs w :
  f ≠ f' → files (append_commands f cs w) !! f' = files w !! f'.
Proof.
  intros Hne. revert w. induction cs as [|c cs IH]; intros w; simpl; [done|].
  by rewrite IH, files_append_command_other.
Qed.

(** What a section of the load run does to the world, when it returns. *)
Lemma load_official_effect (d : Snapshot) (w w' : World) :
  load_official dict_repr d w = Some w' →
  debs_json w' = debs_json w
  ∧ (∀ f, apt_script_file ≠ f → files w' !! f = files w !! f)
  ∧ (∀ old, files w !! apt_script_file = Some old →
            files w' !! apt_script_file
            = Some (old ++ Props.section_commands
                             (official (package_stats d))
                             (official_commands dict_repr d))).
Proof.
  unfold load_official, Props.section_commands. case_decide.
  - destruct (apt_show_package_names_dict _) as [names|]; [|done]. simpl.
    destruct (official_commands dict_repr d) as [cmds|]; [|done]. simpl.
    intros [= <-]. rewrite debs_json_append_commands.
    split; [done|]. split.
    + intros f Hf. by rewrite files_append_commands_other.
    + intros old Hold. by apply files_append_commands.
  - intros [= <-]. split; [done|]. split; [done|].
    intros old Hold. by rewrite app_nil_r.
Qed.

Lemma load_ppa_effect (d : Snapshot) (w w' : World) :
  load_ppa dict_repr d w = Some w' →
  debs_json w' = debs_json w
  ∧ (∀ f, apt_script_file ≠ f → files w' !! f = files w !! f)
  ∧ (∀ old, files w !! apt_script_file = Some old →
            files w' !! apt_script_file
            = Some (old ++ Props.section_commands (ppas (package_stats d))
                             (ppa_commands dict_repr d))).
Proof.
  unfold load_ppa, Props.section_commands. case_decide.
  - destruct (apt_show_package_names_dict _) as [names|]; [|done]. simpl.
    destruct (ppa_commands dict_repr d) as [cmds|]; [|done]. simpl.
    intros [= <-]. rewrite debs_json_append_commands.
    split; [done|]. split.
    + intros f Hf. by rewrite files_append_commands_other.
    + intros old Hold. by apply files_append_commands.
  - intros [= <-]. split; [done|]. split; [done|].
    intros old Hold. by rewrite app_nil_r.
Qed.

Lemma load_thirdparty_effect (d : Snapshot) (w w' : World) :
  load_thirdparty dict_repr d w = Some w' →
  debs_json w' = debs_json w
  ∧ (∀ f, apt_script_file ≠ f → files w' !! f = files w !! f)
  ∧ (∀ old, files w !! apt_script_file = Some old →
            files w' !! apt_script_file
            = Some (old ++ Props.section_commands
                             (thirdparty (package_stats d))
                             (thirdparty_commands dict_repr d))).
Proof.
  unfold load_thirdparty, Props.section_commands. case_decide.
  - destruct (apt_show_package_names_dict _) as [names|]; [|done]. simpl.
    destruct (thirdparty_commands dict_repr d) as [cmds|]; [|done]. simpl.
    intros [= <-]. rewrite debs_json_append_commands.
    split; [done|]. split.
    + intros f Hf. by rewrite files_append_commands_other.
    + intros old Hold. by apply files_append_commands.
  - intros [= <-]. split; [done|]. split; [done|].
    intros old Hold. by rewrite app_nil_r.
Qed.

Lemma debs_json_load_local (d : Snapshot) (w : World) :
  debs_json (load_local d w) = debs_json w.
Proof. unfold load_local. by case_decide. Qed.

(** On a well-formed snapshot no section raises. *)
Lemma load_official_total (d : Snapshot) (w : World) :
  Spec.wf_snapshot d = true → is_Some (load_official dict_repr d w).
Proof.
  intros Hwf. unfold load_official. case_decide; [|done].
  destruct (names_total (official_packages d)) as [names ->].
  { unfold Spec.wf_snapshot in Hwf. rewrite !andb_true_iff in Hwf. tauto. }
  destruct (official_commands_total dict_repr d Hwf) as (cmds & -> & _).
  done.
Qed.

Lemma load_ppa_total (d : Snapshot) (w : World) :
  Spec.wf_snapshot d = true → is_Some (load_ppa dict_repr d w).
Proof.
  intros Hwf. unfold load_ppa. case_decide; [|done].
  destruct (names_total (launchpad_ppa_packages d)) as [names ->].
  { unfold Spec.wf_snapshot in Hwf. rewrite !andb_true_iff in Hwf. tauto. }
  destruct (ppa_commands_total dict_repr d Hwf) as (cmds & -> & _).
  done.
Qed.

Lemma load_thirdparty_total (d : Snapshot) (w : World) :
  Spec.wf_snapshot d = true → is_Some (load_thirdparty dict_repr d w).
Proof.
  intros Hwf. unfold load_thirdparty. case_decide; [|done].
  destruct (names_total (thirdparty_packages d)) as [names ->].
  { unfold Spec.wf_snapshot in Hwf. rewrite !andb_true_iff in Hwf. tauto. }
  destruct (thirdparty_commands_total dict_repr d Hwf)
    as (? & ? & ? & _ & _ & _ & ->).
  done.
Qed.

(** What a load run does to the world, when it returns. *)
Lemma apt_load_effect (h : Host) (w w' : World) (d : Snapshot) :
  debs_json w = Some d →
  apt_load dict_repr h w = Some w' →
  debs_json w' = Some d
  ∧ (∀ f, apt_script_file ≠ f → files w' !! f = files w !! f)
  ∧ files w' !! apt_script_file = Some (Props.expected_script dict_repr h d).
Proof.
  intros Hd. unfold apt_load, Props.expected_script.
  cbn [debs_json print truncate_file]. rewrite Hd. cbn [mbind option_bind].
  fold (Spec.same_distro h d).
  destruct (Spec.same_distro h d); cbn [andb].
  - case_bool_decide as Htotal.
    + rewrite decide_True by done.
      match goal with
      | |- context [load_official _ _ ?w0] => set (wa := w0)
      end.
      assert (files wa !! apt_script_file
              = Some (["#!/bin/bash";
                       guard_line (d_codename (h_distro h))])) as Hwa.
      { subst wa.
        erewrite files_append_command;
          [|apply files_append_command; cbn [files print truncate_file];
            apply lookup_insert_eq].
        done. }
      assert (debs_json wa = Some d) as Hda by done.
      assert (∀ f, apt_script_file ≠ f → files wa !! f = files w !! f)
        as Hoa.
      { intros f Hf. subst wa.
        rewrite !files_append_command_other by done.
        cbn [files print truncate_file]. by rewrite lookup_insert_ne. }
      clearbody wa.
      destruct (load_official dict_repr d wa) as [w1|] eqn:H1; [|done].
      cbn [mbind option_bind].
      destruct (load_official_effect _ _ _ H1) as (Hd1 & Ho1 & Hs1).
      destruct (load_ppa dict_repr d w1) as [w2|] eqn:H2; [|done].
      cbn [mbind option_bind].
      destruct (load_ppa_effect _ _ _ H2) as (Hd2 & Ho2 & Hs2).
      destruct (load_thirdparty dict_repr d w2) as [w3|] eqn:H3; [|done].
      cbn [mbind option_bind].
      destruct (load_thirdparty_effect _ _ _ H3) as (Hd3 & Ho3 & Hs3).
      intros [= <-]. cbn [debs_json files print].
      rewrite debs_json_load_local, files_load_local.
      split; [congruence|]. split.
      * intros f Hf. rewrite Ho3, Ho2, Ho1 by done. by apply Hoa.
      * rewrite (Hs3 _ (Hs2 _ (Hs1 _ Hwa))). by rewrite <- !app_assoc.
    + rewrite decide_False by done. intros [= <-].
      cbn [debs_json files print truncate_file].
      split; [done|]. split; [|apply lookup_insert_eq].
      intros f Hf. by rewrite lookup_insert_ne.
  - intros [= <-]. cbn [debs_json files print truncate_file].
    split; [done|]. split; [|apply lookup_insert_eq].
    intros f Hf. by rewrite lookup_insert_ne.
Qed.

(** On a well-formed snapshot the load run returns. *)
Lemma apt_load_total (h : Host) (w : World) (d : Snapshot) :
  debs_json w = Some d →
  Spec.wf_snapshot d = true →
  is_Some (apt_load dict_repr h w).
Proof.
  intros Hd Hwf. unfold apt_load.
  cbn [debs_json print truncate_file]. rewrite Hd. cbn [mbind option_bind].
  destruct (_ && _); [|done].
  case_decide; [|done].
  match goal with
  | |- context [load_official _ _ ?w0] =>
      destruct (load_official_total d w0 Hwf) as [w1 ->]
  end.
  cbn [mbind option_bind].
  destruct (load_ppa_total d w1 Hwf) as [w2 ->]. cbn [mbind option_bind].
  destruct (load_thirdparty_total d w2 Hwf) as [w3 ->]. done.
Qed.

End MoreLoadFacts.

Section MoreLoadFacts2.

Import Apt.

Lemma count_line_app (line : string) (a b : list string) :
  Props.count_line line (a ++ b)
  = Props.count_line line a + Props.count_line line b.
Proof. unfold Props.count_line. by rewrite filter_app, length_app. Qed.

Lemma count_line_none (line : string) (ls : list string) :
  Forall (λ l, l ≠ line) ls → Props.count_line line ls = 0.
Proof.
  unfold Props.count_line. intros H.
  induction H as [|l ls Hl _ IH]; [done|].
  by rewrite filter_cons_False.
Qed.

Lemma count_line_cons_ne (line l : string) (ls : list string) :
  l ≠ line → Props.count_line line (l :: ls) = Props.count_line line ls.
Proof. intros H. unfold Props.count_line. by rewrite filter_cons_False. Qed.

Lemma not_refresh (l : string) :
  Py.startswith l "apt-g" = false → l ≠ "apt-get update".
Proof. intros H ->. vm_compute in H. discriminate. Qed.

Lemma count_refresh_tail (names : list string) :
  Props.count_line "apt-get update" ["apt-get update"; install_line names]
  = 1.
Proof.
  unfold Props.count_line.
  rewrite filter_cons_True by done.
  rewrite filter_cons_False; [done|]. by apply not_refresh.
Qed.

Variable dict_repr : AptKey → string.

Lemma official_commands_refresh (d : Snapshot) (cmds : list string) :
  official_commands dict_repr d = Some cmds →
  Props.count_line "apt-get update" cmds = 1.
Proof.
  unfold official_commands. intros H.
  destruct (Uniq.extract_unique_elements _ "component") as [comps|];
    [|done].
  simpl in H.
  destruct (Uniq.extract_unique_elements _ "name") as [out|]; [|done].
  simpl in H. destruct (mapM join_item out) as [names|]; [|done].
  injection H as <-.
  rewrite count_line_cons_ne by by apply not_refresh.
  rewrite !count_line_app, count_refresh_tail.
  rewrite !count_line_none; [done|].
  apply Forall_fmap, Forall_true. intros v. by apply not_refresh.
Qed.

Lemma ppa_commands_refresh (d : Snapshot) (cmds : list string) :
  ppa_commands dict_repr d = Some cmds →
  Props.count_line "apt-get update" cmds = 1.
Proof.
  unfold ppa_commands. intros H.
  destruct (Uniq.extract_unique_elements _ "repo") as [repos|]; [|done].
  simpl in H.
  destruct (Uniq.extract_unique_elements _ "name") as [out|]; [|done].
  simpl in H. destruct (mapM join_item out) as [names|]; [|done].
  injection H as <-.
  rewrite !count_line_app, count_refresh_tail.
  rewrite !count_line_none; [done|].
  apply Forall_fmap, Forall_true. intros v. by apply not_refresh.
Qed.

Lemma thirdparty_commands_refresh (d : Snapshot) (cmds : list string) :
  thirdparty_commands dict_repr d = Some cmds →
  Props.count_line "apt-get update" cmds = 1.
Proof.
  unfold thirdparty_commands. intros H.
  destruct (Uniq.extract_unique_elements _ "key") as [keys|]; [|done].
  simpl in H. destruct (mapM key_id keys) as [tpks|]; [|done]. simpl in H.
  destruct (Uniq.extract_unique_elements _ "repo") as [tprs|]; [|done].
  simpl in H.
  destruct (Uniq.extract_unique_elements _ "name") as [out|]; [|done].
  simpl in H. destruct (mapM join_item out) as [names|]; [|done].
  injection H as <-.
  rewrite !count_line_app, count_refresh_tail.
  rewrite !count_line_none; [done| |].
  - apply Forall_fmap, Forall_true. intros v. by apply not_refresh.
  - apply Forall_fmap, Forall_true. intros v. by apply not_refresh.
Qed.

Lemma section_refresh (n : nat) (commands : option (list string)) :
  (∀ cmds, commands = Some cmds →
           Props.count_line "apt-get update" cmds = 1) →
  is_Some commands →
  Props.count_line "apt-get update" (Props.section_commands n commands)
  = if decide (0 < n) then 1 else 0.
Proof.
  intros H [cmds ->]. unfold Props.section_commands.
  case_decide; [by apply H | done].
Qed.

Variable unicode_escape : string → option string.

(** A load run is the load branch between two prints. *)
Lemma apt_operations_load_inv (h : Host) (w w' : World) :
  apt_operations unicode_escape dict_repr h "load" w = Some w' →
  ∃ w0 w1,
    debs_json w0 = debs_json w ∧ files w0 = files w
    ∧ apt_load dict_repr h w0 = Some w1
    ∧ debs_json w' = debs_json w1 ∧ files w' = files w1.
Proof.
  unfold apt_operations.
  change (String.eqb "load" "save") with false. cbv beta iota.
  destruct (apt_load _ _ _) as [w1|] eqn:Hload; [|done].
  intros [= <-]. eexists _, w1. split; [|split; [|split; [exact Hload|done]]].
  - simpl. apply debs_json_detect_distro.
  - simpl. apply files_detect_distro.
Qed.

Lemma apt_operations_load_total (h : Host) (w : World) (d : Snapshot) :
  debs_json w = Some d →
  Spec.wf_snapshot d = true →
  is_Some (apt_operations unicode_escape dict_repr h "load" w).
Proof.
  intros Hd Hwf. unfold apt_operations.
  change (String.eqb "load" "save") with false. cbv beta iota.
  destruct (apt_load_total dict_repr h
              (print (MsgMode "load") (detect_distro (h_distro h) w)) d)
    as [w1 ->]; [|done..].
  simpl. by rewrite debs_json_detect_distro.
Qed.

(** The script of a load run. *)
Lemma apt_operations_load_script (h : Host) (w w' : World) (d : Snapshot) :
  debs_json w = Some d →
  apt_operations unicode_escape dict_repr h "load" w = Some w' →
  debs_json w' = Some d
  ∧ (∀ f, apt_script_file ≠ f → files w' !! f = files w !! f)
  ∧ files w' !! apt_script_file = Some (Props.expected_script dict_repr h d).
Proof.
  intros Hd Hrun.
  destruct (apt_operations_load_inv _ _ _ Hrun)
    as (w0 & w1 & Hd0 & Hf0 & Hload & Hd1 & Hf1).
  rewrite <- Hd0 in Hd.
  destruct (apt_load_effect dict_repr _ _ _ _ Hd Hload) as (Hj & Ho & Hs).
  rewrite Hd1, Hf1, <- Hf0. by repeat split.
Qed.

End MoreLoadFacts2.

(** ** Further properties of the load run *)
Section MoreLoadProperties.

Import Apt.

Variable unicode_escape : string → option string.
Variable dict_repr : AptKey → string.

(** X20. On the host of the snapshot, with at least one package in it, the
    script of a load run has one line "apt-get update" for each of the
    official, PPA and third-party counts that is positive, and no other. *)
Theorem script_has_one_refresh_per_section (h : Host) (w : World)
    (d : Snapshot) :
  debs_json w = Some d →
  Spec.wf_snapshot d = true →
  Spec.same_distro h d = true →
  (0 < total (package_stats d))%nat →
  ∃ w' script,
    apt_operations unicode_escape dict_repr h "load" w = Some w'
    ∧ files w' !! apt_script_file = Some script
    ∧ Props.count_line "apt-get update" script
      = (if decide (0 < official (package_stats d))%nat then 1 else 0)
        + (if decide (0 < ppas (package_stats d))%nat then 1 else 0)
        + (if decide (0 < thirdparty (package_stats d))%nat then 1 else 0).
Proof.
  intros Hd Hwf Hsame Htotal.
  destruct (apt_operations_load_total dict_repr unicode_escape h w d Hd Hwf)
    as [w' Hrun].
  destruct (apt_operations_load_script dict_repr unicode_escape _ _ _ _ Hd
              Hrun) as (_ & _ & Hs).
  exists w', (Props.expected_script dict_repr h d).
  split; [done|]. split; [done|].
  unfold Props.expected_script.
  rewrite Hsame, bool_decide_eq_true_2 by done. cbn [andb].
  destruct (official_commands_total dict_repr d Hwf) as (c1 & H1 & _).
  destruct (ppa_commands_total dict_repr d Hwf) as (c2 & H2 & _).
  destruct (thirdparty_commands_total dict_repr d Hwf)
    as (? & ? & ? & _ & _ & _ & H3).
  rewrite !count_line_app.
  rewrite (section_refresh _ _ (official_commands_refresh dict_repr d))
    by by rewrite H1.
  rewrite (section_refresh _ _ (ppa_commands_refresh dict_repr d))
    by by rewrite H2.
  rewrite (section_refresh _ _ (thirdparty_commands_refresh dict_repr d))
    by by rewrite H3.
  rewrite count_line_none; [lia|].
  repeat constructor; by apply not_refresh.
Qed.

(** X21. The script of a load run does not depend on the local packages:
    a snapshot that differs only in its list of local packages and in its
    local count gives the same script. *)
Theorem load_script_ignores_local_packages (h : Host) (w : World)
    (d : Snapshot) (locals : list string) (n : nat) :
  debs_json w = Some d →
  Spec.wf_snapshot d = true →
  ∃ w1 w2,
    apt_operations unicode_escape dict_repr h "load" w = Some w1
    ∧ apt_operations unicode_escape dict_repr h "load"
        (Props.with_snapshot w (Props.with_local d locals n)) = Some w2
    ∧ files w2 !! apt_script_file = files w1 !! apt_script_file.
Proof.
  intros Hd Hwf.
  destruct (apt_operations_load_total dict_repr unicode_escape h w d Hd Hwf)
    as [w1 Hrun1].
  destruct (apt_operations_load_total dict_repr unicode_escape h
              (Props.with_snapshot w (Props.with_local d locals n))
              (Props.with_local d locals n) eq_refl Hwf)
    as [w2 Hrun2].
  exists w1, w2. split; [done|]. split; [done|].
  destruct (apt_operations_load_script dict_repr unicode_escape _ _ _ _ Hd
              Hrun1) as (_ & _ & ->).
  destruct (apt_operations_load_script dict_repr unicode_escape h
              (Props.with_snapshot w (Props.with_local d locals n)) w2
              (Props.with_local d locals n) eq_refl Hrun2) as (_ & _ & ->).
  reflexivity.
Qed.

(** X22. A load run on a host whose distribution id differs from the one
    recorded in the snapshot reports the mismatch and leaves the script
    file empty, also when the codenames agree. *)
Theorem load_on_other_distro_id_writes_nothing (h : Host) (w : World)
    (d : Snapshot) :
  debs_json w = Some d →
  d_id (distro d) ≠ d_id (h_distro h) →
  ∃ w',
    apt_operations unicode_escape dict_repr h "load" w = Some w'
    ∧ files w' !! apt_script_file = Some []
    ∧ MsgWrongDistro (d_codename (distro d)) (d_id (distro d))
        (d_codename (h_distro h)) (d_id (h_distro h)) ∈ stdout w'.
Proof.
  intros Hd Hne. apply String.eqb_neq in Hne.
  unfold apt_operations, apt_load.
  change (String.eqb "load" "save") with false. cbv beta iota.
  cbn [debs_json print truncate_file].
  rewrite debs_json_detect_distro, Hd. cbn [mbind option_bind].
  rewrite Hne, andb_false_r. cbn [mbind option_bind].
  eexists. split; [reflexivity|]. cbn [files stdout print truncate_file].
  split; [apply lookup_insert_eq|].
  rewrite !elem_of_app, !list_elem_of_singleton. tauto.
Qed.

(** X23. A load run right after a save run on the same host does not
    raise; its script is empty when the snapshot has no package, and
    otherwise starts with the interpreter line and the guard for the
    codename of the host. *)
Theorem load_after_save_on_same_host (h : Host) (w w1 : World) :
  apt_operations unicode_escape dict_repr h "save" w = Some w1 →
  ∃ d w2 script,
    debs_json w1 = Some d
    ∧ apt_operations unicode_escape dict_repr h "load" w1 = Some w2
    ∧ debs_json w2 = Some d
    ∧ files w2 !! apt_script_file = Some script
    ∧ (total (package_stats d) = 0 → script = [])
    ∧ ((0 < total (package_stats d))%nat →
       ∃ rest, script
               = "#!/bin/bash" :: guard_line (d_codename (h_distro h))
                 :: rest).
Proof.
  intros Hsave.
  destruct (apt_operations_save_inv _ _ _ _ _ Hsave) as (w0 & w' & Hs & Hw).
  destruct (apt_save_inv _ _ _ _ Hs)
    as (b & u & p & t & p' & t' & launchpad & packages & keys & _ & _ & _
        & _ & _ & _ & _ & _ & Hjson).
  rewrite Hjson in Hw. clear Hjson.
  match type of Hw with _ = Some ?snap => set (d := snap) in * end.
  pose proof (save_wf _ _ _ _ _ _ Hsave Hw) as Hwf.
  destruct (apt_operations_load_total dict_repr unicode_escape h w1 d Hw Hwf)
    as [w2 Hrun].
  destruct (apt_operations_load_script dict_repr unicode_escape _ _ _ _ Hw
              Hrun) as (Hd2 & _ & Hscr).
  exists d, w2, (Props.expected_script dict_repr h d).
  repeat (split; [done|]).
  unfold Props.expected_script.
  assert (Spec.same_distro h d = true) as ->.
  { unfold Spec.same_distro. subst d. simpl. by rewrite !String.eqb_refl. }
  cbn [andb]. split.
  - intros H0. rewrite bool_decide_eq_false_2; [done | lia].
  - intros Hpos. rewrite bool_decide_eq_true_2 by done. eauto.
Qed.

(** X24. A load run that returns leaves the snapshot document as it was
    and changes no file but the script file. *)
Theorem load_leaves_snapshot_and_other_files (h : Host) (w w' : World) :
  apt_operations unicode_escape dict_repr h "load" w = Some w' →
  debs_json w' = debs_json w
  ∧ ∀ f, f ≠ apt_script_file → files w' !! f = files w !! f.
Proof.
  intros Hrun.
  destruct (debs_json w) as [d|] eqn:Hd.
  - destruct (apt_operations_load_script dict_repr unicode_escape _ _ _ _ Hd
                Hrun) as (Hj & Ho & _).
    split; [done|]. intros f Hf. by apply Ho.
  - exfalso. revert Hrun. unfold apt_operations, apt_load.
    change (String.eqb "load" "save") with false. cbv beta iota.
    cbn [debs_json print truncate_file].
    by rewrite debs_json_detect_distro, Hd.
Qed.

End MoreLoadProperties.

(** ** Properties of the repository lines of the save run *)
Section SourceLineProperties.

Import Apt.

Lemma add_deb_url_app (ds : string) (l1 l2 : list string) (t : DebInfo) :
  add_deb_url ds (l1 ++ l2) t = add_deb_url ds l1 t ≫= add_deb_url ds l2.
Proof.
  revert t. induction l1 as [|s l1 IH]; intros t; [done|]. simpl.
  destruct (Py.contains ds s); [|apply IH].
  destruct (Normalizer.apt_remove_word_from_brackets_in_sources_list _ _)
    as [url|]; [|done].
  simpl. apply IH.
Qed.

(** X25. When several source lines hold the word the function looks for,
    the normalized form of the last of them is the ['deb-url'] of the
    element; its other fields are left as they are. *)
Theorem add_deb_url_keeps_last_source (ds : string)
    (pre post : list string) (s url : string) (t t1 : DebInfo) :
  add_deb_url ds pre t = Some t1 →
  Py.contains ds s = true →
  Normalizer.apt_remove_word_from_brackets_in_sources_list s "signed-by"
  = Some url →
  Forall (λ s', Py.contains ds s' = false) post →
  add_deb_url ds (pre ++ s :: post) t
  = Some {| di_name := di_name t; di_origin := di_origin t;
            di_describe := di_describe t; di_deb_url := Some url |}.
Proof.
  intros Hpre Hs Hurl Hpost.
  rewrite add_deb_url_app, Hpre. simpl. rewrite Hs, Hurl. simpl.
  rewrite add_deb_url_no_source by done.
  by destruct (add_deb_url_fields _ _ _ _ Hpre) as (-> & -> & ->).
Qed.

Variable unicode_escape : string → option string.
Variable dict_repr : AptKey → string.

(** X26. When the repository line found for a PPA package does not hold
    the marker "ppa.launchpad.net/", the save run raises and stores no
    snapshot. *)
Theorem save_raises_on_ppa_without_marker (h : Host) (w : World)
    (b : Buckets) (p p' : list DebInfo) (t : DebInfo) (url : string) :
  classify (h_apt_cache h) (installed_names (h_apt_cache h)) no_buckets
  = Some b →
  apt_parse_debcache (h_cache_name h) (h_candidate_indexes h) (pkg_thirdparty_ppa b)
  = Some p →
  apt_add_deb_url_to_deb_info p (h_sources_list h) = Some p' →
  t ∈ p' →
  di_deb_url t = Some url →
  Py.contains Ppa.marker url = false →
  apt_operations unicode_escape dict_repr h "save" w = None.
Proof.
  intros Hb Hp Hp' Ht Hurl Hmarker.
  unfold apt_operations.
  change (String.eqb "save" "save") with true. cbv beta iota.
  assert (apt_save unicode_escape h
            (print (MsgMode "save") (detect_distro (h_distro h) w)) = None)
    as ->; [|done].
  unfold apt_save. rewrite Hb. simpl.
  destruct (apt_parse_debcache _ _ (pkg_ubuntu b)) as [u|]; [|done]. simpl.
  rewrite Hp. simpl.
  destruct (apt_parse_debcache _ _ (pkg_thirdparty_deb b)) as [td|]; [|done].
  simpl. rewrite Hp'. simpl.
  destruct (apt_add_deb_url_to_deb_info td _) as [td'|]; [|done]. simpl.
  assert (mapM lpp_record p' = None) as ->; [|done].
  apply mapM_None_2, Exists_exists. exists t. split; [done|].
  unfold lpp_record. rewrite Hurl. simpl.
  by rewrite (ppa_shortcut_raises _ Hmarker).
Qed.

End SourceLineProperties.

(** ** The order of the local packages *)
Section SortedProperties.

Import Apt.

Lemma StronglySorted_sublist {A} (R : relation A) (l1 l2 : list A) :
  l1 `sublist_of` l2 → StronglySorted R l2 → StronglySorted R l1.
Proof.
  intros Hsub. induction Hsub as [|x l1 l2 Hsub IH|x l1 l2 Hsub IH];
    intros Hs; [done|..].
  - apply StronglySorted_cons in Hs as [Hx Hs].
    apply StronglySorted_cons. split; [|by apply IH].
    rewrite Forall_forall in *. intros y Hy. apply Hx.
    by eapply elem_of_sublist.
  - apply StronglySorted_cons in Hs as [_ Hs]. by apply IH.
Qed.

Lemma classify_local_sublist (apt_cache : list Package)
    (installed : list string) (b b' : Buckets) :
  classify apt_cache installed b = Some b' →
  ∃ l, pkg_local b' = pkg_local b ++ l ∧ l `sublist_of` installed.
Proof.
  revert b. induction installed as [|i installed IH]; intros b H; simpl in H.
  - injection H as <-. exists []. by rewrite app_nil_r.
  - destruct (cache_lookup apt_cache i) as [pkg|] eqn:Hpkg; [|done].
    simpl in H.
    destruct (head (origins pkg)) as [o|]; [|done]. simpl in H.
    apply cache_lookup_Some in Hpkg as [_ Hname].
    destruct (IH _ H) as (l & -> & Hl).
    unfold classify_step.
    destruct (is_ubuntu o), (is_thirdparty_ppa o), (is_thirdparty_deb o),
      (is_local o); simpl;
      first [ exists (i :: l); rewrite <- app_assoc, Hname;
              split; [done | by apply sublist_skip]
            | exists l; split; [done | by apply sublist_cons] ].
Qed.

Variable unicode_escape : string → option string.
Variable dict_repr : AptKey → string.

(** X27. The list of local packages in the snapshot of a save run is in
    ascending order of the package names. *)
Theorem local_packages_are_sorted (h : Host) (w w' : World) (d : Snapshot) :
  apt_operations unicode_escape dict_repr h "save" w = Some w' →
  debs_json w' = Some d →
  StronglySorted String.le (local_packages d).
Proof.
  intros Hrun Hd.
  destruct (apt_operations_save_inv _ _ _ _ _ Hrun) as (w0 & w1 & Hsave & Hw).
  destruct (apt_save_inv _ _ _ _ Hsave)
    as (b & u & p & t & p' & t' & launchpad & packages & keys & Hb & _ & _
        & _ & _ & _ & _ & _ & Hjson).
  rewrite Hw, Hjson in Hd. injection Hd as <-. simpl.
  destruct (classify_local_sublist _ _ _ _ Hb) as (l & -> & Hl). simpl.
  apply (StronglySorted_sublist _ _ _ Hl).
  apply Sorted_StronglySorted; [apply _|]. apply Sorted_merge_sort, _.
Qed.

End SortedProperties.

(** ** Instances of the further properties *)
Section FurtherInstances.

Import Apt Examples MoreExamples.

(** The save run on the host of the examples. *)
Lemma demo_save_run :
  ∃ w', apt_operations plain_escape repr_by_id host_demo "save" empty_world
        = Some w'
        ∧ debs_json w' = Some demo_snapshot.
Proof.
  destruct (apt_operations plain_escape repr_by_id host_demo "save"
              empty_world) as [w'|] eqn:Hrun;
    [|vm_compute in Hrun; discriminate].
  exists w'. split; [reflexivity|].
  vm_compute in Hrun. injection Hrun as <-. reflexivity.
Qed.

Lemma apt_key_list_records_witness :
  ∃ res,
    Readers.apt_key_list timestamp_text key_listing = Some res
    ∧ Forall (λ rec,
                k_name rec ≠ ""
                ∧ (∃ line, line ∈ key_listing
                           ∧ Readers.is_pub (Props.fields line) = true
                           ∧ Props.fields line !! 4 = Some (k_key rec))
                ∧ (∃ line, line ∈ key_listing
                           ∧ Props.pub_or_uid_line line = true
                           ∧ Props.fields line !! 9 = Some (k_name rec))) res
    ∧ (length res ≤ length (List.filter Props.pub_or_uid_line key_listing))%nat.
Proof.
  destruct (Readers.apt_key_list timestamp_text key_listing) as [res|] eqn:H;
    [|vm_compute in H; discriminate].
  exists res. split; [reflexivity|].
  exact (apt_key_list_records timestamp_text key_listing res H).
Defined.

Lemma apt_key_list_one_key_per_user_id_witness :
  Readers.apt_key_list timestamp_text [pub_line; uid_line; second_uid_line]
  = Some [ {| k_key := "8D81803C0EBFCD88"; k_expiry := "1487788586";
              k_name := "Docker Release (CE deb) <docker@docker.com>" |};
           {| k_key := "8D81803C0EBFCD88"; k_expiry := "1487788586";
              k_name := "Docker Packaging <packaging@docker.com>" |} ].
Proof.
  rewrite (apt_key_list_one_key_per_user_id timestamp_text pub_line
             [uid_line; second_uid_line] "8D81803C0EBFCD88" "1487788586"
             "1487788586");
    [vm_compute; reflexivity | vm_compute; reflexivity..|].
  repeat apply Forall_cons_2; [..|apply Forall_nil_2];
    (split; [vm_compute; reflexivity|]);
    eexists; (split; [vm_compute; reflexivity | discriminate]).
Defined.

Lemma apt_key_list_user_id_before_key_witness :
  Readers.apt_key_list timestamp_text ([tru_line] ++ uid_line :: [pub_line])
  = None.
Proof.
  apply (apt_key_list_user_id_before_key timestamp_text [tru_line] [pub_line]
           uid_line "Docker Release (CE deb) <docker@docker.com>");
    [|vm_compute; reflexivity..|discriminate].
  apply Forall_cons_2; [vm_compute; reflexivity | apply Forall_nil_2].
Defined.

Lemma umake_save_keeps_file_without_listing_witness :
  Py.contains "error" "umake: error: no framework" = true
  ∧ ∃ w', Umake.umake_save 0 "umake: error: no framework" umake_world
          = Some w'
          ∧ Umake.umake_json w' = Umake.umake_json umake_world.
Proof.
  split; [vm_compute; reflexivity|].
  apply (umake_save_keeps_file_without_listing 0
           "umake: error: no framework" umake_world).
  right. left. vm_compute. reflexivity.
Defined.

Lemma umake_save_items_witness :
  ∃ w' items,
    Umake.umake_save 0 umake_listing umake_world = Some w'
    ∧ Umake.umake_json w' = Some items
    ∧ Umake.application <$> items = ["pycharm"; "idea"; "blender"]
    ∧ Forall (λ it, [Umake.category it] ∈ Props.umake_rows umake_listing)
        items.
Proof.
  destruct (Umake.umake_save 0 umake_listing umake_world) as [w'|] eqn:Hrun;
    [|vm_compute in Hrun; discriminate].
  assert (Py.contains "error" umake_listing = false) as Herr
    by (vm_compute; reflexivity).
  pose proof (umake_save_items umake_listing umake_world w' Herr Hrun) as H.
  assert (omap Props.second_column (Props.umake_rows umake_listing)
          = ["pycharm"; "idea"; "blender"]) as Heq
    by (vm_compute; reflexivity).
  rewrite Heq in H. destruct H as (items & H1 & H2 & H3).
  exists w', items. split; [reflexivity|]. split; [exact H1|].
  split; [exact H2 | exact H3].
Defined.

Lemma umake_save_application_before_category_witness :
  Umake.umake_save 0
    ("a" +:+ Umake.tab +:+ "b" +:+ Umake.tab +:+ "c" +:+ Umake.newline
     +:+ Umake.tab +:+ "pycharm") umake_world
  = None.
Proof.
  apply (umake_save_application_before_category _ [["a"; "b"; "c"]] []
           "" "pycharm");
    [vm_compute; reflexivity | vm_compute; reflexivity|].
  apply Forall_cons_2; [simpl; lia | apply Forall_nil_2].
Defined.

Lemma bucket_sum_is_total_without_overlap_witness :
  Props.no_overlap (h_apt_cache host_demo) = true
  ∧ Spec.bucket_sum (package_stats demo_snapshot)
    = total (package_stats demo_snapshot).
Proof.
  split; [vm_compute; reflexivity|].
  destruct demo_save_run as (w' & Hrun & Hd).
  apply (bucket_sum_is_total_without_overlap plain_escape repr_by_id
           host_demo empty_world w' demo_snapshot Hrun Hd).
  vm_compute. reflexivity.
Defined.

Lemma bucket_counts_within_total_witness :
  (official (package_stats demo_snapshot) + ppas (package_stats demo_snapshot)
   + thirdparty (package_stats demo_snapshot)
   ≤ total (package_stats demo_snapshot))%nat
  ∧ (local (package_stats demo_snapshot)
     ≤ total (package_stats demo_snapshot))%nat.
Proof.
  destruct demo_save_run as (w' & Hrun & Hd).
  exact (bucket_counts_within_total plain_escape repr_by_id host_demo
           empty_world w' demo_snapshot Hrun Hd).
Defined.

Lemma listed_packages_are_manual_and_no_dependency_witness :
  ∃ w' d,
    apt_operations plain_escape repr_by_id host_foreign "save" empty_world
    = Some w'
    ∧ debs_json w' = Some d
    ∧ omap Props.record_name
        (official_packages d ++ launchpad_ppa_packages d
         ++ thirdparty_packages d) = ["wine32"]
    ∧ ∃ key,
        "wine32" = h_cache_name host_foreign key
        ∧ (∃ pkg, pkg ∈ h_apt_cache host_foreign ∧ pkg_name pkg = key
                  ∧ is_installed pkg = true ∧ is_auto_installed pkg = false)
        ∧ key ∉ depends_of (manual_packages (h_apt_cache host_foreign)).
Proof.
  destruct (apt_operations plain_escape repr_by_id host_foreign "save"
              empty_world) as [w'|] eqn:Hrun;
    [|vm_compute in Hrun; discriminate].
  destruct (debs_json w') as [d|] eqn:Hd;
    [|vm_compute in Hrun; injection Hrun as <-; discriminate Hd].
  assert (omap Props.record_name
            (official_packages d ++ launchpad_ppa_packages d
             ++ thirdparty_packages d) = ["wine32"]) as Hnames.
  { pose proof Hrun as Hc. vm_compute in Hc. injection Hc as <-.
    vm_compute in Hd. injection Hd as <-. vm_compute. reflexivity. }
  exists w', d. split; [reflexivity|]. split; [exact Hd|].
  split; [exact Hnames|].
  destruct (listed_packages_are_manual_and_no_dependency plain_escape
              repr_by_id host_foreign empty_world w' d "wine32" Hrun Hd)
    as [_ H].
  apply H. rewrite Hnames. apply list_elem_of_here.
Defined.

Lemma save_raises_without_source_line_witness :
  apt_operations plain_escape repr_by_id host_without_source "save"
    empty_world = None.
Proof.
  apply (save_raises_without_source_line plain_escape repr_by_id
           host_without_source empty_world
           {| pkg_ubuntu := []; pkg_thirdparty_ppa := [("foo", o_ppa)];
              pkg_thirdparty_deb := []; pkg_local := [] |}
           "foo" o_ppa [Some ppa_index] ppa_index);
    [vm_compute; reflexivity | apply list_elem_of_here | reflexivity
    | apply list_elem_of_here | reflexivity |].
  apply Forall_cons_2; [vm_compute; reflexivity | apply Forall_nil_2].
Defined.

Lemma matched_keys_are_host_keys_witness :
  Forall (λ r, ∃ n k,
                 r = tpk_record n k ∧ k ∈ h_apt_keys host_demo
                 ∧ Py.startswith (k_name k) "Launchpad" = false
                 ∧ n ∈ omap Props.record_name
                         (thirdparty_packages demo_snapshot))
    (thirdparty_keys demo_snapshot).
Proof.
  destruct demo_save_run as (w' & Hrun & Hd).
  exact (matched_keys_are_host_keys plain_escape repr_by_id host_demo
           empty_world w' demo_snapshot Hrun Hd).
Defined.


Lemma script_has_one_refresh_per_section_witness :
  ∃ w' script,
    apt_operations plain_escape repr_by_id host_demo "load" saved_world
    = Some w'
    ∧ files w' !! apt_script_file = Some script
    ∧ Props.count_line "apt-get update" script = 3.
Proof.
  destruct (script_has_one_refresh_per_section plain_escape repr_by_id
              host_demo saved_world demo_snapshot)
    as (w' & script & Hrun & Hfile & Hcount);
    [reflexivity | vm_compute; reflexivity | vm_compute; reflexivity
    | simpl; lia |].
  exists w', script. split; [exact Hrun|]. split; [exact Hfile|].
  exact Hcount.
Defined.

Lemma load_script_ignores_local_packages_witness :
  ∃ w1 w2,
    apt_operations plain_escape repr_by_id host_demo "load" saved_world
    = Some w1
    ∧ apt_operations plain_escape repr_by_id host_demo "load"
        (Props.with_snapshot saved_world
           (Props.with_local demo_snapshot [] 0)) = Some w2
    ∧ files w2 !! apt_script_file = files w1 !! apt_script_file.
Proof.
  apply (load_script_ignores_local_packages plain_escape repr_by_id
           host_demo saved_world demo_snapshot [] 0);
    [reflexivity | vm_compute; reflexivity].
Defined.

Lemma load_on_other_distro_id_writes_nothing_witness :
  d_codename (distro demo_snapshot) = d_codename (h_distro host_other_id)
  ∧ ∃ w',
      apt_operations plain_escape repr_by_id host_other_id "load" saved_world
      = Some w'
      ∧ files w' !! apt_script_file = Some []
      ∧ MsgWrongDistro "bionic" "Ubuntu" "bionic" "Debian" ∈ stdout w'.
Proof.
  split; [reflexivity|].
  apply (load_on_other_distro_id_writes_nothing plain_escape repr_by_id
           host_other_id saved_world demo_snapshot);
    [reflexivity | vm_compute; discriminate].
Defined.

Lemma load_after_save_on_same_host_witness :
  ∃ w1 d w2 script,
    apt_operations plain_escape repr_by_id host_demo "save" empty_world
    = Some w1
    ∧ debs_json w1 = Some d
    ∧ apt_operations plain_escape repr_by_id host_demo "load" w1 = Some w2
    ∧ debs_json w2 = Some d
    ∧ files w2 !! apt_script_file = Some script.
Proof.
  destruct demo_save_run as (w1 & Hrun & _).
  destruct (load_after_save_on_same_host plain_escape repr_by_id host_demo
              empty_world w1 Hrun)
    as (d & w2 & script & H1 & H2 & H3 & H4 & _).
  exists w1, d, w2, script. split; [exact Hrun|]. split; [exact H1|].
  split; [exact H2|]. split; [exact H3 | exact H4].
Defined.

Lemma load_leaves_snapshot_and_other_files_witness :
  ∃ w',
    apt_operations plain_escape repr_by_id host_demo "load" saved_world
    = Some w'
    ∧ debs_json w' = debs_json saved_world
    ∧ ∀ f, f ≠ apt_script_file → files w' !! f = files saved_world !! f.
Proof.
  destruct (apt_operations plain_escape repr_by_id host_demo "load"
              saved_world) as [w'|] eqn:Hrun;
    [|vm_compute in Hrun; discriminate].
  exists w'. split; [reflexivity|].
  exact (load_leaves_snapshot_and_other_files plain_escape repr_by_id
           host_demo saved_world w' Hrun).
Defined.

Lemma add_deb_url_keeps_last_source_witness :
  add_deb_url "https://download.docker.com/linux/ubuntu"
    (["deb https://download.docker.com/linux/ubuntu bionic edge"]
     ++ "deb [arch=amd64 signed-by=/usr/share/keyrings/docker.gpg] https://download.docker.com/linux/ubuntu bionic stable"
        :: ["deb http://archive.ubuntu.com/ubuntu bionic main"])
    {| di_name := "docker-ce"; di_origin := o_docker;
       di_describe :=
         "https://download.docker.com/linux/ubuntu bionic/stable amd64 Packages";
       di_deb_url := None |}
  = Some {| di_name := "docker-ce"; di_origin := o_docker;
            di_describe :=
              "https://download.docker.com/linux/ubuntu bionic/stable amd64 Packages";
            di_deb_url :=
              Some "deb [arch=amd64] https://download.docker.com/linux/ubuntu bionic stable" |}.
Proof.
  apply (add_deb_url_keeps_last_source
           "https://download.docker.com/linux/ubuntu"
           ["deb https://download.docker.com/linux/ubuntu bionic edge"]
           ["deb http://archive.ubuntu.com/ubuntu bionic main"]
           "deb [arch=amd64 signed-by=/usr/share/keyrings/docker.gpg] https://download.docker.com/linux/ubuntu bionic stable"
           "deb [arch=amd64] https://download.docker.com/linux/ubuntu bionic stable"
           {| di_name := "docker-ce"; di_origin := o_docker;
              di_describe :=
                "https://download.docker.com/linux/ubuntu bionic/stable amd64 Packages";
              di_deb_url := None |}
           {| di_name := "docker-ce"; di_origin := o_docker;
              di_describe :=
                "https://download.docker.com/linux/ubuntu bionic/stable amd64 Packages";
              di_deb_url :=
                Some "deb https://download.docker.com/linux/ubuntu bionic edge" |});
    [vm_compute; reflexivity..|].
  apply Forall_cons_2; [vm_compute; reflexivity | apply Forall_nil_2].
Defined.

Lemma save_raises_on_ppa_without_marker_witness :
  apt_operations plain_escape repr_by_id host_launchpadcontent "save"
    empty_world = None.
Proof.
  apply (save_raises_on_ppa_without_marker plain_escape repr_by_id
           host_launchpadcontent empty_world
           {| pkg_ubuntu := []; pkg_thirdparty_ppa := [("foo", o_ppa)];
              pkg_thirdparty_deb := []; pkg_local := [] |}
           [ {| di_name := "foo"; di_origin := o_ppa;
                di_describe :=
                  "https://ppa.launchpadcontent.net/bar/baz/ubuntu bionic/main amd64 Packages";
                di_deb_url := None |} ]
           [ {| di_name := "foo"; di_origin := o_ppa;
                di_describe :=
                  "https://ppa.launchpadcontent.net/bar/baz/ubuntu bionic/main amd64 Packages";
                di_deb_url :=
                  Some "deb https://ppa.launchpadcontent.net/bar/baz/ubuntu bionic main" |} ]
           {| di_name := "foo"; di_origin := o_ppa;
              di_describe :=
                "https://ppa.launchpadcontent.net/bar/baz/ubuntu bionic/main amd64 Packages";
              di_deb_url :=
                Some "deb https://ppa.launchpadcontent.net/bar/baz/ubuntu bionic main" |}
           "deb https://ppa.launchpadcontent.net/bar/baz/ubuntu bionic main");
    [vm_compute; reflexivity | vm_compute; reflexivity
    | vm_compute; reflexivity | apply list_elem_of_here | reflexivity
    | vm_compute; reflexivity].
Defined.

Lemma local_packages_are_sorted_witness :
  StronglySorted String.le (local_packages demo_snapshot).
Proof.
  destruct demo_save_run as (w' & Hrun & Hd).
  exact (local_packages_are_sorted plain_escape repr_by_id host_demo
           empty_world w' demo_snapshot Hrun Hd).
Defined.

End FurtherInstances.

(** ** Facts about the enumerations of the script *)
Section EnumerationFacts.

Import Apt.



#[local] Instance VStr_inj : Inj (=) (=) VStr.
Proof. by intros s1 s2 [= ->]. Qed.

#[local] Instance VKey_inj : Inj (=) (=) VKey.
Proof. by intros k1 k2 [= ->]. Qed.







Lemma app_inv_head_s (p a b : string) : p +:+ a = p +:+ b → a = b.
Proof.
  induction p as [|c p IH]; intros H.
  - by rewrite !app_nil_l_s in H.
  - rewrite !app_cons_s in H. injection H as H. by apply IH.
Qed.

Lemma app_inv_tail_s (a b c : string) : a +:+ c = b +:+ c → a = b.
Proof.
  revert b. induction a as [|x a IH]; intros [|y b] H; [done|..].
  - apply (f_equal String.length) in H. rewrite !length_app_s in H.
    simpl in H. lia.
  - apply (f_equal String.length) in H. rewrite !length_app_s in H.
    simpl in H. lia.
  - rewrite !app_cons_s in H. injection H as -> H. f_equal. by apply IH.
Qed.

#[local] Instance repo_line_inj : Inj (=) (=) repo_line.
Proof. intros a b H. by apply app_inv_head_s in H. Qed.

#[local] Instance quoted_repo_line_inj : Inj (=) (=) quoted_repo_line.
Proof.
  intros a b H. unfold quoted_repo_line in H.
  apply app_inv_head_s in H. by apply app_inv_tail_s in H.
Qed.

#[local] Instance key_line_inj : Inj (=) (=) key_line.
Proof. intros a b H. by apply app_inv_head_s in H. Qed.

Variable dict_repr : AptKey → string.






End EnumerationFacts.

(** ** The claim about de-duplication and the script *)
Section EnumerationClaims.

Import Apt.

Variable dict_repr : AptKey → string.

Context {V : Type} `{EqDecision V}.


End EnumerationClaims.


